(** * QuickDesk: the ticket lifecycle and the notification fan-out of [app.py]

    A shallow embedding of the route handlers and notification helpers of
    the QuickDesk help desk ([app.py]), and the properties of its
    specification that concern them.

    Conventions of the embedding.
    - A table is the list of its rows in primary-key (insertion) order;
      integer columns and timestamps are [Z]; text columns are [string];
      a nullable column is an [option].
    - [datetime.utcnow()] is an input of a request: every handler takes the
      reading [now] of the clock, and all readings made while one request is
      served are this one instant.
    - A helper that can raise runs in the monad [M], a state monad over the
      database with exceptions; what was committed before an exception stays
      committed, as each [create_notification] commits on its own.
    - The [Attachment] table and the upload folder are kept apart from
      the database, in [Store]: only [new_ticket] writes them. *)

From Stdlib Require Import ZArith List String Ascii Bool Lia.
From Stdlib Require Import Permutation Sorted DecimalString.
Import ListNotations.

Local Open Scope string_scope.
Local Open Scope Z_scope.

(** ** Database models *)

Module User.
Record t := mk {
  id : Z;
  username : string;
  email : string;
  password_hash : string;
  role : string;            (* user, agent, admin; default 'user' *)
  created_at : Z }.
End User.

Module Category.
Record t := mk {
  id : Z;
  name : string;
  description : option string;
  created_at : Z }.
End Category.

Module Ticket.
Record t := mk {
  id : Z;
  subject : string;
  description : string;
  status : string;          (* open, in_progress, resolved, closed *)
  priority : string;        (* low, medium, high, urgent *)
  created_at : Z;
  updated_at : Z;           (* onupdate=datetime.utcnow *)
  user_id : Z;
  category_id : Z;
  assigned_to : option Z;
  upvotes : Z;
  downvotes : Z }.

Definition set_status (t0 : t) (s : string) : t :=
  mk (id t0) (subject t0) (description t0) s (priority t0) (created_at t0)
     (updated_at t0) (user_id t0) (category_id t0) (assigned_to t0)
     (upvotes t0) (downvotes t0).

Definition set_updated_at (t0 : t) (u : Z) : t :=
  mk (id t0) (subject t0) (description t0) (status t0) (priority t0)
     (created_at t0) u (user_id t0) (category_id t0) (assigned_to t0)
     (upvotes t0) (downvotes t0).

Definition set_upvotes (t0 : t) (n : Z) : t :=
  mk (id t0) (subject t0) (description t0) (status t0) (priority t0)
     (created_at t0) (updated_at t0) (user_id t0) (category_id t0)
     (assigned_to t0) n (downvotes t0).

Definition set_downvotes (t0 : t) (n : Z) : t :=
  mk (id t0) (subject t0) (description t0) (status t0) (priority t0)
     (created_at t0) (updated_at t0) (user_id t0) (category_id t0)
     (assigned_to t0) (upvotes t0) n.

(** Equality of the columns other than [updated_at]: whether a flush has
    anything to write besides the timestamp. *)
Definition same_columns (a b : t) : bool :=
  (id a =? id b) && String.eqb (subject a) (subject b)
  && String.eqb (description a) (description b)
  && String.eqb (status a) (status b)
  && String.eqb (priority a) (priority b)
  && (created_at a =? created_at b) && (user_id a =? user_id b)
  && (category_id a =? category_id b)
  && match assigned_to a, assigned_to b with
     | Some x, Some y => x =? y
     | None, None => true
     | _, _ => false
     end
  && (upvotes a =? upvotes b) && (downvotes a =? downvotes b).
End Ticket.

Module Comment.
Record t := mk {
  id : Z;
  content : string;
  created_at : Z;
  user_id : Z;
  ticket_id : Z }.
End Comment.

Module Notification.
Record t := mk {
  id : Z;
  user_id : Z;
  ticket_id : Z;
  comment_id : option Z;
  type : string;
  message : string;
  is_read : bool;           (* default False *)
  created_at : Z }.

Definition set_is_read (n : t) (b : bool) : t :=
  mk (id n) (user_id n) (ticket_id n) (comment_id n) (type n) (message n) b
     (created_at n).
End Notification.

Record DB := mkDB {
  users : list User.t;
  categories : list Category.t;
  tickets : list Ticket.t;
  comments : list Comment.t;
  notifications : list Notification.t }.

Definition with_notifications (db : DB) (ns : list Notification.t) : DB :=
  mkDB (users db) (categories db) (tickets db) (comments db) ns.

Definition with_tickets (db : DB) (ts : list Ticket.t) : DB :=
  mkDB (users db) (categories db) ts (comments db) (notifications db).

(** ** Queries *)

(** [Model.query.get(id)]: the row with that primary key. *)
Definition get_user (db : DB) (uid : Z) : option User.t :=
  find (fun u => User.id u =? uid) (users db).

Definition get_ticket (db : DB) (tid : Z) : option Ticket.t :=
  find (fun t => Ticket.id t =? tid) (tickets db).

(** [User.query.filter_by(role=r).all()] *)
Definition users_with_role (db : DB) (r : string) : list User.t :=
  filter (fun u => String.eqb (User.role u) r) (users db).

(** The next value of an integer primary key: one more than the largest
    key in the table. *)
Definition next_id (ids : list Z) : Z :=
  fold_right Z.max 0 ids + 1.

(** The integers SQLite stores, and takes as the parameter of a
    statement, are those of 64 bits; binding any other Python integer
    raises [OverflowError]. *)
Definition sqlite_min : Z := - 2 ^ 63.
Definition sqlite_max : Z := 2 ^ 63 - 1.

Definition fits_sqlite (n : Z) : bool :=
  (sqlite_min <=? n) && (n <=? sqlite_max).

(** Python's [x in [a, b, ...]] on strings. *)
Definition str_in (s : string) (l : list string) : bool :=
  existsb (String.eqb s) l.

(** ** The monad of the helpers: database state and exceptions *)

Inductive Exn :=
| AttributeError (attr : string)    (* attribute access on None *)
| OverflowError.                    (* an integer too large for SQLite *)

Inductive Outcome (A : Type) :=
| Returned (a : A)
| Raised (e : Exn).
Arguments Returned {A} a.
Arguments Raised {A} e.

Definition M (A : Type) : Type := DB -> Outcome A * DB.

Definition ret {A} (a : A) : M A := fun db => (Returned a, db).

Definition bind {A B} (m : M A) (k : A -> M B) : M B :=
  fun db =>
    match m db with
    | (Returned a, db') => k a db'
    | (Raised e, db') => (Raised e, db')
    end.

Declare Scope m_scope.
Delimit Scope m_scope with m.
Notation "x <- m ;; k" := (bind m (fun x => k))
  (at level 100, m at next level, right associativity) : m_scope.
Notation "m ;;; k" := (bind m (fun _ => k))
  (at level 100, right associativity) : m_scope.

(** [for x in xs: body(x)] *)
Fixpoint for_each {A} (xs : list A) (body : A -> M unit) : M unit :=
  match xs with
  | [] => ret tt
  | x :: rest => bind (body x) (fun _ => for_each rest body)
  end.

(** [if c: body] *)
Definition when (c : bool) (body : M unit) : M unit :=
  if c then body else ret tt.

Definition read_db : M DB := fun db => (Returned db, db).

(** A relationship attribute such as [ticket.author] is [None] when no row
    has the key; reading [.username] of it then raises. *)
Definition author_username (uid : Z) : M string :=
  fun db =>
    match get_user db uid with
    | Some u => (Returned (User.username u), db)
    | None => (Raised (AttributeError "username"), db)
    end.

(** ** Notification helper functions *)

Definition dq : string := String "034"%char EmptyString.

Definition create_notification (now : Z) (user_id ticket_id : Z)
    (notification_type message : string) (comment_id : option Z) : M unit :=
  fun db =>
    let notification :=
      Notification.mk (next_id (map Notification.id (notifications db)))
        user_id ticket_id comment_id notification_type message false now in
    (Returned tt, with_notifications db (notifications db ++ [notification])%list).

Definition ticket_created_message (ticket : Ticket.t) (author : string) : string :=
  "New ticket " ++ dq ++ Ticket.subject ticket ++ dq ++ " created by " ++ author.

Definition notify_ticket_created (now : Z) (ticket : Ticket.t) : M unit :=
  (db <- read_db ;;
   for_each (users_with_role db "admin") (fun admin =>
     author <- author_username (Ticket.user_id ticket) ;;
     create_notification now (User.id admin) (Ticket.id ticket)
       "ticket_created" (ticket_created_message ticket author) None) ;;;
   db <- read_db ;;
   for_each (users_with_role db "agent") (fun agent =>
     author <- author_username (Ticket.user_id ticket) ;;
     create_notification now (User.id agent) (Ticket.id ticket)
       "ticket_created" (ticket_created_message ticket author) None))%m.

Definition notify_ticket_assigned (now : Z) (ticket : Ticket.t)
    (assigned_user : option User.t) : M unit :=
  match assigned_user with
  | Some u =>
      create_notification now (User.id u) (Ticket.id ticket) "ticket_assigned"
        ("Ticket " ++ dq ++ Ticket.subject ticket ++ dq
         ++ " has been assigned to you") None
  | None => ret tt
  end.

(** [s.replace("_", " ")] *)
Fixpoint replace_underscore (s : string) : string :=
  match s with
  | EmptyString => EmptyString
  | String c r =>
      String (if Ascii.eqb c "_"%char then " "%char else c) (replace_underscore r)
  end.

Definition is_lower (c : ascii) : bool :=
  let n := nat_of_ascii c in ((97 <=? n) && (n <=? 122))%nat.

Definition is_upper (c : ascii) : bool :=
  let n := nat_of_ascii c in ((65 <=? n) && (n <=? 90))%nat.

Definition to_upper (c : ascii) : ascii := ascii_of_nat (nat_of_ascii c - 32).
Definition to_lower (c : ascii) : ascii := ascii_of_nat (nat_of_ascii c + 32).

(** [s.title()] on ASCII text, which is what a status is: the first letter
    of every run of letters in upper case, the others in lower case. *)
Fixpoint title_from (previous_is_cased : bool) (s : string) : string :=
  match s with
  | EmptyString => EmptyString
  | String c r =>
      if is_lower c then
        String (if previous_is_cased then c else to_upper c) (title_from true r)
      else if is_upper c then
        String (if previous_is_cased then to_lower c else c) (title_from true r)
      else String c (title_from false r)
  end.

Definition title (s : string) : string := title_from false s.

Definition status_changed_message (ticket : Ticket.t)
    (old_status new_status : string) : string :=
  "Your ticket " ++ dq ++ Ticket.subject ticket ++ dq
  ++ " status changed from " ++ title (replace_underscore old_status)
  ++ " to " ++ title (replace_underscore new_status).

Definition notify_status_changed (now : Z) (ticket : Ticket.t)
    (old_status new_status : string) : M unit :=
  create_notification now (Ticket.user_id ticket) (Ticket.id ticket)
    "status_changed" (status_changed_message ticket old_status new_status) None.

(** [comment.ticket]; the first attribute read of a missing ticket raises. *)
Definition comment_ticket (comment : Comment.t) : M Ticket.t :=
  fun db =>
    match get_ticket db (Comment.ticket_id comment) with
    | Some t => (Returned t, db)
    | None => (Raised (AttributeError "user_id"), db)
    end.

(** Truth value of an optional integer: [None] and [0] are false. *)
Definition truthy (x : option Z) : bool :=
  match x with
  | Some n => negb (n =? 0)
  | None => false
  end.

Definition notify_comment_added (now : Z) (comment : Comment.t) : M unit :=
  (ticket <- comment_ticket comment ;;
   (* Notify ticket creator (if comment is not from them) *)
   when (negb (Comment.user_id comment =? Ticket.user_id ticket))
     (author <- author_username (Comment.user_id comment) ;;
      create_notification now (Ticket.user_id ticket) (Ticket.id ticket)
        "comment_added"
        ("New comment on your ticket " ++ dq ++ Ticket.subject ticket ++ dq
         ++ " by " ++ author)
        (Some (Comment.id comment))) ;;;
   (* Notify assigned agent (if different from commenter and ticket creator) *)
   match Ticket.assigned_to ticket with
   | Some assigned =>
       when (truthy (Some assigned)
             && negb (assigned =? Comment.user_id comment)
             && negb (assigned =? Ticket.user_id ticket))
         (author <- author_username (Comment.user_id comment) ;;
          create_notification now assigned (Ticket.id ticket) "comment_added"
            ("New comment on assigned ticket " ++ dq ++ Ticket.subject ticket
             ++ dq ++ " by " ++ author)
            (Some (Comment.id comment)))
   | None => ret tt
   end ;;;
   (* Notify admins about comments on important tickets *)
   when (str_in (Ticket.priority ticket) ["high"; "urgent"])
     (db <- read_db ;;
      for_each (users_with_role db "admin") (fun admin =>
        when (negb (User.id admin =? Comment.user_id comment))
          (author <- author_username (Comment.user_id comment) ;;
           create_notification now (User.id admin) (Ticket.id ticket)
             "comment_added"
             ("New comment on " ++ Ticket.priority ticket
              ++ " priority ticket " ++ dq ++ Ticket.subject ticket ++ dq
              ++ " by " ++ author)
             (Some (Comment.id comment))))))%m.

(** ** Responses *)

Inductive Endpoint :=
| EpLogin
| EpDashboard
| EpTicketDetail (ticket_id : Z)
| EpNotifications.

Record Pagination := mkPagination {
  items : list Ticket.t;
  page : Z;
  per_page : Z;
  total : Z }.

Inductive Body :=
| Redirect (to : Endpoint)                      (* redirect(url_for(...)) *)
| JsonVotes (upvotes downvotes : Z)             (* jsonify({...}) *)
| RenderDashboard (tickets : Pagination) (categories : list Category.t)
| NotFound404                                   (* get_or_404, paginate *)
| InternalError500 (e : Exn).                   (* an uncaught exception *)

(** What a request answers: the response, and the messages it flashed, each
    with its category. *)
Record Reply := mkReply {
  body : Body;
  flashed : list (string * string) }.

Definition View : Type := DB -> Reply * DB.

(** [@login_required] with [login_manager.login_view = 'login']. *)
Definition login_required (current_user : option User.t)
    (view : User.t -> View) : View :=
  match current_user with
  | Some u => view u
  | None => fun db =>
      (mkReply (Redirect EpLogin) [("Please log in to access this page.", "message")], db)
  end.

(** Running a helper from a handler: an exception it raises is not caught
    by the handler and becomes the 500 response. *)
Definition call (m : M unit) (k : View) : View :=
  fun db =>
    match m db with
    | (Returned _, db') => k db'
    | (Raised e, db') => (mkReply (InternalError500 e) [], db')
    end.

(** [db.session.commit()] of a ticket [old] loaded in this request and
    changed to [new]. Nothing is written when no column changed. When a
    column changed and [updated_at] is not among the changed ones, the
    column's [onupdate] sets it to the current time. *)
Definition commit_ticket (now : Z) (old new : Ticket.t) (db : DB) : DB :=
  let stamp_same := Ticket.updated_at old =? Ticket.updated_at new in
  if Ticket.same_columns old new && stamp_same then db
  else
    let row := if stamp_same then Ticket.set_updated_at new now else new in
    with_tickets db
      (map (fun r => if Ticket.id r =? Ticket.id old then row else r) (tickets db)).

(** ** Route handlers *)

Definition update_ticket_status (now : Z) (current_user : option User.t)
    (ticket_id : Z) (form_status : option string) : View :=
  login_required current_user (fun current_user db =>
    match get_ticket db ticket_id with
    | None => (mkReply NotFound404 [], db)
    | Some ticket =>
        (* Only agents and admins can update status *)
        if negb (str_in (User.role current_user) ["agent"; "admin"]) then
          (mkReply (Redirect (EpTicketDetail ticket_id))
             [("You do not have permission to update ticket status", "error")], db)
        else
          match form_status with
          | Some status =>
              if str_in status ["open"; "in_progress"; "resolved"; "closed"] then
                let old_status := Ticket.status ticket in
                let ticket' :=
                  Ticket.set_updated_at (Ticket.set_status ticket status) now in
                let db1 := commit_ticket now ticket ticket' db in
                call (when (negb (String.eqb old_status status))
                        (notify_status_changed now ticket' old_status status))
                  (fun db2 =>
                     (mkReply (Redirect (EpTicketDetail ticket_id))
                        [("Ticket status updated successfully!", "success")], db2))
                  db1
              else (mkReply (Redirect (EpTicketDetail ticket_id)) [], db)
          | None => (mkReply (Redirect (EpTicketDetail ticket_id)) [], db)
          end
    end).

(** The counters whose value differs between the row loaded and the row to
    commit: the integers the UPDATE binds. *)
Definition changed_counters (old new : Ticket.t) : list Z :=
  ((if Ticket.upvotes old =? Ticket.upvotes new then [] else [Ticket.upvotes new])
   ++ (if Ticket.downvotes old =? Ticket.downvotes new then []
       else [Ticket.downvotes new]))%list.

Definition vote_ticket (now : Z) (current_user : option User.t)
    (ticket_id : Z) (vote_type : option string) : View :=
  login_required current_user (fun _ db =>
    match get_ticket db ticket_id with
    | None => (mkReply NotFound404 [], db)
    | Some ticket =>
        let ticket' :=
          match vote_type with
          | Some v =>
              if String.eqb v "upvote" then
                Ticket.set_upvotes ticket (Ticket.upvotes ticket + 1)
              else if String.eqb v "downvote" then
                Ticket.set_downvotes ticket (Ticket.downvotes ticket + 1)
              else ticket
          | None => ticket
          end in
        (* the commit binds the counter that changed; one that does not fit
           raises, the request answers 500 and the row stays *)
        if forallb fits_sqlite (changed_counters ticket ticket') then
          let db' := commit_ticket now ticket ticket' db in
          (mkReply (JsonVotes (Ticket.upvotes ticket') (Ticket.downvotes ticket')) [],
           db')
        else (mkReply (InternalError500 OverflowError) [], db)
    end).

(** [Notification.query.filter_by(user_id=uid, is_read=False)
      .update({'is_read': True})]: the table after the update and the
    number of rows matched, which is what [Query.update] returns. *)
Definition update_mark_read (uid : Z) (rows : list Notification.t)
    : list Notification.t * Z :=
  let matches n := (Notification.user_id n =? uid) && negb (Notification.is_read n) in
  (map (fun n => if matches n then Notification.set_is_read n true else n) rows,
   Z.of_nat (List.length (filter matches rows))).

Definition mark_all_notifications_read (current_user : option User.t) : View :=
  login_required current_user (fun current_user db =>
    let '(rows, _) := update_mark_read (User.id current_user) (notifications db) in
    (mkReply (Redirect EpNotifications)
       [("All notifications marked as read!", "success")],
     with_notifications db rows)).

(** ** The ticket listing *)

(** The query string of [/dashboard], after [request.args.get] applied its
    defaults and, for [page], its [type=int] conversion. *)
Record DashboardArgs := mkArgs {
  arg_status : string;      (* default '' *)
  arg_category : string;    (* default '' *)
  arg_search : string;      (* default '' *)
  arg_sort : string;        (* default 'updated_at' *)
  arg_page : Z }.           (* default 1 *)

(** Truth value of a string: the empty string is false. *)
Definition nonempty (s : string) : bool :=
  match s with
  | EmptyString => false
  | String _ _ => true
  end.

(** [priority_order = {'urgent': 4, 'high': 3, 'medium': 2, 'low': 1}] used
    as [db.case(priority_order, value=Ticket.priority)]: a CASE expression
    without ELSE, which is NULL for any other priority. *)
Definition priority_order (p : string) : option Z :=
  if String.eqb p "urgent" then Some 4
  else if String.eqb p "high" then Some 3
  else if String.eqb p "medium" then Some 2
  else if String.eqb p "low" then Some 1
  else None.

Definition priority_key (t : Ticket.t) : option Z :=
  priority_order (Ticket.priority t).

Definition updated_key (t : Ticket.t) : option Z :=
  Some (Ticket.updated_at t).

(** Order of sort keys, NULL below every value (SQLite, the default
    database of the application). *)
Definition null_leb (a b : option Z) : bool :=
  match a, b with
  | None, _ => true
  | Some _, None => false
  | Some x, Some y => x <=? y
  end.

(** [query.paginate(page=page, per_page=per_page)] with its default
    [error_out=True]: 404 ([None]) for a page below 1; then the query runs
    with OFFSET [(page - 1) * per_page], which raises when that integer
    does not fit; then 404 for an empty page other than the first. *)
Definition paginate (page per_page : Z) (rows : list Ticket.t)
    : Outcome (option Pagination) :=
  if page <? 1 then Returned None
  else if negb (fits_sqlite ((page - 1) * per_page)) then Raised OverflowError
  else
    let its := firstn (Z.to_nat per_page)
                 (skipn (Z.to_nat ((page - 1) * per_page)) rows) in
    match its with
    | [] => if page =? 1
            then Returned
                   (Some (mkPagination its page per_page (Z.of_nat (List.length rows))))
            else Returned None
    | _ :: _ =>
        Returned (Some (mkPagination its page per_page (Z.of_nat (List.length rows))))
    end.

Section Dashboard.

(** What the database engine computes. [sql_contains col q] is
    [col.contains(q)]; [sql_int_eq_text n s] compares an integer column
    with a text parameter; [order_by_desc key rows] is
    [ORDER BY key DESC] over the rows selected, in which the application
    gives a single sort key. *)
Variable sql_contains : string -> string -> bool.
Variable sql_int_eq_text : Z -> string -> bool.
Variable order_by_desc : (Ticket.t -> option Z) -> list Ticket.t -> list Ticket.t.

(** The rows of the listing before sorting: visibility, then filters. *)
Definition dashboard_query (current_user : User.t) (args : DashboardArgs)
    (db : DB) : list Ticket.t :=
  let query := tickets db in
  let query :=
    if String.eqb (User.role current_user) "user"
    then filter (fun t => Ticket.user_id t =? User.id current_user) query
    else query in
  let query :=
    if nonempty (arg_status args)
    then filter (fun t => String.eqb (Ticket.status t) (arg_status args)) query
    else query in
  let query :=
    if nonempty (arg_category args)
    then filter (fun t => sql_int_eq_text (Ticket.category_id t) (arg_category args)) query
    else query in
  if nonempty (arg_search args)
  then filter (fun t => sql_contains (Ticket.subject t) (arg_search args)
                        || sql_contains (Ticket.description t) (arg_search args)) query
  else query.

Definition dashboard_sorted (current_user : User.t) (args : DashboardArgs)
    (db : DB) : list Ticket.t :=
  let query := dashboard_query current_user args db in
  if String.eqb (arg_sort args) "recent" then order_by_desc updated_key query
  else if String.eqb (arg_sort args) "priority" then order_by_desc priority_key query
  else order_by_desc updated_key query.

Definition dashboard (current_user : option User.t) (args : DashboardArgs) : View :=
  login_required current_user (fun current_user db =>
    match paginate (arg_page args) 10 (dashboard_sorted current_user args db) with
    | Returned (Some tickets) =>
        (mkReply (RenderDashboard tickets (categories db)) [], db)
    | Returned None => (mkReply NotFound404 [], db)
    | Raised e => (mkReply (InternalError500 e) [], db)
    end).

End Dashboard.

(** What [ORDER BY key DESC] guarantees of an engine: the rows selected,
    each once, no row before one of a larger key. *)
Definition order_by_contract
    (engine : (Ticket.t -> option Z) -> list Ticket.t -> list Ticket.t) : Prop :=
  forall key rows,
    Permutation rows (engine key rows)
    /\ StronglySorted (fun a b => null_leb (key b) (key a) = true) (engine key rows).

(** An engine: rows are scanned in primary-key order and sorted on the key
    alone, rows of equal key staying in scan order. *)
Fixpoint insert_desc (key : Ticket.t -> option Z) (x : Ticket.t)
    (l : list Ticket.t) : list Ticket.t :=
  match l with
  | [] => [x]
  | y :: r => if null_leb (key y) (key x) then x :: y :: r
              else y :: insert_desc key x r
  end.

Definition scan_order_by_desc (key : Ticket.t -> option Z)
    (rows : list Ticket.t) : list Ticket.t :=
  fold_right (insert_desc key) [] rows.

(** [col LIKE '%q%'], without wildcards in [q]. *)
Definition like_contains (col q : string) : bool :=
  match index 0 q col with
  | Some _ => true
  | None => false
  end.

(** The order the specification asks of [sort = priority]: priority rank
    descending, rows of equal rank by [updated_at] descending. *)
Definition priority_then_recent (a b : Ticket.t) : bool :=
  match priority_key a, priority_key b with
  | Some x, Some y => (y <? x) || ((x =? y) && (Ticket.updated_at b <=? Ticket.updated_at a))
  | Some _, None => true
  | None, Some _ => false
  | None, None => Ticket.updated_at b <=? Ticket.updated_at a
  end.

Fixpoint sorted_by (le : Ticket.t -> Ticket.t -> bool) (l : list Ticket.t) : bool :=
  match l with
  | [] => true
  | x :: r => forallb (le x) r && sorted_by le r
  end.

(** ** Sequences of votes *)

Record VoteRequest := mkVote {
  vote_now : Z;
  vote_actor : User.t;
  vote_type : option string }.

(** The votes of [reqs] on one ticket, one request after the other. *)
Definition run_votes (ticket_id : Z) (reqs : list VoteRequest) (db : DB) : DB :=
  fold_left
    (fun db r =>
       snd (vote_ticket (vote_now r) (Some (vote_actor r)) ticket_id (vote_type r) db))
    reqs db.

Definition count_votes (direction : string) (reqs : list VoteRequest) : Z :=
  Z.of_nat (List.length
    (filter (fun r => match vote_type r with
                      | Some v => String.eqb v direction
                      | None => false
                      end) reqs)).

(** What one vote adds to each counter. *)
Definition vote_weight (direction : string) (vote_type : option string) : Z :=
  match vote_type with
  | Some v => if String.eqb v direction then 1 else 0
  | None => 0
  end.

(** The order of rows that [ORDER BY priority rank DESC] guarantees. *)
Definition by_rank_desc (a b : Ticket.t) : Prop :=
  null_leb (priority_key b) (priority_key a) = true.

Definition is_nil {A} (l : list A) : bool :=
  match l with
  | [] => true
  | _ :: _ => false
  end.

(** The notifications a step added to the table. *)
Definition added (before after : DB) : list Notification.t :=
  skipn (List.length (notifications before)) (notifications after).

Definition recipients (ns : list Notification.t) : list Z :=
  map Notification.user_id ns.

(** [appends db db' new]: [db'] is [db] with the notifications [new] added
    at the end of their table, and nothing else changed. *)
Definition appends (db db' : DB) (new : list Notification.t) : Prop :=
  db' = with_notifications db (notifications db ++ new)%list.

(** [grows P m]: whatever [m] returns or raises, it only adds
    notifications, and each one it adds satisfies [P]. *)
Definition grows {A} (P : Notification.t -> Prop) (m : M A) : Prop :=
  forall db, exists new, appends db (snd (m db)) new /\ Forall P new.

(** The row a commit leaves at the ticket's key. *)
Definition committed_row (now : Z) (old new : Ticket.t) : Ticket.t :=
  if (Ticket.updated_at old =? Ticket.updated_at new)
     && negb (Ticket.same_columns old new)
  then Ticket.set_updated_at new now
  else new.

(** The four values a status can be set to. *)
Definition valid_status (s : string) : Prop :=
  In s ["open"; "in_progress"; "resolved"; "closed"].

(** The roles that may change a status. *)
Definition staff (u : User.t) : Prop :=
  User.role u = "agent" \/ User.role u = "admin".

(** ** Sample data *)

Definition alice : User.t := User.mk 1 "alice" "alice@example.org" "h1" "admin" 0.
Definition bob : User.t := User.mk 2 "bob" "bob@example.org" "h2" "agent" 0.
Definition carol : User.t := User.mk 3 "carol" "carol@example.org" "h3" "user" 0.

(** Two urgent tickets, the first created by the admin, the second one
    updated last. *)
Definition ticket1 : Ticket.t :=
  Ticket.mk 1 "Printer" "It is on fire" "open" "urgent" 10 10 1 1 None 0 0.
Definition ticket2 : Ticket.t :=
  Ticket.mk 2 "Screen" "It is dark" "open" "urgent" 20 20 3 1 None 0 0.

(** The agent's comment on the admin's ticket. *)
Definition comment1 : Comment.t := Comment.mk 1 "Looking into it" 30 2 1.

Definition sample_db : DB :=
  mkDB [alice; bob; carol]
       [Category.mk 1 "Technical Support" (Some "Technical issues and problems") 0]
       [ticket1; ticket2] [comment1] [].

Definition by_priority : DashboardArgs := mkArgs "" "" "" "priority" 1.

(** Four tickets of four priorities, stored in an order that is neither
    that of their priority nor that of their update time. *)
Definition mixed_db : DB :=
  mkDB [alice; bob; carol]
       [Category.mk 1 "Technical Support" (Some "Technical issues and problems") 0]
       [Ticket.mk 1 "Mouse" "It squeaks" "open" "low" 10 40 3 1 None 0 0;
        Ticket.mk 2 "Printer" "It is on fire" "open" "urgent" 11 11 1 1 None 0 0;
        Ticket.mk 3 "Screen" "It is dark" "open" "medium" 12 30 3 1 None 0 0;
        Ticket.mk 4 "Disk" "It is full" "open" "high" 13 20 1 1 None 0 0]
       [] [].

(** A ticket whose upvote counter is at the largest integer the column
    holds. *)
Definition full_ticket : Ticket.t :=
  Ticket.mk 1 "Printer" "It is on fire" "open" "urgent" 10 10 1 1 None sqlite_max 0.

Definition full_db : DB :=
  mkDB [alice; bob; carol] [] [full_ticket] [] [].

(** An integer column against a text parameter: equal when the text is the
    integer's decimal writing. *)
Definition int_eq_text (n : Z) (s : string) : bool :=
  String.eqb (NilZero.string_of_int (Z.to_int n)) s.

(** * Further routes and helpers

    In what follows a text is the sequence of its characters, each an
    [ascii]: the characters of code point below 256. *)

Definition with_users (db : DB) (us : list User.t) : DB :=
  mkDB us (categories db) (tickets db) (comments db) (notifications db).

Definition with_categories (db : DB) (cs : list Category.t) : DB :=
  mkDB (users db) cs (tickets db) (comments db) (notifications db).

Definition with_comments (db : DB) (cs : list Comment.t) : DB :=
  mkDB (users db) (categories db) (tickets db) cs (notifications db).

Definition get_notification (db : DB) (nid : Z) : option Notification.t :=
  find (fun n => Notification.id n =? nid) (notifications db).

Definition get_category (db : DB) (cid : Z) : option Category.t :=
  find (fun c => Category.id c =? cid) (categories db).

(** ** Text helpers *)

(** [c.isspace()]: tab to carriage return, the four separators 28 to 31,
    the space, NEL and the no-break space. *)
Definition is_space (c : ascii) : bool :=
  let n := nat_of_ascii c in
  (((9 <=? n) && (n <=? 13)) || ((28 <=? n) && (n <=? 32))
   || (n =? 133) || (n =? 160))%nat.

Fixpoint lstrip (s : string) : string :=
  match s with
  | EmptyString => EmptyString
  | String c r => if is_space c then lstrip r else s
  end.

Fixpoint rstrip (s : string) : string :=
  match s with
  | EmptyString => EmptyString
  | String c r =>
      match rstrip r with
      | EmptyString => if is_space c then EmptyString else String c EmptyString
      | r' => String c r'
      end
  end.

(** [s.strip()] *)
Definition strip (s : string) : string := rstrip (lstrip s).

(** [c.lower()]: the capital letters A to Z and the accented capitals
    192 to 222 (but the multiplication sign 215) move 32 up. *)
Definition lower_char (c : ascii) : ascii :=
  let n := nat_of_ascii c in
  if (((65 <=? n) && (n <=? 90))
      || ((192 <=? n) && (n <=? 222) && negb (n =? 215)))%nat
  then ascii_of_nat (n + 32) else c.

Fixpoint lower (s : string) : string :=
  match s with
  | EmptyString => EmptyString
  | String c r => String (lower_char c) (lower r)
  end.

(** ['.' in s] *)
Fixpoint has_dot (s : string) : bool :=
  match s with
  | EmptyString => false
  | String c r => Ascii.eqb c "."%char || has_dot r
  end.

(** [s.rsplit('.', 1)[1]]: what follows the last dot of a text that has
    one. *)
Fixpoint after_last_dot (s : string) : option string :=
  match s with
  | EmptyString => None
  | String c r =>
      match after_last_dot r with
      | Some ext => Some ext
      | None => if Ascii.eqb c "."%char then Some r else None
      end
  end.

Definition ALLOWED_EXTENSIONS : list string :=
  ["txt"; "pdf"; "png"; "jpg"; "jpeg"; "gif"; "doc"; "docx"].

Definition allowed_file (filename : string) : bool :=
  has_dot filename
  && match after_last_dot filename with
     | Some ext => str_in (lower ext) ALLOWED_EXTENSIONS
     | None => false      (* no dot: the conjunction is already false *)
     end.

Definition newline : ascii := "010"%char.

(** [text.replace('\n', '<br>')] *)
Fixpoint replace_newlines (text : string) : string :=
  match text with
  | EmptyString => EmptyString
  | String c r =>
      if Ascii.eqb c newline then "<br>" ++ replace_newlines r
      else String c (replace_newlines r)
  end.

(** The [nl2br] template filter; a false text ([None], the empty text) is
    returned as it is. *)
Definition nl2br_filter (text : option string) : option string :=
  match text with
  | Some t => if nonempty t then Some (replace_newlines t) else text
  | None => None
  end.

(** ** Responses of the further routes *)

Record NotificationPage := mkNotificationPage {
  n_items : list Notification.t;
  n_page : Z;
  n_per_page : Z;
  n_total : Z }.

Inductive Sent :=
| Core (b : Body)
| RedirectAdminCategories                    (* redirect(url_for('admin_categories')) *)
| RenderTicketDetail (ticket : Ticket.t)
| RenderNotifications (notifications : NotificationPage)
| RenderCategories (categories : list Category.t)
| RedirectAdminUsers                         (* redirect(url_for('admin_users')) *)
| RenderForm (template : string)             (* render_template(template) *)
| RenderNewTicket (categories : list Category.t)
| JsonSuccess                                (* jsonify({'success': True}) *)
| JsonCount (count : Z).                     (* jsonify({'count': count}) *)

Record Answer := mkAnswer {
  sent : Sent;
  said : list (string * string) }.

Definition Handler : Type := DB -> Answer * DB.

(** [@login_required] for the further routes. *)
Definition login_required_h (current_user : option User.t)
    (h : User.t -> Handler) : Handler :=
  match current_user with
  | Some u => h u
  | None => fun db =>
      (mkAnswer (Core (Redirect EpLogin))
         [("Please log in to access this page.", "message")], db)
  end.

(** ** Tickets: detail and comments *)

Definition ticket_detail (current_user : option User.t) (ticket_id : Z) : Handler :=
  login_required_h current_user (fun current_user db =>
    match get_ticket db ticket_id with
    | None => (mkAnswer (Core NotFound404) [], db)
    | Some ticket =>
        (* Check if user has permission to view this ticket *)
        if String.eqb (User.role current_user) "user"
           && negb (Ticket.user_id ticket =? User.id current_user)
        then (mkAnswer (Core (Redirect EpDashboard))
                [("You do not have permission to view this ticket", "error")], db)
        else (mkAnswer (RenderTicketDetail ticket) [], db)
    end).

Definition add_comment (now : Z) (current_user : option User.t)
    (ticket_id : Z) (form_content : option string) : View :=
  login_required current_user (fun current_user db =>
    match get_ticket db ticket_id with
    | None => (mkReply NotFound404 [], db)
    | Some ticket =>
        (* Check if user has permission to comment *)
        if String.eqb (User.role current_user) "user"
           && negb (Ticket.user_id ticket =? User.id current_user)
        then (mkReply (Redirect EpDashboard)
                [("You do not have permission to comment on this ticket", "error")], db)
        else
          let empty :=
            (mkReply (Redirect (EpTicketDetail ticket_id))
               [("Comment cannot be empty", "error")], db) in
          match form_content with
          | Some content =>
              if nonempty content && nonempty (strip content) then
                let comment :=
                  Comment.mk (next_id (map Comment.id (comments db)))
                    (strip content) now (User.id current_user) ticket_id in
                let db1 := with_comments db (comments db ++ [comment])%list in
                let db2 := commit_ticket now ticket (Ticket.set_updated_at ticket now) db1 in
                call (notify_comment_added now comment)
                  (fun db3 =>
                     (mkReply (Redirect (EpTicketDetail ticket_id))
                        [("Comment added successfully!", "success")], db3))
                  db2
              else empty
          | None => empty
          end
    end).

(** ** Notification routes *)

(** [Notification.query.filter_by(user_id=uid, is_read=False).count()] *)
Definition unread_count (uid : Z) (rows : list Notification.t) : Z :=
  Z.of_nat (List.length
    (filter (fun n => (Notification.user_id n =? uid)
                      && negb (Notification.is_read n)) rows)).

(** [paginate(page=page, per_page=per_page, error_out=False)] of a query on
    notifications: a page below 1 is read as page 1, an empty page is
    returned as such; the query still raises when its OFFSET
    [(page - 1) * per_page] does not fit. *)
Definition paginate_lenient (page per_page : Z) (rows : list Notification.t)
    : Outcome NotificationPage :=
  let page := if page <? 1 then 1 else page in
  if negb (fits_sqlite ((page - 1) * per_page)) then Raised OverflowError
  else
    Returned
      (mkNotificationPage
         (firstn (Z.to_nat per_page) (skipn (Z.to_nat ((page - 1) * per_page)) rows))
         page per_page (Z.of_nat (List.length rows))).

(** The route [notifications], named after its URL rule here, the name
    being that of the table. *)
Definition notifications_view (current_user : option User.t) (page : Z) : Handler :=
  login_required_h current_user (fun current_user db =>
    let rows :=
      filter (fun n => Notification.user_id n =? User.id current_user)
             (notifications db) in
    match paginate_lenient page 20 rows with
    | Returned notifications => (mkAnswer (RenderNotifications notifications) [], db)
    | Raised e => (mkAnswer (Core (InternalError500 e)) [], db)
    end).

Definition mark_notification_read (current_user : option User.t)
    (notification_id : Z) : Handler :=
  login_required_h current_user (fun current_user db =>
    match get_notification db notification_id with
    | None => (mkAnswer (Core NotFound404) [], db)
    | Some notification =>
        (* Ensure user can only mark their own notifications as read *)
        if negb (Notification.user_id notification =? User.id current_user) then
          (mkAnswer (Core (Redirect EpNotifications)) [("Access denied", "error")], db)
        else
          let db' :=
            if Notification.is_read notification then db
            else with_notifications db
                   (map (fun r => if Notification.id r =? Notification.id notification
                                  then Notification.set_is_read notification true
                                  else r)
                        (notifications db)) in
          (mkAnswer JsonSuccess [], db')
    end).

Definition notification_count (current_user : option User.t) : Handler :=
  login_required_h current_user (fun current_user db =>
    (mkAnswer (JsonCount (unread_count (User.id current_user) (notifications db))) [],
     db)).

(** ** Categories *)

(** [category.tickets]: the tickets filed under a category. *)
Definition category_tickets (db : DB) (c : Category.t) : list Ticket.t :=
  filter (fun t => Ticket.category_id t =? Category.id c) (tickets db).

Definition delete_category (current_user : option User.t) (category_id : Z) : Handler :=
  login_required_h current_user (fun current_user db =>
    if negb (String.eqb (User.role current_user) "admin") then
      (mkAnswer (Core (Redirect EpDashboard)) [("Access denied", "error")], db)
    else
      match get_category db category_id with
      | None => (mkAnswer (Core NotFound404) [], db)
      | Some category =>
          (* Check if category has tickets *)
          if negb (is_nil (category_tickets db category)) then
            (mkAnswer RedirectAdminCategories
               [("Cannot delete category with existing tickets", "error")], db)
          else
            (mkAnswer RedirectAdminCategories
               [("Category deleted successfully!", "success")],
             with_categories db
               (filter (fun c => negb (Category.id c =? Category.id category))
                       (categories db)))
      end).

(** [/admin/categories]: [form] is [None] for a GET, and for a POST the
    name and the description sent. *)
Definition admin_categories (now : Z) (current_user : option User.t)
    (form : option (option string * option string)) : Handler :=
  login_required_h current_user (fun current_user db =>
    if negb (String.eqb (User.role current_user) "admin") then
      (mkAnswer (Core (Redirect EpDashboard)) [("Access denied", "error")], db)
    else
      match form with
      | Some (name, description) =>
          match name with
          | Some (String c r) =>
              let category :=
                Category.mk (next_id (map Category.id (categories db)))
                  (String c r) description now in
              (mkAnswer RedirectAdminCategories
                 [("Category created successfully!", "success")],
               with_categories db (categories db ++ [category])%list)
          | _ =>
              (mkAnswer (RenderCategories (categories db))
                 [("Category name is required", "error")], db)
          end
      | None => (mkAnswer (RenderCategories (categories db)) [], db)
      end).

(** ** Invariants *)

(** The primary keys of the notification table. *)
Definition notification_ids (db : DB) : list Z :=
  map Notification.id (notifications db).

(** [keeps_keys m]: [m] leaves the keys of the notification table
    distinct when they were. *)
Definition keeps_keys {A} (m : M A) : Prop :=
  forall db, NoDup (notification_ids db) -> NoDup (notification_ids (snd (m db))).

(** The sample database after the agent's comment was notified: two
    unread notifications, both for the admin. *)
Definition notified_db : DB := snd (notify_comment_added 30 comment1 sample_db).

(** The tickets shown on page [page] of a listing of [rows], none when the
    page is answered with 404. *)
Definition page_items (page : Z) (rows : list Ticket.t) : list Ticket.t :=
  match paginate page 10 rows with
  | Returned (Some p) => items p
  | _ => []
  end.

(** Most recently updated first. *)
Definition recent_first (a b : Ticket.t) : Prop :=
  Ticket.updated_at b <= Ticket.updated_at a.

(** A text of white space only (the empty text included). *)
Fixpoint all_space (s : string) : bool :=
  match s with
  | EmptyString => true
  | String c r => is_space c && all_space r
  end.

(** Who may comment on a ticket: anybody but a user who did not create it. *)
Definition may_comment (u : User.t) (ticket : Ticket.t) : Prop :=
  User.role u <> "user" \/ Ticket.user_id ticket = User.id u.

(** [returns_adding uid P m]: in a database that has the user [uid], [m]
    returns, adding only notifications, each of which satisfies [P]. *)
Definition returns_adding (uid : Z) (P : Notification.t -> Prop) (m : M unit) : Prop :=
  forall db,
    get_user db uid <> None ->
    exists new,
      m db = (Returned tt, with_notifications db (notifications db ++ new)%list)
      /\ Forall P new.

(** What a notification of a comment looks like. *)
Definition about_comment (now : Z) (comment : Comment.t) (n : Notification.t) : Prop :=
  Notification.user_id n <> Comment.user_id comment
  /\ Notification.type n = "comment_added"
  /\ Notification.ticket_id n = Comment.ticket_id comment
  /\ Notification.comment_id n = Some (Comment.id comment)
  /\ Notification.is_read n = false
  /\ Notification.created_at n = now.

(** How often a character occurs in a text. *)
Fixpoint count_char (c : ascii) (s : string) : nat :=
  match s with
  | EmptyString => 0
  | String d r => (if Ascii.eqb d c then 1 else 0) + count_char c r
  end.

(** Every ticket is filed under a category that exists. *)
Definition categories_resolve (db : DB) : Prop :=
  forall t, In t (tickets db) -> get_category db (Ticket.category_id t) <> None.

(** ** Accounts *)

(** The pattern [[^@]+@[^@]+\.[^@]+] of the e-mail check, as [re.match]
    runs it: from the start of the text, whatever follows the match. A
    matcher takes the text left to read. *)
Definition Matcher : Type := string -> bool.

(** The end of the pattern: anything may follow. *)
Definition match_end : Matcher := fun _ => true.

(** The literal character [c], then [k]. *)
Definition match_lit (c : ascii) (k : Matcher) : Matcher :=
  fun s =>
    match s with
    | EmptyString => false
    | String d r => Ascii.eqb d c && k r
    end.

(** [[^@]+], then [k]: one character other than [@], then either [k] or
    more of the same. *)
Fixpoint match_not_at_plus (k : Matcher) (s : string) : bool :=
  match s with
  | EmptyString => false
  | String d r => negb (Ascii.eqb d "@"%char) && (k r || match_not_at_plus k r)
  end.

(** [re.match(r"[^@]+@[^@]+\.[^@]+", email)] *)
Definition email_matches (email : string) : bool :=
  match_not_at_plus
    (match_lit "@"%char
       (match_not_at_plus
          (match_lit "."%char
             (match_not_at_plus match_end)))) email.

(** No [@] in a text. *)
Fixpoint no_at (s : string) : bool :=
  match s with
  | EmptyString => true
  | String d r => negb (Ascii.eqb d "@"%char) && no_at r
  end.

(** Truth value of an optional text: [None] and the empty text are false. *)
Definition given (x : option string) : bool :=
  match x with
  | Some s => nonempty s
  | None => false
  end.

(** The value of an optional text that is given. *)
Definition text_of (x : option string) : string :=
  match x with
  | Some s => s
  | None => EmptyString
  end.

Record AccountForm := mkAccountForm {
  form_username : option string;
  form_email : option string;
  form_password : option string;
  form_role : option string }.    (* read by the admin form only *)

(** [User.query.filter_by(username=name).first()] *)
Definition user_by_username (db : DB) (name : string) : option User.t :=
  find (fun u => String.eqb (User.username u) name) (users db).

(** [User.query.filter_by(email=email).first()] *)
Definition user_by_email (db : DB) (email : string) : option User.t :=
  find (fun u => String.eqb (User.email u) email) (users db).

Definition is_some {A} (x : option A) : bool :=
  match x with
  | Some _ => true
  | None => false
  end.

Section Accounts.

(** [generate_password_hash] of werkzeug. *)
Variable generate_password_hash : string -> string.

Definition insert_user (now : Z) (username email password role : string) (db : DB) : DB :=
  with_users db
    (users db
     ++ [User.mk (next_id (map User.id (users db))) username email
           (generate_password_hash password) role now])%list.

(** [/register]: [form] is [None] for a GET. The role of the new user is
    the column's default. *)
Definition register (now : Z) (form : option AccountForm) : Handler :=
  fun db =>
    let refuse message := (mkAnswer (RenderForm "register.html") [(message, "error")], db) in
    match form with
    | None => (mkAnswer (RenderForm "register.html") [], db)
    | Some f =>
        let username := text_of (form_username f) in
        let email := text_of (form_email f) in
        let password := text_of (form_password f) in
        if negb (given (form_username f)) || negb (given (form_email f))
           || negb (given (form_password f)) then
          refuse "All fields are required"
        else if (String.length password <? 6)%nat then
          refuse "Password must be at least 6 characters long"
        else if negb (email_matches email) then
          refuse "Please enter a valid email address"
        else if is_some (user_by_username db username) then
          refuse "Username already exists"
        else if is_some (user_by_email db email) then
          refuse "Email already registered"
        else
          (mkAnswer (Core (Redirect EpLogin))
             [("Registration successful! Please login.", "success")],
           insert_user now username email password "user" db)
    end.

(** [/admin/users/new]: [form] is [None] for a GET; a role that is not
    sent is 'user'. *)
Definition admin_new_user (now : Z) (current_user : option User.t)
    (form : option AccountForm) : Handler :=
  login_required_h current_user (fun current_user db =>
    if negb (String.eqb (User.role current_user) "admin") then
      (mkAnswer (Core (Redirect EpDashboard)) [("Access denied", "error")], db)
    else
      let refuse message :=
        (mkAnswer (RenderForm "admin/new_user.html") [(message, "error")], db) in
      match form with
      | None => (mkAnswer (RenderForm "admin/new_user.html") [], db)
      | Some f =>
          let username := text_of (form_username f) in
          let email := text_of (form_email f) in
          let password := text_of (form_password f) in
          let role := match form_role f with Some r => r | None => "user" end in
          if negb (given (form_username f)) || negb (given (form_email f))
             || negb (given (form_password f)) then
            refuse "All fields are required"
          else if (String.length password <? 6)%nat then
            refuse "Password must be at least 6 characters long"
          else if negb (email_matches email) then
            refuse "Please enter a valid email address"
          else if negb (str_in role ["user"; "agent"; "admin"]) then
            refuse "Invalid role selected"
          else if is_some (user_by_username db username) then
            refuse "Username already exists"
          else if is_some (user_by_email db email) then
            refuse "Email already registered"
          else
            (mkAnswer RedirectAdminUsers
               [("User " ++ username ++ " created successfully as " ++ role ++ "!",
                 "success")],
             insert_user now username email password role db)
      end).

End Accounts.

(** A stand-in for the password hash, for examples. *)
Definition sample_hash (password : string) : string := "hash:" ++ password.

(** What an account route may add to the user table of [db]: nothing, or
    one user whose key, name and e-mail no user of [db] has, and whose
    role is one of [roles]. *)
Definition adds_fresh_user (roles : list string) (db db' : DB) : Prop :=
  users db' = users db
  \/ exists u,
       users db' = (users db ++ [u])%list
       /\ In (User.role u) roles
       /\ ~ In (User.id u) (map User.id (users db))
       /\ ~ In (User.username u) (map User.username (users db))
       /\ ~ In (User.email u) (map User.email (users db))
       /\ User.username u <> "" /\ email_matches (User.email u) = true.

(** ** Filing a ticket *)

Module Attachment.
Record t := mk {
  id : Z;
  filename : string;
  original_filename : string;
  file_path : string;
  created_at : Z;
  ticket_id : Z }.
End Attachment.





Section NewTicket.

(** [secure_filename] of werkzeug, and the integer the database stores in
    an integer column for the text of a number (the form sends the
    category id as text). *)
Variable secure_filename : string -> string.
Variable sql_integer : string -> Z.



End NewTicket.





(** * Properties *)

Example title_in_progress : title (replace_underscore "in_progress") = "In Progress".
Proof. reflexivity. Qed.

(** ** How the helpers change the database *)

Lemma appends_nil db : appends db db [].
Proof. unfold appends. rewrite app_nil_r. now destruct db. Qed.

Lemma appends_trans db1 db2 db3 n1 n2 :
  appends db1 db2 n1 -> appends db2 db3 n2 -> appends db1 db3 (n1 ++ n2)%list.
Proof.
  unfold appends. intros -> ->. simpl. now rewrite app_assoc.
Qed.

Lemma appends_added db db' new : appends db db' new -> added db db' = new.
Proof.
  unfold appends, added. intros ->. simpl.
  rewrite skipn_app, skipn_all, Nat.sub_diag. reflexivity.
Qed.

Lemma appends_users db db' new : appends db db' new -> users db' = users db.
Proof. now intros ->. Qed.

Lemma appends_tickets db db' new : appends db db' new -> tickets db' = tickets db.
Proof. now intros ->. Qed.

Section Grows.
Context {A B : Type} (P : Notification.t -> Prop).

Lemma grows_ret (a : A) : grows P (ret a).
Proof. intros db. exists []. split; [apply appends_nil | constructor]. Qed.

Lemma grows_read_db : grows P read_db.
Proof. intros db. exists []. split; [apply appends_nil | constructor]. Qed.

Lemma grows_author_username uid : grows P (author_username uid).
Proof.
  intros db. exists []. unfold author_username.
  destruct (get_user db uid); (split; [apply appends_nil | constructor]).
Qed.

Lemma grows_comment_ticket c : grows P (comment_ticket c).
Proof.
  intros db. exists []. unfold comment_ticket.
  destruct (get_ticket db _); (split; [apply appends_nil | constructor]).
Qed.

Lemma grows_bind (m : M A) (k : A -> M B) :
  grows P m -> (forall a, grows P (k a)) -> grows P (bind m k).
Proof.
  intros Hm Hk db. unfold bind.
  destruct (Hm db) as (n1 & H1 & F1).
  destruct (m db) as [[a | e] db1]; simpl in *.
  - destruct (Hk a db1) as (n2 & H2 & F2).
    exists (n1 ++ n2)%list. split.
    + eapply appends_trans; eassumption.
    + apply Forall_app. now split.
  - exists n1. now split.
Qed.

Lemma grows_create now uid tid typ msg cid :
  (forall i, P (Notification.mk i uid tid cid typ msg false now)) ->
  grows P (create_notification now uid tid typ msg cid).
Proof.
  intros HP db. unfold create_notification. simpl.
  eexists. split; [reflexivity |]. constructor; [apply HP | constructor].
Qed.

End Grows.

Lemma grows_when (P : Notification.t -> Prop) (c : bool) (body : M unit) :
  (c = true -> grows P body) -> grows P (when c body).
Proof.
  intros H. destruct c; simpl; [now apply H | apply grows_ret].
Qed.

Lemma grows_for_each {A} (P : Notification.t -> Prop) (xs : list A) body :
  (forall x, grows P (body x)) -> grows P (for_each xs body).
Proof.
  intros H. induction xs as [| x rest IH]; simpl.
  - apply grows_ret.
  - apply grows_bind; [apply H | intros _; exact IH].
Qed.

(** ** Comments: the author is never a recipient *)

(** C5. For every CommentAdded event, whether the helper returns or
    raises, the notifications it added have no recipient equal to the
    comment's author: the creator rule, the assigned-agent rule and the
    admin rule each leave the commenting user out. *)
Theorem comment_author_never_notified :
  forall (now : Z) (comment : Comment.t) (db : DB),
    let db' := snd (notify_comment_added now comment db) in
    appends db db' (added db db')
    /\ ~ In (Comment.user_id comment) (recipients (added db db')).
Proof.
  intros now comment db db'.
  assert (G : grows (fun n => Notification.user_id n <> Comment.user_id comment)
                    (notify_comment_added now comment)).
  { unfold notify_comment_added.
    apply grows_bind; [apply grows_comment_ticket | intros ticket].
    apply grows_bind.
    { apply grows_when. intros Hc.
      apply grows_bind; [apply grows_author_username | intros a].
      apply grows_create. intros i; simpl.
      apply negb_true_iff, Z.eqb_neq in Hc. congruence. }
    intros _. apply grows_bind.
    { destruct (Ticket.assigned_to ticket) as [assigned |]; [| apply grows_ret].
      apply grows_when. intros Hc.
      apply andb_true_iff in Hc as [Hc _]. apply andb_true_iff in Hc as [_ Hc].
      apply grows_bind; [apply grows_author_username | intros a].
      apply grows_create. intros i; simpl.
      now apply negb_true_iff, Z.eqb_neq in Hc. }
    intros _. apply grows_when. intros _.
    apply grows_bind; [apply grows_read_db | intros db0].
    apply grows_for_each. intros admin.
    apply grows_when. intros Hc.
    apply grows_bind; [apply grows_author_username | intros a].
    apply grows_create. intros i; simpl.
    now apply negb_true_iff, Z.eqb_neq in Hc. }
  destruct (G db) as (new & Hnew & F). fold db' in Hnew.
  rewrite (appends_added _ _ _ Hnew). split; [exact Hnew |].
  unfold recipients. rewrite in_map_iff. intros (n & Hn & Hin).
  rewrite Forall_forall in F. exact (F n Hin Hn).
Qed.

(** ** New tickets: who is notified *)

Lemma get_user_with_notifications db ns uid :
  get_user (with_notifications db ns) uid = get_user db uid.
Proof. reflexivity. Qed.

(** A loop that notifies every user of [xs] returns, and adds one
    notification per element, in order, when the ticket's author exists. *)
Lemma for_each_notify now tid uid typ (msg : string -> string) cid author :
  forall (xs : list User.t) (db : DB),
    get_user db uid = Some author ->
    exists new,
      for_each xs (fun u =>
        bind (author_username uid) (fun a =>
          create_notification now (User.id u) tid typ (msg a) cid)) db
      = (Returned tt, with_notifications db (notifications db ++ new)%list)
      /\ recipients new = map User.id xs
      /\ Forall (fun n => Notification.type n = typ
                          /\ Notification.ticket_id n = tid) new.
Proof.
  induction xs as [| x rest IH]; intros db Ha.
  - exists []. simpl. unfold ret. rewrite app_nil_r.
    split; [now destruct db | split; [reflexivity | constructor]].
  - simpl. unfold bind at 1. unfold bind at 1. unfold author_username at 1.
    rewrite Ha. unfold create_notification at 1.
    set (n0 := Notification.mk _ _ _ _ _ _ _ _).
    destruct (IH (with_notifications db (notifications db ++ [n0])%list))
      as (new & E & R & F); [exact Ha |].
    exists (n0 :: new). rewrite E. simpl. rewrite <- app_assoc. simpl.
    split; [reflexivity |]. split; [now rewrite R |].
    constructor; [now split | exact F].
Qed.

(** Primary keys: two user rows with one id are one row. *)
Lemma user_id_unique (rows : list User.t) (u v : User.t) :
  NoDup (map User.id rows) -> In u rows -> In v rows ->
  User.id u = User.id v -> u = v.
Proof.
  induction rows as [| x r IH]; simpl; [tauto |].
  intros ND Hu Hv E. inversion ND as [| ? ? Hx ND']; subst.
  destruct Hu as [-> | Hu], Hv as [-> | Hv]; try reflexivity.
  - exfalso. apply Hx. rewrite E. now apply in_map.
  - exfalso. apply Hx. rewrite <- E. now apply in_map.
  - now apply IH.
Qed.

Lemma users_with_role_ids db r :
  NoDup (map User.id (users db)) -> NoDup (map User.id (users_with_role db r)).
Proof.
  unfold users_with_role. induction (users db) as [| x rows IH]; simpl.
  - constructor.
  - intros ND. inversion ND as [| ? ? Hx ND']; subst.
    destruct (String.eqb (User.role x) r); simpl; [| now apply IH].
    constructor; [| now apply IH].
    intros Hin. apply Hx. apply in_map_iff in Hin as (y & E & Hy).
    apply filter_In in Hy as [Hy _]. rewrite <- E. now apply in_map.
Qed.

(** C1 (amended). For every TicketCreated event whose ticket has an author,
    with user ids being unique, the helper returns and adds nothing but
    notifications of type ticket_created for that ticket; their
    recipients are exactly the users of role admin or agent, each of
    them once. The creator is among them exactly when the creator's own
    role is admin or agent. *)
Theorem ticket_created_recipients :
  forall (now : Z) (ticket : Ticket.t) (db : DB) (author : User.t),
    get_user db (Ticket.user_id ticket) = Some author ->
    NoDup (map User.id (users db)) ->
    exists db',
      notify_ticket_created now ticket db = (Returned tt, db')
      /\ appends db db' (added db db')
      /\ (forall uid,
            In uid (recipients (added db db')) <->
            exists u, In u (users db) /\ User.id u = uid
                      /\ (User.role u = "admin" \/ User.role u = "agent"))
      /\ NoDup (recipients (added db db'))
      /\ Forall (fun n => Notification.type n = "ticket_created"
                          /\ Notification.ticket_id n = Ticket.id ticket)
                (added db db')
      /\ (In (Ticket.user_id ticket) (recipients (added db db')) <->
          User.role author = "admin" \/ User.role author = "agent").
Proof.
  intros now ticket db author Ha ND.
  unfold notify_ticket_created.
  destruct (for_each_notify now (Ticket.id ticket) (Ticket.user_id ticket)
              "ticket_created" (ticket_created_message ticket) None author
              (users_with_role db "admin") db Ha) as (n1 & E1 & R1 & F1).
  set (db1 := with_notifications db (notifications db ++ n1)%list) in *.
  destruct (for_each_notify now (Ticket.id ticket) (Ticket.user_id ticket)
              "ticket_created" (ticket_created_message ticket) None author
              (users_with_role db "agent") db1 Ha) as (n2 & E2 & R2 & F2).
  exists (with_notifications db (notifications db ++ (n1 ++ n2))%list).
  assert (Hrun : bind read_db (fun db0 =>
            bind (for_each (users_with_role db0 "admin") (fun admin =>
                    bind (author_username (Ticket.user_id ticket)) (fun a =>
                      create_notification now (User.id admin) (Ticket.id ticket)
                        "ticket_created" (ticket_created_message ticket a) None)))
              (fun _ => bind read_db (fun db2 =>
                 for_each (users_with_role db2 "agent") (fun agent =>
                   bind (author_username (Ticket.user_id ticket)) (fun a =>
                     create_notification now (User.id agent) (Ticket.id ticket)
                       "ticket_created" (ticket_created_message ticket a) None))))) db
          = (Returned tt, with_notifications db (notifications db ++ (n1 ++ n2))%list)).
  { unfold bind at 1. unfold read_db at 1. unfold bind at 1. rewrite E1.
    unfold bind at 1. unfold read_db at 1.
    change (users_with_role db1 "agent") with (users_with_role db "agent").
    rewrite E2. unfold db1. simpl. now rewrite app_assoc. }
  assert (Hadd : added db (with_notifications db (notifications db ++ (n1 ++ n2))%list)
                 = (n1 ++ n2)%list).
  { apply appends_added. reflexivity. }
  rewrite Hadd.
  assert (Hrec : recipients (n1 ++ n2)
                 = (map User.id (users_with_role db "admin")
                    ++ map User.id (users_with_role db "agent"))%list).
  { unfold recipients in *. now rewrite map_app, R1, R2. }
  assert (Hset : forall uid,
            In uid (recipients (n1 ++ n2)) <->
            exists u, In u (users db) /\ User.id u = uid
                      /\ (User.role u = "admin" \/ User.role u = "agent")).
  { intros uid. rewrite Hrec, in_app_iff, !in_map_iff. unfold users_with_role.
    split.
    - intros [(u & E & Hu) | (u & E & Hu)]; apply filter_In in Hu as [Hu Hr];
        apply String.eqb_eq in Hr; exists u; auto.
    - intros (u & Hu & E & [Hr | Hr]); [left | right]; exists u;
        (split; [exact E |]); apply filter_In; (split; [exact Hu |]);
        now apply String.eqb_eq. }
  split; [exact Hrun |]. split; [reflexivity |]. split; [exact Hset |].
  split; [| split].
  - rewrite Hrec. apply NoDup_app.
    + now apply users_with_role_ids.
    + now apply users_with_role_ids.
    + intros uid H1 H2. rewrite in_map_iff in H1, H2.
      destruct H1 as (u1 & E1' & Hu1), H2 as (u2 & E2' & Hu2).
      apply filter_In in Hu1 as [Hu1 Hr1]. apply filter_In in Hu2 as [Hu2 Hr2].
      assert (u1 = u2) by (apply (user_id_unique (users db)); congruence).
      subst u2. apply String.eqb_eq in Hr1, Hr2. congruence.
  - apply Forall_app. now split.
  - rewrite Hset. unfold get_user in Ha.
    pose proof (find_some _ _ Ha) as [Hin Hid]. apply Z.eqb_eq in Hid.
    split.
    + intros (u & Hu & E & Hr).
      assert (u = author) by (apply (user_id_unique (users db)); congruence).
      now subst u.
    + intros Hr. exists author. auto.
Qed.

(** The creator of [ticket1] is an admin and is notified of the ticket. *)
Lemma ticket_created_notifies_admin_creator :
  In (Ticket.user_id ticket1)
     (recipients (added sample_db (snd (notify_ticket_created 10 ticket1 sample_db)))).
Proof. vm_compute. left. reflexivity. Qed.

Lemma ticket_created_recipients_witness :
  exists db',
    notify_ticket_created 10 ticket1 sample_db = (Returned tt, db')
    /\ recipients (added sample_db db') = [1; 2].
Proof.
  assert (Ha : get_user sample_db (Ticket.user_id ticket1) = Some alice)
    by reflexivity.
  assert (ND : NoDup (map User.id (users sample_db))).
  { simpl. repeat (constructor; [simpl; intuition discriminate |]). constructor. }
  destruct (ticket_created_recipients 10 ticket1 sample_db alice Ha ND)
    as (db' & Hrun & _).
  exists db'. split; [exact Hrun |].
  vm_compute in Hrun. injection Hrun as <-. reflexivity.
Defined.

(** ** Comments: one user, two notifications *)

(** C2. The agent comments on an urgent ticket that an admin created: the
    admin is notified as the ticket's creator and again as an admin. *)
Theorem comment_notifies_admin_creator_twice :
  notify_comment_added 30 comment1 sample_db
  = (Returned tt,
     with_notifications sample_db
       [Notification.mk 1 1 1 (Some 1) "comment_added"
          ("New comment on your ticket " ++ dq ++ "Printer" ++ dq ++ " by bob")
          false 30;
        Notification.mk 2 1 1 (Some 1) "comment_added"
          ("New comment on urgent priority ticket " ++ dq ++ "Printer" ++ dq
           ++ " by bob")
          false 30])
  /\ count_occ Z.eq_dec
       (recipients (added sample_db (snd (notify_comment_added 30 comment1 sample_db))))
       (User.id alice) = 2%nat.
Proof. split; reflexivity. Qed.

(** ** Committing a ticket *)

Lemma same_columns_refl a : Ticket.same_columns a a = true.
Proof.
  unfold Ticket.same_columns. rewrite !Z.eqb_refl, !String.eqb_refl.
  destruct (Ticket.assigned_to a); now rewrite ?Z.eqb_refl.
Qed.

Lemma same_columns_eq a b :
  Ticket.same_columns a b = true ->
  Ticket.updated_at a = Ticket.updated_at b -> a = b.
Proof.
  destruct a as [i1 s1 d1 st1 p1 c1 u1 o1 g1 a1 up1 dn1].
  destruct b as [i2 s2 d2 st2 p2 c2 u2 o2 g2 a2 up2 dn2].
  unfold Ticket.same_columns. simpl. intros H E.
  repeat match goal with
         | H : (_ && _)%bool = true |- _ => apply andb_true_iff in H; destruct H
         end.
  repeat match goal with
         | H : String.eqb _ _ = true |- _ => apply String.eqb_eq in H
         end.
  destruct a1, a2; try discriminate;
    repeat match goal with
           | H : Z.eqb _ _ = true |- _ => apply Z.eqb_eq in H
           end; subst; reflexivity.
Qed.

Lemma find_replace (row : Ticket.t) (tid : Z) :
  Ticket.id row = tid ->
  forall (l : list Ticket.t) (old : Ticket.t),
    find (fun t => Ticket.id t =? tid) l = Some old ->
    find (fun t => Ticket.id t =? tid)
         (map (fun r => if Ticket.id r =? tid then row else r) l) = Some row.
Proof.
  intros Hrow. induction l as [| x r IH]; simpl; intros old H; [discriminate |].
  destruct (Ticket.id x =? tid) eqn:E; simpl.
  - rewrite Hrow, Z.eqb_refl. reflexivity.
  - rewrite E. eapply IH. eassumption.
Qed.

Lemma find_replace_other (row : Ticket.t) (tid tid' : Z) :
  Ticket.id row = tid -> tid' <> tid ->
  forall l : list Ticket.t,
    find (fun t => Ticket.id t =? tid')
         (map (fun r => if Ticket.id r =? tid then row else r) l)
    = find (fun t => Ticket.id t =? tid') l.
Proof.
  intros Hrow Hne. induction l as [| x r IH]; simpl; [reflexivity |].
  destruct (Ticket.id x =? tid) eqn:E; simpl.
  - apply Z.eqb_eq in E.
    replace (Ticket.id row =? tid') with false
      by (symmetry; apply Z.eqb_neq; congruence).
    replace (Ticket.id x =? tid') with false
      by (symmetry; apply Z.eqb_neq; congruence).
    exact IH.
  - rewrite IH. reflexivity.
Qed.

Lemma get_ticket_id db tid t : get_ticket db tid = Some t -> Ticket.id t = tid.
Proof.
  unfold get_ticket. intros H. apply find_some in H as [_ H]. now apply Z.eqb_eq.
Qed.

Lemma committed_row_id now old new :
  Ticket.id (committed_row now old new) = Ticket.id new.
Proof. unfold committed_row. now destruct (_ && _)%bool. Qed.

Lemma commit_ticket_get now old new db tid :
  get_ticket db tid = Some old ->
  Ticket.id new = Ticket.id old ->
  get_ticket (commit_ticket now old new db) tid = Some (committed_row now old new).
Proof.
  intros Hget Hid. pose proof (get_ticket_id _ _ _ Hget) as Hold.
  unfold commit_ticket, committed_row.
  destruct (Ticket.same_columns old new) eqn:Hs;
    destruct (Ticket.updated_at old =? Ticket.updated_at new) eqn:Hu; simpl.
  - apply Z.eqb_eq in Hu. rewrite <- (same_columns_eq _ _ Hs Hu). exact Hget.
  - unfold get_ticket. simpl. rewrite Hold.
    eapply find_replace; [congruence | exact Hget].
  - unfold get_ticket. simpl. rewrite Hold.
    eapply find_replace; [simpl; congruence | exact Hget].
  - unfold get_ticket. simpl. rewrite Hold.
    eapply find_replace; [congruence | exact Hget].
Qed.

Lemma commit_ticket_other now old new db tid' :
  Ticket.id new = Ticket.id old ->
  tid' <> Ticket.id old ->
  get_ticket (commit_ticket now old new db) tid' = get_ticket db tid'.
Proof.
  intros Hid Hne. unfold commit_ticket.
  destruct (_ && _)%bool; [reflexivity |].
  unfold get_ticket. simpl. apply find_replace_other; [| exact Hne].
  destruct (_ =? _); simpl; congruence.
Qed.

Lemma commit_ticket_frame now old new db :
  users (commit_ticket now old new db) = users db
  /\ categories (commit_ticket now old new db) = categories db
  /\ comments (commit_ticket now old new db) = comments db
  /\ notifications (commit_ticket now old new db) = notifications db.
Proof. unfold commit_ticket. destruct (_ && _)%bool; simpl; auto. Qed.

Lemma str_in_In s l : str_in s l = true <-> In s l.
Proof.
  unfold str_in. rewrite existsb_exists. split.
  - intros (x & Hx & E). apply String.eqb_eq in E. now subst.
  - intros H. exists s. split; [exact H | apply String.eqb_refl].
Qed.

Lemma str_in_not_In s l : str_in s l = false <-> ~ In s l.
Proof.
  rewrite <- str_in_In. destruct (str_in s l); split; intros; congruence.
Qed.

Lemma staff_str_in u : staff u <-> str_in (User.role u) ["agent"; "admin"] = true.
Proof. rewrite str_in_In. unfold staff. simpl. intuition congruence. Qed.

(** ** Changing a status *)

Lemma set_status_same t : Ticket.set_status t (Ticket.status t) = t.
Proof. now destruct t. Qed.

(** Setting the status it already has: the ticket's time stamp moves. *)
Lemma same_status_moves_timestamp :
  let db' := snd (update_ticket_status 50 (Some bob) 1 (Some "open") sample_db) in
  option_map Ticket.status (get_ticket sample_db 1) = Some "open"
  /\ get_ticket db' 1 <> get_ticket sample_db 1
  /\ option_map Ticket.updated_at (get_ticket sample_db 1) = Some 10
  /\ option_map Ticket.updated_at (get_ticket db' 1) = Some 50.
Proof. vm_compute. repeat split; try reflexivity. discriminate. Qed.

(** C3 (amended). An agent or admin sets a ticket to the status it already
    has: no notification is created (so no StatusChanged is raised), users,
    categories, comments and all other tickets are untouched, and the
    ticket keeps its status and every column but one: when the status is one
    of the four valid values its updated timestamp becomes the time of the
    call and the request flashes its success message; otherwise the ticket
    is left as it was. *)
Theorem same_status_keeps_all_but_timestamp :
  forall (now : Z) (u : User.t) (tid : Z) (db : DB) (ticket : Ticket.t),
    get_ticket db tid = Some ticket ->
    staff u ->
    let status := Ticket.status ticket in
    let valid := str_in status ["open"; "in_progress"; "resolved"; "closed"] in
    let '(reply, db') := update_ticket_status now (Some u) tid (Some status) db in
    notifications db' = notifications db
    /\ users db' = users db /\ categories db' = categories db
    /\ comments db' = comments db
    /\ get_ticket db' tid
       = Some (if valid then Ticket.set_updated_at ticket now else ticket)
    /\ (forall tid', tid' <> tid -> get_ticket db' tid' = get_ticket db tid')
    /\ reply = mkReply (Redirect (EpTicketDetail tid))
                 (if valid then [("Ticket status updated successfully!", "success")]
                  else []).
Proof.
  intros now u tid db ticket Hget Hstaff status valid.
  apply staff_str_in in Hstaff.
  unfold update_ticket_status, login_required. rewrite Hget, Hstaff. simpl negb.
  cbv iota. subst valid.
  destruct (str_in status _) eqn:Hv.
  - unfold call. subst status. rewrite String.eqb_refl. simpl.
    rewrite set_status_same.
    set (new := Ticket.set_updated_at ticket now).
    pose proof (commit_ticket_frame now ticket new db) as (Hu & Hc & Hm & Hn).
    pose proof (get_ticket_id _ _ _ Hget) as Hid.
    repeat split; try assumption.
    + rewrite (commit_ticket_get now ticket new db tid Hget eq_refl).
      unfold committed_row. destruct (_ && _)%bool; reflexivity.
    + intros tid' Hne. apply commit_ticket_other; [reflexivity | congruence].
  - repeat split; try reflexivity. exact Hget.
Qed.

Lemma same_status_keeps_all_but_timestamp_witness :
  get_ticket (snd (update_ticket_status 50 (Some bob) 1 (Some "open") sample_db)) 1
  = Some (Ticket.set_updated_at ticket1 50).
Proof.
  assert (Hget : get_ticket sample_db 1 = Some ticket1) by reflexivity.
  assert (Hs : staff bob) by (left; reflexivity).
  pose proof (same_status_keeps_all_but_timestamp 50 bob 1 sample_db ticket1 Hget Hs)
    as H.
  cbv zeta in H. change (Ticket.status ticket1) with "open" in H.
  destruct (update_ticket_status 50 (Some bob) 1 (Some "open") sample_db)
    as [reply db'].
  destruct H as (_ & _ & _ & _ & H & _). exact H.
Defined.

(** A status that is none of the four values: the request flashes no
    message at all. *)
Lemma invalid_status_flashes_nothing :
  ~ valid_status "archived"
  /\ flashed (fst (update_ticket_status 50 (Some bob) 1 (Some "archived") sample_db))
     = [].
Proof.
  split; [| reflexivity].
  unfold valid_status. simpl. intuition discriminate.
Qed.

(** C4 (amended). An agent or admin asks for a status that is not one of
    open, in_progress, resolved, closed (or sends none): nothing is
    written, so the ticket's status and updated timestamp stay and no
    notification is created, and the caller is redirected to the ticket
    with no message flashed. *)
Theorem invalid_status_is_ignored :
  forall (now : Z) (u : User.t) (tid : Z) (form_status : option string)
         (db : DB) (ticket : Ticket.t),
    get_ticket db tid = Some ticket ->
    staff u ->
    (forall s, form_status = Some s -> ~ valid_status s) ->
    update_ticket_status now (Some u) tid form_status db
    = (mkReply (Redirect (EpTicketDetail tid)) [], db).
Proof.
  intros now u tid form_status db ticket Hget Hstaff Hinv.
  apply staff_str_in in Hstaff.
  unfold update_ticket_status, login_required. rewrite Hget, Hstaff. simpl negb.
  cbv iota. destruct form_status as [s |]; [| reflexivity].
  specialize (Hinv s eq_refl). apply str_in_not_In in Hinv.
  unfold valid_status in Hinv. now rewrite Hinv.
Qed.

Lemma invalid_status_is_ignored_witness :
  update_ticket_status 50 (Some bob) 1 (Some "archived") sample_db
  = (mkReply (Redirect (EpTicketDetail 1)) [], sample_db).
Proof.
  apply (invalid_status_is_ignored 50 bob 1 (Some "archived") sample_db ticket1).
  - reflexivity.
  - left. reflexivity.
  - intros s E. injection E as <-. unfold valid_status. simpl.
    intuition discriminate.
Defined.

(** C6. An actor whose role is neither agent nor admin, the ticket's own
    creator included, asks for a status change: the request answers with
    the permission error, and the database is the one it started from, so
    the status is unchanged and no notification is created. *)
Theorem status_change_forbidden :
  forall (now : Z) (u : User.t) (tid : Z) (form_status : option string)
         (db : DB) (ticket : Ticket.t),
    get_ticket db tid = Some ticket ->
    User.role u <> "agent" ->
    User.role u <> "admin" ->
    update_ticket_status now (Some u) tid form_status db
    = (mkReply (Redirect (EpTicketDetail tid))
         [("You do not have permission to update ticket status", "error")],
       db).
Proof.
  intros now u tid form_status db ticket Hget Hagent Hadmin.
  assert (Hrole : str_in (User.role u) ["agent"; "admin"] = false).
  { apply str_in_not_In. simpl. intuition congruence. }
  unfold update_ticket_status, login_required. now rewrite Hget, Hrole.
Qed.

Lemma status_change_forbidden_witness :
  update_ticket_status 50 (Some carol) 2 (Some "closed") sample_db
  = (mkReply (Redirect (EpTicketDetail 2))
       [("You do not have permission to update ticket status", "error")],
     sample_db)
  /\ Ticket.user_id ticket2 = User.id carol.
Proof.
  split; [| reflexivity].
  apply (status_change_forbidden 50 carol 2 (Some "closed") sample_db ticket2).
  - reflexivity.
  - discriminate.
  - discriminate.
Defined.

(** ** Votes *)

Lemma commit_ticket_unchanged now t db : commit_ticket now t t db = db.
Proof.
  unfold commit_ticket. now rewrite same_columns_refl, Z.eqb_refl.
Qed.

Lemma changed_counters_same t : changed_counters t t = [].
Proof. unfold changed_counters. now rewrite !Z.eqb_refl. Qed.

Lemma changed_counters_upvote t :
  changed_counters t (Ticket.set_upvotes t (Ticket.upvotes t + 1))
  = [Ticket.upvotes t + 1].
Proof.
  unfold changed_counters. simpl. rewrite Z.eqb_refl.
  now replace (Ticket.upvotes t =? Ticket.upvotes t + 1) with false
    by (symmetry; apply Z.eqb_neq; lia).
Qed.

Lemma changed_counters_downvote t :
  changed_counters t (Ticket.set_downvotes t (Ticket.downvotes t + 1))
  = [Ticket.downvotes t + 1].
Proof.
  unfold changed_counters. simpl. rewrite Z.eqb_refl.
  now replace (Ticket.downvotes t =? Ticket.downvotes t + 1) with false
    by (symmetry; apply Z.eqb_neq; lia).
Qed.

Lemma fits_sqlite_iff n : fits_sqlite n = true <-> sqlite_min <= n <= sqlite_max.
Proof. unfold fits_sqlite. rewrite andb_true_iff, !Z.leb_le. tauto. Qed.

Lemma sqlite_range : sqlite_min < 0 < sqlite_max.
Proof. split; reflexivity. Qed.

(** C10. A vote whose direction is neither 'upvote' nor 'downvote' (or is
    missing), on an existing ticket, by a logged-in actor: the request
    answers with the ticket's upvote and downvote counts as they were, and
    the database, the ticket with it, is unchanged. *)
Theorem unknown_vote_changes_nothing :
  forall (now : Z) (u : User.t) (tid : Z) (vote_type : option string)
         (db : DB) (ticket : Ticket.t),
    get_ticket db tid = Some ticket ->
    vote_type <> Some "upvote" ->
    vote_type <> Some "downvote" ->
    vote_ticket now (Some u) tid vote_type db
    = (mkReply (JsonVotes (Ticket.upvotes ticket) (Ticket.downvotes ticket)) [], db).
Proof.
  intros now u tid vt db ticket Hget Hup Hdown.
  unfold vote_ticket, login_required. rewrite Hget.
  destruct vt as [v |].
  - destruct (String.eqb v "upvote") eqn:E1.
    { apply String.eqb_eq in E1. congruence. }
    destruct (String.eqb v "downvote") eqn:E2.
    { apply String.eqb_eq in E2. congruence. }
    now rewrite changed_counters_same, commit_ticket_unchanged.
  - now rewrite changed_counters_same, commit_ticket_unchanged.
Qed.

Lemma unknown_vote_changes_nothing_witness :
  vote_ticket 50 (Some carol) 1 (Some "sideways") sample_db
  = (mkReply (JsonVotes 0 0) [], sample_db).
Proof.
  apply (unknown_vote_changes_nothing 50 carol 1 (Some "sideways") sample_db ticket1).
  - reflexivity.
  - discriminate.
  - discriminate.
Defined.

Lemma committed_row_votes now old new :
  Ticket.upvotes (committed_row now old new) = Ticket.upvotes new
  /\ Ticket.downvotes (committed_row now old new) = Ticket.downvotes new.
Proof. unfold committed_row. now destruct (_ && _)%bool. Qed.

Lemma vote_weight_range direction vt : 0 <= vote_weight direction vt <= 1.
Proof.
  unfold vote_weight. destruct vt as [v |]; [| lia].
  destruct (String.eqb v direction); lia.
Qed.

Lemma count_votes_nonneg direction reqs : 0 <= count_votes direction reqs.
Proof. unfold count_votes. lia. Qed.

(** One vote that the column can hold: the counter of its direction goes
    up by one, the other counter stays. *)
Lemma vote_ticket_step now u tid vt db ticket :
  get_ticket db tid = Some ticket ->
  fits_sqlite (Ticket.upvotes ticket + vote_weight "upvote" vt) = true ->
  fits_sqlite (Ticket.downvotes ticket + vote_weight "downvote" vt) = true ->
  exists ticket',
    get_ticket (snd (vote_ticket now (Some u) tid vt db)) tid = Some ticket'
    /\ Ticket.upvotes ticket' = Ticket.upvotes ticket + vote_weight "upvote" vt
    /\ Ticket.downvotes ticket' = Ticket.downvotes ticket + vote_weight "downvote" vt.
Proof.
  intros Hget Hup Hdown. unfold vote_ticket, login_required. rewrite Hget.
  set (new := match vt with
              | Some v =>
                  if String.eqb v "upvote"
                  then Ticket.set_upvotes ticket (Ticket.upvotes ticket + 1)
                  else if String.eqb v "downvote"
                       then Ticket.set_downvotes ticket (Ticket.downvotes ticket + 1)
                       else ticket
              | None => ticket
              end).
  assert (Hnew : Ticket.id new = Ticket.id ticket
                 /\ forallb fits_sqlite (changed_counters ticket new) = true
                 /\ Ticket.upvotes new = Ticket.upvotes ticket + vote_weight "upvote" vt
                 /\ Ticket.downvotes new
                    = Ticket.downvotes ticket + vote_weight "downvote" vt).
  { unfold new, vote_weight in *. destruct vt as [v |].
    - destruct (String.eqb v "upvote") eqn:E1.
      + apply String.eqb_eq in E1. subst v. simpl in Hup.
        rewrite changed_counters_upvote. simpl. rewrite Hup.
        repeat split; simpl; lia.
      + destruct (String.eqb v "downvote") eqn:E2.
        * rewrite changed_counters_downvote. simpl. rewrite Hdown.
          repeat split; simpl; lia.
        * rewrite changed_counters_same. repeat split; simpl; lia.
    - rewrite changed_counters_same. repeat split; simpl; lia. }
  destruct Hnew as (Hid & Hfits & Hu & Hd). rewrite Hfits. simpl snd.
  exists (committed_row now ticket new). split.
  - now apply commit_ticket_get.
  - destruct (committed_row_votes now ticket new) as [-> ->]. now split.
Qed.

Lemma count_votes_cons direction r reqs :
  count_votes direction (r :: reqs)
  = vote_weight direction (vote_type r) + count_votes direction reqs.
Proof.
  unfold count_votes, vote_weight. simpl.
  destruct (vote_type r) as [v |]; [| lia].
  destruct (String.eqb v direction); simpl List.length; lia.
Qed.

Lemma vote_sequence_in_range :
  forall (reqs : list VoteRequest) (tid : Z) (db : DB) (ticket : Ticket.t),
    get_ticket db tid = Some ticket ->
    sqlite_min <= Ticket.upvotes ticket ->
    sqlite_min <= Ticket.downvotes ticket ->
    Ticket.upvotes ticket + count_votes "upvote" reqs <= sqlite_max ->
    Ticket.downvotes ticket + count_votes "downvote" reqs <= sqlite_max ->
    exists ticket',
      get_ticket (run_votes tid reqs db) tid = Some ticket'
      /\ Ticket.upvotes ticket'
         = Ticket.upvotes ticket + count_votes "upvote" reqs
      /\ Ticket.downvotes ticket'
         = Ticket.downvotes ticket + count_votes "downvote" reqs.
Proof.
  induction reqs as [| r reqs IH]; intros tid db ticket Hget Hu0 Hd0 Hu Hd.
  - exists ticket. unfold count_votes. simpl. repeat split; [exact Hget | lia | lia].
  - rewrite count_votes_cons in Hu, Hd.
    pose proof (vote_weight_range "upvote" (vote_type r)) as Wu.
    pose proof (vote_weight_range "downvote" (vote_type r)) as Wd.
    pose proof (count_votes_nonneg "upvote" reqs) as Cu.
    pose proof (count_votes_nonneg "downvote" reqs) as Cd.
    unfold run_votes. simpl fold_left. fold (run_votes tid reqs).
    destruct (vote_ticket_step (vote_now r) (vote_actor r) tid (vote_type r)
                db ticket Hget) as (t1 & H1 & U1 & D1).
    { apply fits_sqlite_iff. lia. }
    { apply fits_sqlite_iff. lia. }
    destruct (IH tid _ t1 H1) as (t2 & H2 & U2 & D2); try lia.
    exists t2. rewrite !count_votes_cons. repeat split; [exact H2 | lia | lia].
Qed.

(** A vote for a ticket whose counter is at the largest integer the
    column holds: the commit raises, the request answers 500, and the
    counter is where it was. *)
Lemma vote_at_the_limit_fails :
  get_ticket full_db 1 = Some full_ticket
  /\ vote_ticket 60 (Some carol) 1 (Some "upvote") full_db
     = (mkReply (InternalError500 OverflowError) [], full_db)
  /\ option_map Ticket.upvotes
       (get_ticket (run_votes 1 [mkVote 60 carol (Some "upvote")] full_db) 1)
     <> Some (Ticket.upvotes full_ticket + 1).
Proof.
  split; [reflexivity |]. split; [reflexivity |].
  vm_compute. discriminate.
Qed.

(** C8 (amended). After any sequence of votes on a ticket, one after the
    other, by any actors and in any mix of directions, that keeps both
    counters within the integers the column holds: the upvote counter is
    its initial value plus the number of upvotes issued and the downvote
    counter is its initial value plus the number of downvotes issued;
    every vote counts, whoever casts it and however often, and nothing
    but the range of the column caps the counters. A vote for a counter
    that is at the largest such integer is answered with a server error
    and leaves the database as it was. *)
Theorem vote_sequence_counts :
  forall (reqs : list VoteRequest) (tid : Z) (db : DB) (ticket : Ticket.t),
    get_ticket db tid = Some ticket ->
    (sqlite_min <= Ticket.upvotes ticket ->
     sqlite_min <= Ticket.downvotes ticket ->
     Ticket.upvotes ticket + count_votes "upvote" reqs <= sqlite_max ->
     Ticket.downvotes ticket + count_votes "downvote" reqs <= sqlite_max ->
     exists ticket',
       get_ticket (run_votes tid reqs db) tid = Some ticket'
       /\ Ticket.upvotes ticket'
          = Ticket.upvotes ticket + count_votes "upvote" reqs
       /\ Ticket.downvotes ticket'
          = Ticket.downvotes ticket + count_votes "downvote" reqs)
    /\ (sqlite_max <= Ticket.upvotes ticket ->
        forall now u,
          vote_ticket now (Some u) tid (Some "upvote") db
          = (mkReply (InternalError500 OverflowError) [], db))
    /\ (sqlite_max <= Ticket.downvotes ticket ->
        forall now u,
          vote_ticket now (Some u) tid (Some "downvote") db
          = (mkReply (InternalError500 OverflowError) [], db)).
Proof.
  intros reqs tid db ticket Hget. split; [| split].
  - now apply vote_sequence_in_range.
  - intros Hmax now u. unfold vote_ticket, login_required. rewrite Hget.
    simpl String.eqb. cbv iota. rewrite changed_counters_upvote.
    cbn [forallb]. replace (fits_sqlite (Ticket.upvotes ticket + 1)) with false;
      [reflexivity |].
    symmetry. destruct (fits_sqlite _) eqn:E; [| reflexivity].
    apply fits_sqlite_iff in E. lia.
  - intros Hmax now u. unfold vote_ticket, login_required. rewrite Hget.
    simpl String.eqb. cbv iota. rewrite changed_counters_downvote.
    cbn [forallb]. replace (fits_sqlite (Ticket.downvotes ticket + 1)) with false;
      [reflexivity |].
    symmetry. destruct (fits_sqlite _) eqn:E; [| reflexivity].
    apply fits_sqlite_iff in E. lia.
Qed.

Lemma vote_sequence_counts_witness :
  exists ticket',
    get_ticket
      (run_votes 1 [mkVote 40 carol (Some "upvote"); mkVote 41 carol (Some "upvote");
                    mkVote 42 bob (Some "downvote")] sample_db) 1 = Some ticket'
    /\ Ticket.upvotes ticket' = 2 /\ Ticket.downvotes ticket' = 1.
Proof.
  destruct (vote_sequence_counts
              [mkVote 40 carol (Some "upvote"); mkVote 41 carol (Some "upvote");
               mkVote 42 bob (Some "downvote")] 1 sample_db ticket1 eq_refl)
    as (Hseq & _).
  destruct Hseq as (t' & H & U & D);
    try (apply Z.leb_le; reflexivity).
  exists t'. repeat split; [exact H | exact U | exact D].
Defined.

(** ** Marking notifications read *)

Lemma with_notifications_same db : with_notifications db (notifications db) = db.
Proof. now destruct db. Qed.

Lemma update_mark_read_spec uid rows :
  (forall n, In n (fst (update_mark_read uid rows)) ->
             Notification.user_id n = uid -> Notification.is_read n = true)
  /\ update_mark_read uid (fst (update_mark_read uid rows))
     = (fst (update_mark_read uid rows), 0).
Proof.
  unfold update_mark_read. simpl fst.
  induction rows as [| n rows [IH1 IH2]]; simpl.
  - split; [tauto | reflexivity].
  - injection IH2 as IHmap IHlen.
    destruct (Notification.user_id n =? uid) eqn:Eu;
      destruct (Notification.is_read n) eqn:Er; simpl;
      rewrite ?Eu, ?Er; simpl.
    + split.
      * intros m [<- | Hm] Hid; [exact Er | now apply IH1].
      * now rewrite IHmap, IHlen.
    + split.
      * intros m [<- | Hm] Hid; [reflexivity | now apply IH1].
      * now rewrite IHmap, IHlen.
    + split.
      * intros m [<- | Hm] Hid; [apply Z.eqb_neq in Eu; congruence | now apply IH1].
      * now rewrite IHmap, IHlen.
    + split.
      * intros m [<- | Hm] Hid; [apply Z.eqb_neq in Eu; congruence | now apply IH1].
      * now rewrite IHmap, IHlen.
Qed.

Lemma mark_read_twice n :
  Notification.is_read n = true -> Notification.set_is_read n true = n.
Proof. destruct n. simpl. now intros ->. Qed.

Lemma update_mark_read_rows uid rows :
  fst (update_mark_read uid rows)
  = map (fun n => if Notification.user_id n =? uid
                  then Notification.set_is_read n true else n) rows.
Proof.
  unfold update_mark_read. simpl fst. apply map_ext. intros n.
  destruct (Notification.user_id n =? uid); [| reflexivity].
  destruct (Notification.is_read n) eqn:Er; simpl; [| reflexivity].
  symmetry. now apply mark_read_twice.
Qed.

(** C9. markAllRead is idempotent. One call keeps every table but the
    notifications, and keeps every notification, in place and with all
    its columns, except that those of the user are now read: so after it
    every notification of that user is read. An immediate second call
    finds no row to update (its update matches 0 notifications) and
    leaves the database, every read flag with it, as the first call left
    it. *)
Theorem mark_all_read_idempotent :
  forall (u : User.t) (db : DB),
    let db1 := snd (mark_all_notifications_read (Some u) db) in
    notifications db1
    = map (fun n => if Notification.user_id n =? User.id u
                    then Notification.set_is_read n true else n)
          (notifications db)
    /\ users db1 = users db /\ categories db1 = categories db
    /\ tickets db1 = tickets db /\ comments db1 = comments db
    /\ (forall n, In n (notifications db1) ->
                  Notification.user_id n = User.id u -> Notification.is_read n = true)
    /\ snd (update_mark_read (User.id u) (notifications db1)) = 0
    /\ snd (mark_all_notifications_read (Some u) db1) = db1.
Proof.
  intros u db db1.
  destruct (update_mark_read_spec (User.id u) (notifications db)) as [H1 H2].
  assert (E : notifications db1 = fst (update_mark_read (User.id u) (notifications db))).
  { unfold db1, mark_all_notifications_read, login_required.
    now destruct (update_mark_read _ _). }
  assert (F : users db1 = users db /\ categories db1 = categories db
              /\ tickets db1 = tickets db /\ comments db1 = comments db).
  { unfold db1, mark_all_notifications_read, login_required.
    now destruct (update_mark_read _ _). }
  split; [rewrite E; apply update_mark_read_rows |].
  destruct F as (F1 & F2 & F3 & F4).
  split; [exact F1 |]. split; [exact F2 |]. split; [exact F3 |]. split; [exact F4 |].
  rewrite E. split; [exact H1 |]. split; [now rewrite H2 |].
  unfold mark_all_notifications_read at 1. unfold login_required.
  rewrite E, H2. rewrite <- E. exact (with_notifications_same db1).
Qed.

(** ** The listing sorted by priority *)

Lemma null_leb_trans a b c :
  null_leb a b = true -> null_leb b c = true -> null_leb a c = true.
Proof.
  destruct a, b, c; simpl; try congruence.
  rewrite !Z.leb_le. lia.
Qed.

Lemma null_leb_total a b : null_leb a b = false -> null_leb b a = true.
Proof.
  destruct a, b; simpl; try congruence.
  rewrite Z.leb_gt, Z.leb_le. lia.
Qed.

Lemma insert_desc_perm key x l : Permutation (x :: l) (insert_desc key x l).
Proof.
  induction l as [| y r IH]; simpl; [apply Permutation_refl |].
  destruct (null_leb (key y) (key x)); [apply Permutation_refl |].
  eapply perm_trans; [apply perm_swap |]. now apply perm_skip.
Qed.

Lemma insert_desc_sorted key x l :
  StronglySorted (fun a b => null_leb (key b) (key a) = true) l ->
  StronglySorted (fun a b => null_leb (key b) (key a) = true) (insert_desc key x l).
Proof.
  induction l as [| y r IH]; simpl; intros S.
  - repeat constructor.
  - inversion S as [| ? ? Sr Fy]; subst.
    destruct (null_leb (key y) (key x)) eqn:E.
    + constructor; [exact S |]. constructor; [exact E |].
      eapply Forall_impl; [| exact Fy]. intros z Hz. simpl in Hz.
      eapply null_leb_trans; eassumption.
    + constructor; [now apply IH |].
      eapply Permutation_Forall; [apply insert_desc_perm |].
      constructor; [now apply null_leb_total | exact Fy].
Qed.

(** The scan-order engine is one of those [ORDER BY] allows. *)
Lemma scan_order_by_contract : order_by_contract scan_order_by_desc.
Proof.
  intros key rows. unfold scan_order_by_desc.
  induction rows as [| x r [IHp IHs]]; simpl.
  - split; constructor.
  - split.
    + eapply perm_trans; [apply perm_skip, IHp | apply insert_desc_perm].
    + now apply insert_desc_sorted.
Qed.

Lemma paginate_spec pg rows :
  let slice := firstn 10 (skipn (Z.to_nat ((pg - 1) * 10)) rows) in
  paginate pg 10 rows
  = if pg <? 1 then Returned None
    else if negb (fits_sqlite ((pg - 1) * 10)) then Raised OverflowError
    else if negb (pg =? 1) && is_nil slice then Returned None
    else Returned (Some (mkPagination slice pg 10 (Z.of_nat (List.length rows)))).
Proof.
  intros slice. unfold paginate. change (Z.to_nat 10) with 10%nat. fold slice.
  destruct (pg <? 1); [reflexivity |].
  destruct (negb (fits_sqlite _)); [reflexivity |].
  destruct slice; destruct (pg =? 1); reflexivity.
Qed.

(** Two urgent tickets, the second updated last: the listing by priority
    shows the first one first. *)
Lemma priority_ties_not_by_update_time :
  order_by_contract scan_order_by_desc
  /\ exists p,
       fst (dashboard like_contains int_eq_text scan_order_by_desc
              (Some alice) by_priority sample_db)
       = mkReply (RenderDashboard p (categories sample_db)) []
       /\ items p = [ticket1; ticket2]
       /\ priority_key ticket1 = priority_key ticket2
       /\ Ticket.updated_at ticket1 < Ticket.updated_at ticket2
       /\ sorted_by priority_then_recent (items p) = false.
Proof.
  split; [apply scan_order_by_contract |].
  eexists. split; [vm_compute; reflexivity |].
  repeat split.
Qed.

(** C7 (amended). For every ticket listing with sort = priority, whatever
    engine runs the query within what ORDER BY on a single key allows: the
    rows selected are put in an order of priority rank descending
    (urgent 4, high 3, medium 2, low 1), in which the order among tickets
    of equal rank is the engine's, no second key being given; the page
    returned is the slice of at most 10 rows of that order at offset
    (page - 1) * 10. The request answers 404 when the page number is below
    1; otherwise 500 when the offset is not an integer the database takes;
    otherwise 404 when the page is empty and not the first; and otherwise
    it renders the page. *)
Theorem priority_listing_order :
  forall (sql_contains : string -> string -> bool)
         (sql_int_eq_text : Z -> string -> bool)
         (order_by_desc : (Ticket.t -> option Z) -> list Ticket.t -> list Ticket.t),
    order_by_contract order_by_desc ->
    forall (u : User.t) (args : DashboardArgs) (db : DB),
      arg_sort args = "priority" ->
      let rows := dashboard_query sql_contains sql_int_eq_text u args db in
      exists sorted,
        Permutation rows sorted
        /\ StronglySorted by_rank_desc sorted
        /\ map priority_order ["urgent"; "high"; "medium"; "low"]
           = [Some 4; Some 3; Some 2; Some 1]
        /\ let slice :=
             firstn 10 (skipn (Z.to_nat ((arg_page args - 1) * 10)) sorted) in
           (List.length slice <= 10)%nat
           /\ dashboard sql_contains sql_int_eq_text order_by_desc (Some u) args db
              = (mkReply
                   (if arg_page args <? 1 then NotFound404
                    else if negb (fits_sqlite ((arg_page args - 1) * 10))
                    then InternalError500 OverflowError
                    else if negb (arg_page args =? 1) && is_nil slice
                    then NotFound404
                    else RenderDashboard
                           (mkPagination slice (arg_page args) 10
                              (Z.of_nat (List.length sorted)))
                           (categories db))
                   [], db).
Proof.
  intros contains inteq engine Hengine u args db Hsort rows.
  exists (engine priority_key rows).
  destruct (Hengine priority_key rows) as [Hp Hs].
  split; [exact Hp |]. split; [exact Hs |]. split; [reflexivity |].
  intros slice. split; [apply firstn_le_length |].
  unfold dashboard, login_required, dashboard_sorted. rewrite Hsort. simpl String.eqb.
  cbv iota. fold rows. rewrite paginate_spec. fold slice.
  destruct (arg_page args <? 1); [reflexivity |].
  destruct (negb (fits_sqlite _)); [reflexivity |].
  destruct (negb (arg_page args =? 1) && is_nil slice)%bool; reflexivity.
Qed.

Lemma priority_listing_order_witness :
  exists p,
    dashboard like_contains int_eq_text scan_order_by_desc
      (Some alice) by_priority mixed_db
    = (mkReply (RenderDashboard p (categories mixed_db)) [], mixed_db)
    /\ map Ticket.priority (tickets mixed_db) = ["low"; "urgent"; "medium"; "high"]
    /\ map Ticket.priority (items p) = ["urgent"; "high"; "medium"; "low"]
    /\ StronglySorted by_rank_desc (items p).
Proof.
  destruct (priority_listing_order like_contains int_eq_text scan_order_by_desc
              scan_order_by_contract alice by_priority mixed_db eq_refl)
    as (sorted & Hp & Hs & _ & _ & Hd).
  assert (Hd' : dashboard like_contains int_eq_text scan_order_by_desc
                  (Some alice) by_priority mixed_db
                = (mkReply (RenderDashboard
                              (mkPagination (firstn 10 sorted) 1 10
                                 (Z.of_nat (List.length sorted)))
                              (categories mixed_db)) [], mixed_db))
    by exact Hd.
  assert (Hlen : (List.length sorted <= 10)%nat).
  { rewrite <- (Permutation_length Hp). simpl. lia. }
  rewrite (firstn_all2 _ Hlen) in Hd'.
  eexists. split; [reflexivity |]. split; [reflexivity |]. split; [reflexivity |].
  assert (Hc : dashboard like_contains int_eq_text scan_order_by_desc
                 (Some alice) by_priority mixed_db
               = (mkReply (RenderDashboard
                             (mkPagination
                                (scan_order_by_desc priority_key (tickets mixed_db))
                                1 10 4)
                             (categories mixed_db)) [], mixed_db))
    by reflexivity.
  rewrite Hc in Hd'. injection Hd' as Hitems _. subst sorted. exact Hs.
Defined.

(** * Further properties *)

(** ** Status changes and votes: what is written *)

Lemma commit_ticket_ids now old new db :
  Ticket.id new = Ticket.id old ->
  map Ticket.id (tickets (commit_ticket now old new db)) = map Ticket.id (tickets db).
Proof.
  intros Hid. unfold commit_ticket.
  destruct (_ && _)%bool; [reflexivity |]. simpl. rewrite map_map.
  apply map_ext. intros r.
  destruct (Ticket.id r =? Ticket.id old) eqn:E; [| reflexivity].
  apply Z.eqb_eq in E. rewrite E.
  destruct (_ =? _); simpl; congruence.
Qed.

Lemma committed_row_columns now old new :
  Ticket.set_updated_at (committed_row now old new) (Ticket.updated_at old)
  = Ticket.set_updated_at new (Ticket.updated_at old).
Proof. unfold committed_row. now destruct (_ && _)%bool. Qed.

Lemma appends_columns db db' new :
  appends db db' new ->
  users db' = users db /\ categories db' = categories db
  /\ tickets db' = tickets db /\ comments db' = comments db
  /\ notifications db' = (notifications db ++ new)%list.
Proof. intros ->. simpl. auto. Qed.

(** X1. An agent or admin sets an existing ticket to a valid status other
    than the one it has: the request succeeds, the ticket gets the new
    status and the time of the call as its updated timestamp, and exactly
    one notification is added, unread, of type status_changed, to the
    ticket's creator, naming the old and the new status. *)
Theorem status_change_notifies_creator :
  forall (now : Z) (u : User.t) (tid : Z) (status : string) (db : DB)
         (ticket : Ticket.t),
    get_ticket db tid = Some ticket ->
    staff u ->
    valid_status status ->
    status <> Ticket.status ticket ->
    exists db',
      update_ticket_status now (Some u) tid (Some status) db
      = (mkReply (Redirect (EpTicketDetail tid))
           [("Ticket status updated successfully!", "success")], db')
      /\ get_ticket db' tid
         = Some (Ticket.set_updated_at (Ticket.set_status ticket status) now)
      /\ notifications db'
         = (notifications db
            ++ [Notification.mk (next_id (map Notification.id (notifications db)))
                  (Ticket.user_id ticket) tid None "status_changed"
                  (status_changed_message ticket (Ticket.status ticket) status)
                  false now])%list.
Proof.
  intros now u tid status db ticket Hget Hstaff Hvalid Hne.
  apply staff_str_in in Hstaff. apply str_in_In in Hvalid.
  pose proof (get_ticket_id _ _ _ Hget) as Hid.
  unfold update_ticket_status, login_required.
  rewrite Hget, Hstaff. simpl negb. cbv iota. rewrite Hvalid.
  replace (String.eqb (Ticket.status ticket) status) with false
    by (symmetry; apply String.eqb_neq; congruence).
  set (new := Ticket.set_updated_at (Ticket.set_status ticket status) now).
  unfold call, when, notify_status_changed, create_notification. simpl negb. cbv iota.
  pose proof (commit_ticket_frame now ticket new db) as (_ & _ & _ & Hn).
  eexists. split; [reflexivity |]. split.
  - change (get_ticket (commit_ticket now ticket new db) tid = Some new).
    rewrite (commit_ticket_get now ticket new db tid Hget eq_refl).
    unfold committed_row. destruct (_ && _)%bool; reflexivity.
  - simpl. rewrite Hn. subst tid. reflexivity.
Qed.

Lemma status_change_notifies_creator_witness :
  exists db',
    update_ticket_status 50 (Some bob) 1 (Some "in_progress") sample_db
    = (mkReply (Redirect (EpTicketDetail 1))
         [("Ticket status updated successfully!", "success")], db')
    /\ map Notification.user_id (notifications db') = [1]
    /\ map Notification.message (notifications db')
       = ["Your ticket " ++ dq ++ "Printer" ++ dq
          ++ " status changed from Open to In Progress"].
Proof.
  destruct (status_change_notifies_creator 50 bob 1 "in_progress" sample_db ticket1)
    as (db' & Hrun & _ & Hn).
  - reflexivity.
  - left. reflexivity.
  - unfold valid_status. simpl. tauto.
  - discriminate.
  - exists db'. split; [exact Hrun |]. rewrite Hn. split; reflexivity.
Defined.

(** X2. Whatever the request (anonymous or not, any ticket id, any status
    or none), the status route leaves users, categories and comments as
    they are, keeps the list of ticket ids, leaves every other ticket as
    it is, changes at most the status and the updated timestamp of the
    ticket addressed, and adds at most one notification, of type
    status_changed for that ticket. *)
Theorem status_route_writes_little :
  forall (now : Z) (current_user : option User.t) (tid : Z)
         (form_status : option string) (db : DB),
    let db' := snd (update_ticket_status now current_user tid form_status db) in
    users db' = users db /\ categories db' = categories db
    /\ comments db' = comments db
    /\ map Ticket.id (tickets db') = map Ticket.id (tickets db)
    /\ (forall tid', tid' <> tid -> get_ticket db' tid' = get_ticket db tid')
    /\ (forall t, get_ticket db tid = Some t ->
          exists t', get_ticket db' tid = Some t'
            /\ Ticket.set_updated_at (Ticket.set_status t' (Ticket.status t))
                 (Ticket.updated_at t) = t)
    /\ exists new,
         notifications db' = (notifications db ++ new)%list
         /\ (List.length new <= 1)%nat
         /\ Forall (fun n => Notification.type n = "status_changed"
                             /\ Notification.ticket_id n = tid) new.
Proof.
  intros now cu tid fs db db'.
  assert (Hsame : db' = db ->
    users db' = users db /\ categories db' = categories db
    /\ comments db' = comments db
    /\ map Ticket.id (tickets db') = map Ticket.id (tickets db)
    /\ (forall tid', tid' <> tid -> get_ticket db' tid' = get_ticket db tid')
    /\ (forall t, get_ticket db tid = Some t ->
          exists t', get_ticket db' tid = Some t'
            /\ Ticket.set_updated_at (Ticket.set_status t' (Ticket.status t))
                 (Ticket.updated_at t) = t)
    /\ exists new,
         notifications db' = (notifications db ++ new)%list
         /\ (List.length new <= 1)%nat
         /\ Forall (fun n => Notification.type n = "status_changed"
                             /\ Notification.ticket_id n = tid) new).
  { intros ->. repeat split; auto.
    - intros t Ht. exists t. split; [exact Ht | now destruct t].
    - exists []. rewrite app_nil_r. repeat split; auto. }
  unfold update_ticket_status, login_required in db'.
  destruct cu as [u |]; [| now apply Hsame].
  destruct (get_ticket db tid) as [ticket |] eqn:Hget; [| now apply Hsame].
  destruct (negb (str_in (User.role u) ["agent"; "admin"])); [now apply Hsame |].
  destruct fs as [status |]; [| now apply Hsame].
  destruct (str_in status _); [| now apply Hsame].
  clear Hsame.
  set (new := Ticket.set_updated_at (Ticket.set_status ticket status) now) in *.
  pose proof (get_ticket_id _ _ _ Hget) as Hid.
  pose proof (commit_ticket_frame now ticket new db) as (Hu & Hc & Hm & Hn).
  pose proof (commit_ticket_ids now ticket new db eq_refl) as Hids.
  pose proof (commit_ticket_get now ticket new db tid Hget eq_refl) as Hrow.
  assert (Hother : forall tid', tid' <> tid ->
            get_ticket (commit_ticket now ticket new db) tid' = get_ticket db tid').
  { intros tid' Hne. apply commit_ticket_other; [reflexivity | congruence]. }
  assert (Hcols : Ticket.set_updated_at
                    (Ticket.set_status (committed_row now ticket new)
                       (Ticket.status ticket)) (Ticket.updated_at ticket) = ticket).
  { unfold committed_row. destruct (_ && _)%bool; now destruct ticket. }
  unfold call, when in db'.
  destruct (negb (String.eqb (Ticket.status ticket) status)).
  - unfold notify_status_changed, create_notification in db'. simpl in db'.
    subst db'. simpl. rewrite Hn.
    repeat split; auto.
    + intros t Ht. injection Ht as <-. eexists. split; [exact Hrow | exact Hcols].
    + eexists. split; [reflexivity |]. split; [simpl; lia |].
      constructor; [| constructor]. simpl. auto.
  - unfold ret in db'. simpl in db'. subst db'.
    repeat split; auto.
    + intros t Ht. injection Ht as <-. eexists. split; [exact Hrow | exact Hcols].
    + exists []. rewrite app_nil_r. repeat split; auto.
Qed.

Lemma vote_changes_columns t n :
  Ticket.same_columns t (Ticket.set_upvotes t (Ticket.upvotes t + n)) = true
  \/ Ticket.same_columns t (Ticket.set_downvotes t (Ticket.downvotes t + n)) = true ->
  n = 0.
Proof.
  intros [H | H]; apply same_columns_eq in H; try reflexivity.
  - apply (f_equal Ticket.upvotes) in H. simpl in H. lia.
  - apply (f_equal Ticket.downvotes) in H. simpl in H. lia.
Qed.

(** X3. A vote for or against an existing ticket whose counter, one
    higher, is still an integer the column holds: the request answers
    with the new counts, adds one to the counter voted and leaves the
    other, and, the row being written, the column's onupdate sets the
    updated timestamp to the time of the call; no other column of the
    ticket changes. When the counter one higher does not fit, the commit
    raises: the request answers 500 and nothing is written. *)
Theorem vote_counts_and_stamps :
  forall (now : Z) (u : User.t) (tid : Z) (db : DB) (t : Ticket.t),
    get_ticket db tid = Some t ->
    (fits_sqlite (Ticket.upvotes t + 1) = true ->
     exists db',
       vote_ticket now (Some u) tid (Some "upvote") db
       = (mkReply (JsonVotes (Ticket.upvotes t + 1) (Ticket.downvotes t)) [], db')
       /\ get_ticket db' tid
          = Some (Ticket.set_updated_at
                    (Ticket.set_upvotes t (Ticket.upvotes t + 1)) now))
    /\ (fits_sqlite (Ticket.upvotes t + 1) = false ->
        vote_ticket now (Some u) tid (Some "upvote") db
        = (mkReply (InternalError500 OverflowError) [], db))
    /\ (fits_sqlite (Ticket.downvotes t + 1) = true ->
        exists db',
          vote_ticket now (Some u) tid (Some "downvote") db
          = (mkReply (JsonVotes (Ticket.upvotes t) (Ticket.downvotes t + 1)) [], db')
          /\ get_ticket db' tid
             = Some (Ticket.set_updated_at
                       (Ticket.set_downvotes t (Ticket.downvotes t + 1)) now))
    /\ (fits_sqlite (Ticket.downvotes t + 1) = false ->
        vote_ticket now (Some u) tid (Some "downvote") db
        = (mkReply (InternalError500 OverflowError) [], db)).
Proof.
  intros now u tid db t Hget.
  unfold vote_ticket, login_required. rewrite Hget. simpl String.eqb. cbv iota.
  rewrite changed_counters_upvote, changed_counters_downvote. cbn [forallb].
  repeat split; intros Hfit; rewrite Hfit; cbn [andb]; try reflexivity;
    (eexists; split; [reflexivity |]).
  - rewrite (commit_ticket_get now t
               (Ticket.set_upvotes t (Ticket.upvotes t + 1)) db tid Hget eq_refl).
    unfold committed_row. simpl Ticket.updated_at. rewrite Z.eqb_refl.
    destruct (Ticket.same_columns _ _) eqn:E; [| reflexivity].
    pose proof (vote_changes_columns t 1 (or_introl E)). lia.
  - rewrite (commit_ticket_get now t
               (Ticket.set_downvotes t (Ticket.downvotes t + 1)) db tid Hget eq_refl).
    unfold committed_row. simpl Ticket.updated_at. rewrite Z.eqb_refl.
    destruct (Ticket.same_columns _ _) eqn:E; [| reflexivity].
    pose proof (vote_changes_columns t 1 (or_intror E)). lia.
Qed.

Lemma vote_counts_and_stamps_witness :
  (exists db',
     vote_ticket 60 (Some carol) 2 (Some "upvote") sample_db
     = (mkReply (JsonVotes 1 0) [], db')
     /\ option_map Ticket.updated_at (get_ticket db' 2) = Some 60)
  /\ vote_ticket 60 (Some carol) 1 (Some "upvote") full_db
     = (mkReply (InternalError500 OverflowError) [], full_db).
Proof.
  split.
  - destruct (vote_counts_and_stamps 60 carol 2 sample_db ticket2 eq_refl)
      as (Hup & _).
    destruct (Hup eq_refl) as (db' & Hrun & Hrow).
    exists db'. split; [exact Hrun |]. now rewrite Hrow.
  - destruct (vote_counts_and_stamps 60 carol 1 full_db full_ticket eq_refl)
      as (_ & Hover & _).
    exact (Hover eq_refl).
Defined.

(** X4. Whatever the request, the vote route writes nothing but the
    ticket voted on: users, categories, comments and notifications stay,
    the list of ticket ids stays, every other ticket stays; of the ticket
    itself no counter goes down, the two counters together grow by at most
    one, and apart from the counters and the updated timestamp every
    column is as before. *)
Theorem vote_route_writes_little :
  forall (now : Z) (current_user : option User.t) (tid : Z)
         (vote_type : option string) (db : DB),
    let db' := snd (vote_ticket now current_user tid vote_type db) in
    users db' = users db /\ categories db' = categories db
    /\ comments db' = comments db /\ notifications db' = notifications db
    /\ map Ticket.id (tickets db') = map Ticket.id (tickets db)
    /\ (forall tid', tid' <> tid -> get_ticket db' tid' = get_ticket db tid')
    /\ (forall t, get_ticket db tid = Some t ->
          exists t', get_ticket db' tid = Some t'
            /\ Ticket.upvotes t <= Ticket.upvotes t'
            /\ Ticket.downvotes t <= Ticket.downvotes t'
            /\ Ticket.upvotes t' + Ticket.downvotes t'
               <= Ticket.upvotes t + Ticket.downvotes t + 1
            /\ Ticket.set_updated_at
                 (Ticket.set_upvotes
                    (Ticket.set_downvotes t' (Ticket.downvotes t))
                    (Ticket.upvotes t))
                 (Ticket.updated_at t) = t).
Proof.
  intros now cu tid vt db db'.
  unfold vote_ticket, login_required in db'.
  destruct cu as [u |];
    [| subst db'; simpl; repeat split; auto;
       intros t Ht; exists t; repeat split; (exact Ht || lia || now destruct t)].
  destruct (get_ticket db tid) as [ticket |] eqn:Hget;
    [| subst db'; simpl; repeat split; auto; intros t Ht; discriminate].
  destruct (forallb fits_sqlite _) eqn:Hfit;
    [| subst db'; simpl; repeat split; auto;
       intros t Ht; injection Ht as <-; exists ticket;
       repeat split; (exact Hget || lia || now destruct ticket)].
  simpl in db'.
  set (new := match vt with
              | Some v =>
                  if String.eqb v "upvote"
                  then Ticket.set_upvotes ticket (Ticket.upvotes ticket + 1)
                  else if String.eqb v "downvote"
                       then Ticket.set_downvotes ticket (Ticket.downvotes ticket + 1)
                       else ticket
              | None => ticket
              end) in *.
  assert (Hid : Ticket.id new = Ticket.id ticket).
  { unfold new. destruct vt as [v |]; [| reflexivity].
    destruct (String.eqb v "upvote"); [reflexivity |].
    destruct (String.eqb v "downvote"); reflexivity. }
  pose proof (get_ticket_id _ _ _ Hget) as Htid.
  pose proof (commit_ticket_frame now ticket new db) as (Hu & Hc & Hm & Hn).
  subst db'. repeat split; auto.
  - now apply commit_ticket_ids.
  - intros tid' Hne. apply commit_ticket_other; [exact Hid | congruence].
  - intros t Ht. injection Ht as <-.
    exists (committed_row now ticket new).
    split; [now apply commit_ticket_get |].
    destruct (committed_row_votes now ticket new) as [-> ->].
    pose proof (committed_row_columns now ticket new) as Hcols.
    assert (Hnew : (Ticket.upvotes ticket <= Ticket.upvotes new
                    /\ Ticket.downvotes ticket <= Ticket.downvotes new
                    /\ Ticket.upvotes new + Ticket.downvotes new
                       <= Ticket.upvotes ticket + Ticket.downvotes ticket + 1)
                   /\ Ticket.set_upvotes
                        (Ticket.set_downvotes new (Ticket.downvotes ticket))
                        (Ticket.upvotes ticket) = ticket).
    { unfold new. destruct vt as [v |];
        [destruct (String.eqb v "upvote");
           [| destruct (String.eqb v "downvote")] |];
        simpl; (split; [lia | now destruct ticket]). }
    destruct Hnew as [(H1 & H2 & H3) H4].
    repeat split; try assumption.
    change (Ticket.set_upvotes
              (Ticket.set_downvotes
                 (Ticket.set_updated_at (committed_row now ticket new)
                    (Ticket.updated_at ticket))
                 (Ticket.downvotes ticket))
              (Ticket.upvotes ticket) = ticket).
    rewrite Hcols.
    change (Ticket.set_updated_at
              (Ticket.set_upvotes
                 (Ticket.set_downvotes new (Ticket.downvotes ticket))
                 (Ticket.upvotes ticket))
              (Ticket.updated_at ticket) = ticket).
    rewrite H4. now destruct ticket.
Qed.

(** ** Notifications: keys, marks and counts *)

Lemma next_id_above ids i : In i ids -> i < next_id ids.
Proof.
  unfold next_id. induction ids as [| j r IH]; simpl; [tauto |].
  intros [-> | H]; [lia | specialize (IH H); lia].
Qed.

Lemma keeps_keys_create now uid tid typ msg cid :
  keeps_keys (create_notification now uid tid typ msg cid).
Proof.
  intros db ND. unfold create_notification, notification_ids in *. simpl.
  rewrite map_app. simpl.
  apply NoDup_app; [exact ND | repeat constructor; simpl; tauto |].
  intros i Hi [<- | []]. apply next_id_above in Hi. lia.
Qed.

Lemma keeps_keys_bind {A B} (m : M A) (k : A -> M B) :
  keeps_keys m -> (forall a, keeps_keys (k a)) -> keeps_keys (bind m k).
Proof.
  intros Hm Hk db ND. unfold bind. specialize (Hm db ND).
  destruct (m db) as [[a | e] db1]; simpl in *; [now apply Hk | exact Hm].
Qed.

Lemma keeps_keys_pure {A} (m : M A) :
  (forall db, snd (m db) = db) -> keeps_keys m.
Proof. intros H db ND. now rewrite H. Qed.

Lemma keeps_keys_author uid : keeps_keys (author_username uid).
Proof.
  apply keeps_keys_pure. intros db. unfold author_username.
  now destruct (get_user db uid).
Qed.

Lemma keeps_keys_when c (body : M unit) :
  keeps_keys body -> keeps_keys (when c body).
Proof.
  intros H. destruct c; simpl; [exact H | now apply keeps_keys_pure].
Qed.

Lemma keeps_keys_for_each {A} (xs : list A) body :
  (forall x, keeps_keys (body x)) -> keeps_keys (for_each xs body).
Proof.
  intros H. induction xs as [| x rest IH]; simpl.
  - now apply keeps_keys_pure.
  - apply keeps_keys_bind; [apply H | intros _; exact IH].
Qed.

Lemma keeps_keys_notify now uid tid typ (msg : string -> string) cid author_id :
  keeps_keys (bind (author_username author_id) (fun a =>
                create_notification now uid tid typ (msg a) cid)).
Proof.
  apply keeps_keys_bind; [apply keeps_keys_author | intros a].
  apply keeps_keys_create.
Qed.

(** X5. The notification helpers allot fresh keys: when the ids of the
    notification table are distinct, they still are after
    [notify_ticket_created], [notify_ticket_assigned],
    [notify_status_changed] and [notify_comment_added], whether the helper
    returns or raises. *)
Theorem notification_ids_stay_unique :
  forall (now : Z) (db : DB),
    NoDup (notification_ids db) ->
    (forall ticket,
       NoDup (notification_ids (snd (notify_ticket_created now ticket db))))
    /\ (forall ticket assigned_user,
       NoDup (notification_ids
                (snd (notify_ticket_assigned now ticket assigned_user db))))
    /\ (forall ticket old_status new_status,
       NoDup (notification_ids
                (snd (notify_status_changed now ticket old_status new_status db))))
    /\ (forall comment,
       NoDup (notification_ids (snd (notify_comment_added now comment db)))).
Proof.
  intros now db ND. repeat split.
  - intros ticket. revert db ND. change (keeps_keys (notify_ticket_created now ticket)).
    unfold notify_ticket_created.
    apply keeps_keys_bind; [now apply keeps_keys_pure | intros db0].
    apply keeps_keys_bind.
    { apply keeps_keys_for_each. intros admin.
      apply (keeps_keys_notify now (User.id admin) (Ticket.id ticket)
               "ticket_created" (ticket_created_message ticket) None). }
    intros _. apply keeps_keys_bind; [now apply keeps_keys_pure | intros db1].
    apply keeps_keys_for_each. intros agent.
    apply (keeps_keys_notify now (User.id agent) (Ticket.id ticket)
             "ticket_created" (ticket_created_message ticket) None).
  - intros ticket [u |]; simpl; [now apply keeps_keys_create | exact ND].
  - intros ticket o n. now apply keeps_keys_create.
  - intros comment. revert db ND. change (keeps_keys (notify_comment_added now comment)).
    unfold notify_comment_added.
    apply keeps_keys_bind.
    { apply keeps_keys_pure. intros db. unfold comment_ticket.
      now destruct (get_ticket db _). }
    intros ticket. apply keeps_keys_bind.
    { apply keeps_keys_when.
      apply (keeps_keys_notify now (Ticket.user_id ticket) (Ticket.id ticket)
               "comment_added"
               (fun a => "New comment on your ticket " ++ dq ++ Ticket.subject ticket
                         ++ dq ++ " by " ++ a)%string). }
    intros _. apply keeps_keys_bind.
    { destruct (Ticket.assigned_to ticket) as [assigned |];
        [| now apply keeps_keys_pure].
      apply keeps_keys_when.
      apply (keeps_keys_notify now assigned (Ticket.id ticket) "comment_added"
               (fun a => "New comment on assigned ticket " ++ dq
                         ++ Ticket.subject ticket ++ dq ++ " by " ++ a)%string). }
    intros _. apply keeps_keys_when.
    apply keeps_keys_bind; [now apply keeps_keys_pure | intros db0].
    apply keeps_keys_for_each. intros admin. apply keeps_keys_when.
    apply (keeps_keys_notify now (User.id admin) (Ticket.id ticket) "comment_added"
             (fun a => "New comment on " ++ Ticket.priority ticket
                       ++ " priority ticket " ++ dq ++ Ticket.subject ticket ++ dq
                       ++ " by " ++ a)%string).
Qed.

Lemma notification_ids_stay_unique_witness :
  NoDup (notification_ids (snd (notify_comment_added 30 comment1 sample_db)))
  /\ notification_ids (snd (notify_comment_added 30 comment1 sample_db)) = [1; 2].
Proof.
  split; [| reflexivity].
  apply (notification_ids_stay_unique 30 sample_db); constructor.
Defined.

Lemma unread_count_app uid l1 l2 :
  unread_count uid (l1 ++ l2) = unread_count uid l1 + unread_count uid l2.
Proof.
  unfold unread_count. rewrite filter_app, length_app. lia.
Qed.

Lemma unread_count_one uid n :
  unread_count uid [n]
  = if (Notification.user_id n =? uid) && negb (Notification.is_read n)
    then 1 else 0.
Proof. unfold unread_count. simpl. now destruct (_ && _)%bool. Qed.

(** X6. A notification just created can be fetched by the id it was
    given, unread; it raises the unread count of its recipient by one and
    leaves the count of every other user, and every notification that
    was there can still be fetched as before. *)
Theorem created_notification_is_unread :
  forall (now uid tid : Z) (typ msg : string) (cid : option Z) (db : DB),
    let db' := snd (create_notification now uid tid typ msg cid db) in
    let nid := next_id (notification_ids db) in
    get_notification db' nid
    = Some (Notification.mk nid uid tid cid typ msg false now)
    /\ unread_count uid (notifications db')
       = unread_count uid (notifications db) + 1
    /\ (forall v, v <> uid ->
          unread_count v (notifications db') = unread_count v (notifications db))
    /\ (forall i, In i (notification_ids db) ->
          get_notification db' i = get_notification db i).
Proof.
  intros now uid tid typ msg cid db db' nid.
  unfold create_notification in db'. simpl in db'. subst db'.
  unfold get_notification. simpl notifications.
  fold (notification_ids db). fold nid.
  repeat split.
  - assert (H : forall n, In n (notifications db) -> Notification.id n <> nid).
    { intros n Hn.
      pose proof (next_id_above (notification_ids db) (Notification.id n)
                    (in_map _ _ _ Hn)) as Hlt. fold nid in Hlt. lia. }
    revert H. generalize (notifications db) as rows.
    induction rows as [| x r IH]; simpl; intros H.
    + now rewrite (Z.eqb_refl nid).
    + replace (Notification.id x =? nid) with false
        by (symmetry; apply Z.eqb_neq; apply H; now left).
      apply IH. intros n Hn. apply H. now right.
  - rewrite unread_count_app, unread_count_one.
    cbn [Notification.user_id Notification.is_read].
    now rewrite Z.eqb_refl.
  - intros v Hv. rewrite unread_count_app, unread_count_one.
    cbn [Notification.user_id Notification.is_read].
    replace (uid =? v) with false by (symmetry; apply Z.eqb_neq; congruence).
    cbn [andb]. lia.
  - intros i Hi. unfold notification_ids in Hi. revert Hi.
    generalize (notifications db) as rows.
    induction rows as [| x r IH]; simpl; [tauto |].
    intros [<- | Hi]; [now rewrite Z.eqb_refl |].
    destruct (Notification.id x =? i); [reflexivity | now apply IH].
Qed.

Lemma mark_rows_absent (n' : Notification.t) (nid : Z) (rows : list Notification.t) :
  ~ In nid (map Notification.id rows) ->
  map (fun r => if Notification.id r =? nid then n' else r) rows = rows.
Proof.
  induction rows as [| x r IH]; simpl; [reflexivity |].
  intros H. replace (Notification.id x =? nid) with false
    by (symmetry; apply Z.eqb_neq; tauto).
  rewrite IH; tauto.
Qed.

Lemma mark_rows_count (uid nid : Z) (n : Notification.t) :
  Notification.user_id n = uid -> Notification.is_read n = false ->
  forall rows,
    NoDup (map Notification.id rows) ->
    find (fun r => Notification.id r =? nid) rows = Some n ->
    unread_count uid
      (map (fun r => if Notification.id r =? nid
                     then Notification.set_is_read n true else r) rows)
    = unread_count uid rows - 1.
Proof.
  intros Hu Hr. induction rows as [| x r IH]; simpl; [discriminate |].
  intros ND Hf. inversion ND as [| ? ? Hx ND']; subst.
  change (x :: r) with ([x] ++ r)%list.
  destruct (Notification.id x =? nid) eqn:E.
  - injection Hf as ->. apply Z.eqb_eq in E. subst nid.
    rewrite (mark_rows_absent _ _ r Hx).
    change (Notification.set_is_read n true :: r)
      with ([Notification.set_is_read n true] ++ r)%list.
    rewrite !unread_count_app, !unread_count_one.
    cbn [Notification.user_id Notification.is_read Notification.set_is_read].
    rewrite Z.eqb_refl, Hr. cbn [andb negb]. lia.
  - change ((x :: map (fun r0 => if Notification.id r0 =? nid
                                 then Notification.set_is_read n true else r0) r))
      with ([x] ++ map (fun r0 => if Notification.id r0 =? nid
                                  then Notification.set_is_read n true else r0) r)%list.
    rewrite !unread_count_app, (IH ND' Hf). lia.
Qed.

Lemma mark_rows_get (n' : Notification.t) (nid : Z) :
  Notification.id n' = nid ->
  forall rows n,
    find (fun r => Notification.id r =? nid) rows = Some n ->
    find (fun r => Notification.id r =? nid)
      (map (fun r => if Notification.id r =? nid then n' else r) rows) = Some n'.
Proof.
  intros Hid. induction rows as [| x r IH]; simpl; intros n H; [discriminate |].
  destruct (Notification.id x =? nid) eqn:E; simpl.
  - now rewrite Hid, Z.eqb_refl.
  - rewrite E. eapply IH, H.
Qed.

Lemma mark_rows_other (n' : Notification.t) (nid i : Z) :
  Notification.id n' = nid -> i <> nid ->
  forall rows,
    find (fun r => Notification.id r =? i)
      (map (fun r => if Notification.id r =? nid then n' else r) rows)
    = find (fun r => Notification.id r =? i) rows.
Proof.
  intros Hid Hne. induction rows as [| x r IH]; simpl; [reflexivity |].
  destruct (Notification.id x =? nid) eqn:E; simpl.
  - apply Z.eqb_eq in E.
    replace (Notification.id n' =? i) with false
      by (symmetry; apply Z.eqb_neq; congruence).
    replace (Notification.id x =? i) with false
      by (symmetry; apply Z.eqb_neq; congruence).
    exact IH.
  - now rewrite IH.
Qed.

Lemma get_notification_id db nid n :
  get_notification db nid = Some n -> Notification.id n = nid.
Proof.
  unfold get_notification. intros H. apply find_some in H as [_ H].
  now apply Z.eqb_eq.
Qed.

Lemma mark_read_own :
  forall (u : User.t) (nid : Z) (db : DB) (n : Notification.t),
    get_notification db nid = Some n ->
    NoDup (notification_ids db) ->
    Notification.user_id n = User.id u ->
    exists db',
      mark_notification_read (Some u) nid db = (mkAnswer JsonSuccess [], db')
      /\ get_notification db' nid = Some (Notification.set_is_read n true)
      /\ (forall i, i <> nid -> get_notification db' i = get_notification db i)
      /\ unread_count (User.id u) (notifications db')
         = unread_count (User.id u) (notifications db)
           - (if Notification.is_read n then 0 else 1)
      /\ users db' = users db /\ tickets db' = tickets db
      /\ comments db' = comments db /\ categories db' = categories db.
Proof.
  intros u nid db n Hget ND Hown.
  pose proof (get_notification_id _ _ _ Hget) as Hid.
  unfold mark_notification_read, login_required_h. rewrite Hget, Hown, Z.eqb_refl.
  simpl negb. cbv iota.
  destruct (Notification.is_read n) eqn:Hr.
  - exists db. repeat split; try reflexivity; [| lia].
    rewrite Hget. f_equal. destruct n; simpl in *. now subst.
  - eexists. split; [reflexivity |]. rewrite Hid.
    unfold get_notification in *. simpl notifications.
    repeat split.
    + eapply mark_rows_get; [exact Hid | exact Hget].
    + intros i Hi. now apply mark_rows_other.
    + rewrite <- Hown. now apply mark_rows_count.
Qed.

Lemma mark_read_foreign :
  forall (u : User.t) (nid : Z) (db : DB) (n : Notification.t),
    get_notification db nid = Some n ->
    Notification.user_id n <> User.id u ->
    mark_notification_read (Some u) nid db
    = (mkAnswer (Core (Redirect EpNotifications)) [("Access denied", "error")], db).
Proof.
  intros u nid db n Hget Hne.
  unfold mark_notification_read, login_required_h. rewrite Hget.
  replace (Notification.user_id n =? User.id u) with false
    by (symmetry; now apply Z.eqb_neq).
  reflexivity.
Qed.

(** X7. Only its recipient can mark a notification read, ids being
    distinct. For the recipient the request answers success, the
    notification is read afterwards and is otherwise the same, every other
    notification is as before, and the recipient's unread count goes down
    by one if the notification was unread and stays if it was read
    already. For anybody else the request is answered with the
    access-denied message and writes nothing. *)
Theorem mark_read_only_by_recipient :
  forall (u : User.t) (nid : Z) (db : DB) (n : Notification.t),
    get_notification db nid = Some n ->
    NoDup (notification_ids db) ->
    (Notification.user_id n = User.id u ->
     exists db',
       mark_notification_read (Some u) nid db = (mkAnswer JsonSuccess [], db')
       /\ get_notification db' nid = Some (Notification.set_is_read n true)
       /\ (forall i, i <> nid -> get_notification db' i = get_notification db i)
       /\ unread_count (User.id u) (notifications db')
          = unread_count (User.id u) (notifications db)
            - (if Notification.is_read n then 0 else 1)
       /\ users db' = users db /\ tickets db' = tickets db
       /\ comments db' = comments db /\ categories db' = categories db)
    /\ (Notification.user_id n <> User.id u ->
        mark_notification_read (Some u) nid db
        = (mkAnswer (Core (Redirect EpNotifications)) [("Access denied", "error")],
           db)).
Proof.
  intros u nid db n Hget ND. split.
  - now apply mark_read_own.
  - now apply (mark_read_foreign u nid db n).
Qed.

Lemma mark_read_only_by_recipient_witness :
  (exists db',
     mark_notification_read (Some alice) 2 notified_db = (mkAnswer JsonSuccess [], db')
     /\ unread_count 1 (notifications notified_db) = 2
     /\ unread_count 1 (notifications db') = 1)
  /\ mark_notification_read (Some bob) 2 notified_db
     = (mkAnswer (Core (Redirect EpNotifications)) [("Access denied", "error")],
        notified_db).
Proof.
  assert (Hget : get_notification notified_db 2
                 = Some (Notification.mk 2 1 1 (Some 1) "comment_added"
                           ("New comment on urgent priority ticket " ++ dq
                            ++ "Printer" ++ dq ++ " by bob") false 30))
    by reflexivity.
  assert (ND : NoDup (notification_ids notified_db)).
  { change (NoDup [1; 2]). repeat (constructor; [simpl; intuition discriminate |]).
    constructor. }
  split.
  - destruct (mark_read_only_by_recipient alice 2 notified_db _ Hget ND)
      as [Hown _].
    destruct (Hown eq_refl) as (db' & Hrun & _ & _ & Hcount & _).
    exists db'. split; [exact Hrun |]. split; [reflexivity |].
    change (unread_count (User.id alice) (notifications db') = 1).
    rewrite Hcount. reflexivity.
  - destruct (mark_read_only_by_recipient bob 2 notified_db _ Hget ND)
      as [_ Hforeign].
    apply Hforeign. discriminate.
Defined.

Lemma update_mark_read_others uid v rows :
  v <> uid ->
  filter (fun n => Notification.user_id n =? v) (fst (update_mark_read uid rows))
  = filter (fun n => Notification.user_id n =? v) rows.
Proof.
  intros Hne. unfold update_mark_read. simpl fst.
  induction rows as [| x r IH]; simpl; [reflexivity |].
  destruct (Notification.user_id x =? uid) eqn:E; simpl.
  - apply Z.eqb_eq in E.
    assert (Hv : (Notification.user_id x =? v) = false)
      by (apply Z.eqb_neq; congruence).
    destruct (Notification.is_read x); simpl; now rewrite Hv, IH.
  - now rewrite IH.
Qed.

Lemma update_mark_read_unread_others uid v rows :
  v <> uid ->
  unread_count v (fst (update_mark_read uid rows)) = unread_count v rows.
Proof.
  intros Hne. unfold update_mark_read. simpl fst.
  induction rows as [| x r IH]; [reflexivity |].
  change (x :: r) with ([x] ++ r)%list.
  rewrite map_app, !unread_count_app, IH. f_equal.
  cbn [map]. rewrite !unread_count_one.
  destruct (Notification.user_id x =? uid) eqn:Ex; cbn [andb]; [| reflexivity].
  apply Z.eqb_eq in Ex.
  assert (Hx : (Notification.user_id x =? v) = false)
    by (apply Z.eqb_neq; congruence).
  destruct (negb (Notification.is_read x));
    cbn [Notification.user_id Notification.set_is_read]; now rewrite Hx.
Qed.

(** X8. After a user marked all notifications read, the unread count
    served to that user is 0; the notifications of every other user, and
    with them their unread counts, are what they were, and no
    notification was added or removed. *)
Theorem mark_all_read_clears_count :
  forall (u : User.t) (db : DB),
    let db1 := snd (mark_all_notifications_read (Some u) db) in
    notification_count (Some u) db1 = (mkAnswer (JsonCount 0) [], db1)
    /\ (forall v, v <> User.id u ->
          filter (fun n => Notification.user_id n =? v) (notifications db1)
          = filter (fun n => Notification.user_id n =? v) (notifications db))
    /\ (forall v, v <> User.id u ->
          unread_count v (notifications db1) = unread_count v (notifications db))
    /\ notification_ids db1 = notification_ids db.
Proof.
  intros u db db1.
  assert (E : notifications db1 = fst (update_mark_read (User.id u) (notifications db))).
  { unfold db1, mark_all_notifications_read, login_required.
    now destruct (update_mark_read _ _). }
  destruct (update_mark_read_spec (User.id u) (notifications db)) as [_ H2].
  repeat split.
  - unfold notification_count, login_required_h. rewrite E.
    assert (Hc : unread_count (User.id u)
                   (fst (update_mark_read (User.id u) (notifications db))) = 0)
      by exact (f_equal snd H2).
    now rewrite Hc.
  - intros v Hv. rewrite E. now apply update_mark_read_others.
  - intros v Hv. rewrite E. now apply update_mark_read_unread_others.
  - unfold notification_ids. rewrite E. unfold update_mark_read. simpl fst.
    rewrite map_map. apply map_ext. intros n. now destruct (_ && _)%bool.
Qed.

Lemma in_slice {A} (n k : nat) (l : list A) (x : A) :
  In x (firstn n (skipn k l)) -> In x l.
Proof.
  intros H. rewrite <- (firstn_skipn k l). apply in_or_app. right.
  rewrite <- (firstn_skipn n (skipn k l)). apply in_or_app. now left.
Qed.

(** X9. The notification page of a logged-in user writes nothing, whatever
    the page number, a page number below 1 being read as 1.  As long as
    the offset of the page, 20 rows for each page before it, is an integer
    that SQLite holds (at most 2^63 - 1), the page is rendered: it shows
    at most 20 notifications, all of them addressed to that user.  Beyond
    that the query raises OverflowError and the request answers 500. *)
Theorem notification_page_own_only :
  forall (u : User.t) (page : Z) (db : DB),
    snd (notifications_view (Some u) page db) = db
    /\ ((Z.max 1 page - 1) * 20 <= sqlite_max ->
        exists p,
          notifications_view (Some u) page db
          = (mkAnswer (RenderNotifications p) [], db)
          /\ Forall (fun n => In n (notifications db)
                              /\ Notification.user_id n = User.id u) (n_items p)
          /\ (List.length (n_items p) <= 20)%nat
          /\ n_page p = Z.max 1 page)
    /\ (sqlite_max < (Z.max 1 page - 1) * 20 ->
        notifications_view (Some u) page db
        = (mkAnswer (Core (InternalError500 OverflowError)) [], db)).
Proof.
  intros u page db. unfold notifications_view, login_required_h, paginate_lenient.
  assert (Hpage : (if page <? 1 then 1 else page) = Z.max 1 page).
  { destruct (page <? 1) eqn:E; [apply Z.ltb_lt in E | apply Z.ltb_ge in E]; lia. }
  cbv zeta. rewrite Hpage. pose proof sqlite_range as Hrange.
  destruct (fits_sqlite ((Z.max 1 page - 1) * 20)) eqn:Hfit; cbn [negb].
  - apply fits_sqlite_iff in Hfit. split; [reflexivity |]. split; [| lia].
    intros _. eexists. split; [reflexivity |]. cbn [n_items n_page].
    repeat split.
    + apply Forall_forall. intros n Hn. apply in_slice in Hn.
      apply filter_In in Hn as [Hin Hown]. now apply Z.eqb_eq in Hown.
    + apply firstn_le_length.
  - split; [reflexivity |]. split; [| reflexivity].
    intros Hle. assert (fits_sqlite ((Z.max 1 page - 1) * 20) = true) as Habs
      by (apply fits_sqlite_iff; lia).
    congruence.
Qed.

Lemma notification_page_own_only_witness :
  (exists p,
      notifications_view (Some bob) 1 sample_db
      = (mkAnswer (RenderNotifications p) [], sample_db))
  /\ notifications_view (Some bob) (2 ^ 62) sample_db
     = (mkAnswer (Core (InternalError500 OverflowError)) [], sample_db).
Proof.
  destruct (notification_page_own_only bob 1 sample_db) as (_ & Hok & _).
  destruct (notification_page_own_only bob (2 ^ 62) sample_db) as (_ & _ & Hover).
  split.
  - destruct Hok as (p & Hp & _); [apply Z.leb_le; reflexivity | now exists p].
  - apply Hover. apply Z.ltb_lt. reflexivity.
Defined.

(** ** The ticket listing: what is shown to whom *)

Lemma in_optional_filter {A} (c : bool) (f : A -> bool) (l : list A) (x : A) :
  In x (if c then filter f l else l) -> In x l /\ (c = true -> f x = true).
Proof.
  destruct c; [| intros H; split; [exact H | discriminate]].
  intros H. apply filter_In in H. tauto.
Qed.

Lemma dashboard_query_sound contains inteq u args db t :
  In t (dashboard_query contains inteq u args db) ->
  In t (tickets db)
  /\ (User.role u = "user" -> Ticket.user_id t = User.id u)
  /\ (arg_status args <> "" -> Ticket.status t = arg_status args).
Proof.
  unfold dashboard_query. intros H.
  apply in_optional_filter in H as [H _].
  apply in_optional_filter in H as [H _].
  apply in_optional_filter in H as [H Hs].
  apply in_optional_filter in H as [H Hu].
  split; [exact H |]. split.
  - intros Hr. apply Z.eqb_eq, Hu. rewrite Hr. reflexivity.
  - intros Hne. apply String.eqb_eq, Hs.
    destruct (arg_status args); [congruence | reflexivity].
Qed.

Lemma dashboard_sorted_perm contains inteq engine u args db :
  order_by_contract engine ->
  Permutation (dashboard_query contains inteq u args db)
              (dashboard_sorted contains inteq engine u args db).
Proof.
  intros Hc. unfold dashboard_sorted.
  destruct (String.eqb (arg_sort args) "recent"); [apply Hc |].
  destruct (String.eqb (arg_sort args) "priority"); apply Hc.
Qed.

Lemma dashboard_page contains inteq engine u args db p cats :
  fst (dashboard contains inteq engine (Some u) args db)
  = mkReply (RenderDashboard p cats) [] ->
  cats = categories db
  /\ items p = firstn 10 (skipn (Z.to_nat ((arg_page args - 1) * 10))
                            (dashboard_sorted contains inteq engine u args db)).
Proof.
  unfold dashboard, login_required. rewrite paginate_spec.
  destruct (arg_page args <? 1); simpl; [discriminate |].
  destruct (fits_sqlite _); simpl; [| discriminate].
  destruct (_ && _)%bool; simpl; [discriminate |].
  intros H. injection H as <- <-. split; reflexivity.
Qed.

(** X10. Whatever the engine does within what ORDER BY allows, a page of
    the ticket listing shows at most 10 tickets, each of them a ticket of
    the database; to an actor of role user it shows only tickets that
    actor created, and under a status filter only tickets of that status.
    The listing writes nothing. *)
Theorem listing_shows_only_visible :
  forall (sql_contains : string -> string -> bool)
         (sql_int_eq_text : Z -> string -> bool)
         (order_by_desc : (Ticket.t -> option Z) -> list Ticket.t -> list Ticket.t),
    order_by_contract order_by_desc ->
    forall (u : User.t) (args : DashboardArgs) (db : DB)
           (p : Pagination) (cats : list Category.t),
      fst (dashboard sql_contains sql_int_eq_text order_by_desc (Some u) args db)
      = mkReply (RenderDashboard p cats) [] ->
      snd (dashboard sql_contains sql_int_eq_text order_by_desc (Some u) args db) = db
      /\ (List.length (items p) <= 10)%nat
      /\ Forall (fun t =>
                   In t (tickets db)
                   /\ (User.role u = "user" -> Ticket.user_id t = User.id u)
                   /\ (arg_status args <> "" -> Ticket.status t = arg_status args))
                (items p).
Proof.
  intros contains inteq engine Hc u args db p cats Hrun.
  destruct (dashboard_page _ _ _ _ _ _ _ _ Hrun) as [_ Hitems].
  split; [| split].
  - unfold dashboard, login_required. now destruct (paginate _ _ _) as [[p' |] | e].
  - rewrite Hitems. apply firstn_le_length.
  - apply Forall_forall. intros t Ht. rewrite Hitems in Ht. apply in_slice in Ht.
    eapply dashboard_query_sound.
    eapply Permutation_in; [apply Permutation_sym, dashboard_sorted_perm, Hc |].
    exact Ht.
Qed.

Lemma listing_shows_only_visible_witness :
  exists p,
    fst (dashboard like_contains int_eq_text scan_order_by_desc (Some carol)
           by_priority sample_db)
    = mkReply (RenderDashboard p (categories sample_db)) []
    /\ items p = [ticket2]
    /\ Forall (fun t => Ticket.user_id t = User.id carol) (items p).
Proof.
  eexists. split; [reflexivity |]. split; [reflexivity |].
  destruct (listing_shows_only_visible like_contains int_eq_text scan_order_by_desc
              scan_order_by_contract carol by_priority sample_db _ _ eq_refl)
    as (_ & _ & H).
  eapply Forall_impl; [| exact H]. intros t (_ & Hown & _). now apply Hown.
Defined.

Lemma sorted_slice {A} (R : A -> A -> Prop) (n k : nat) (l : list A) :
  StronglySorted R l -> StronglySorted R (firstn n (skipn k l)).
Proof.
  intros S.
  assert (Sk : forall k l, StronglySorted R l -> StronglySorted R (skipn k l)).
  { clear. induction k as [| k IH]; intros [| x l] S; simpl; auto.
    inversion S; subst. now apply IH. }
  apply Sk with (k := k) in S. clear Sk. revert S.
  generalize (skipn k l) as m. clear.
  induction n as [| n IH]; intros [| x m] S; simpl; try constructor.
  - inversion S; subst. now apply IH.
  - inversion S as [| ? ? _ F]; subst. rewrite Forall_forall in *.
    intros y Hy. apply F. rewrite <- (firstn_skipn n m). apply in_or_app. now left.
Qed.

(** X11. With any sort other than priority ('recent', the default
    'updated_at', or anything else) the listing is the rows selected, each
    once, most recently updated first, and so is every page of it. *)
Theorem listing_recent_first :
  forall (sql_contains : string -> string -> bool)
         (sql_int_eq_text : Z -> string -> bool)
         (order_by_desc : (Ticket.t -> option Z) -> list Ticket.t -> list Ticket.t),
    order_by_contract order_by_desc ->
    forall (u : User.t) (args : DashboardArgs) (db : DB),
      arg_sort args <> "priority" ->
      let sorted := dashboard_sorted sql_contains sql_int_eq_text order_by_desc
                      u args db in
      Permutation (dashboard_query sql_contains sql_int_eq_text u args db) sorted
      /\ StronglySorted recent_first sorted
      /\ StronglySorted recent_first (page_items (arg_page args) sorted)
      /\ forall p cats,
           fst (dashboard sql_contains sql_int_eq_text order_by_desc (Some u) args db)
           = mkReply (RenderDashboard p cats) [] ->
           items p = page_items (arg_page args) sorted.
Proof.
  intros contains inteq engine Hc u args db Hsort sorted.
  assert (Hs : StronglySorted recent_first sorted).
  { unfold sorted, dashboard_sorted.
    replace (String.eqb (arg_sort args) "priority") with false
      by (symmetry; now apply String.eqb_neq).
    assert (H : StronglySorted
                  (fun a b => null_leb (updated_key b) (updated_key a) = true)
                  (engine updated_key (dashboard_query contains inteq u args db)))
      by apply Hc.
    assert (Himp : forall l,
              StronglySorted
                (fun a b => null_leb (updated_key b) (updated_key a) = true) l ->
              StronglySorted recent_first l).
    { induction l as [| x l IH]; intros S; constructor; inversion S; subst.
      - now apply IH.
      - eapply Forall_impl; [| eassumption]. intros b Hb.
        unfold recent_first. simpl in Hb. now apply Z.leb_le. }
    destruct (String.eqb (arg_sort args) "recent"); now apply Himp. }
  split; [now apply dashboard_sorted_perm |]. split; [exact Hs |]. split.
  - unfold page_items. rewrite paginate_spec.
    destruct (arg_page args <? 1); [constructor |].
    destruct (negb (fits_sqlite _)); [constructor |].
    destruct (_ && _)%bool; [constructor | now apply sorted_slice].
  - intros p cats Hrun. unfold page_items.
    unfold dashboard, login_required in Hrun. fold sorted in Hrun.
    destruct (paginate (arg_page args) 10 sorted) as [[p' |] | e];
      simpl in Hrun; [| discriminate | discriminate].
    now injection Hrun as <- _.
Qed.

Lemma listing_recent_first_witness :
  page_items 1
    (dashboard_sorted like_contains int_eq_text scan_order_by_desc alice
       (mkArgs "" "" "" "recent" 1) sample_db)
  = [ticket2; ticket1]
  /\ StronglySorted recent_first [ticket2; ticket1].
Proof.
  split; [reflexivity |].
  destruct (listing_recent_first like_contains int_eq_text scan_order_by_desc
              scan_order_by_contract alice (mkArgs "" "" "" "recent" 1) sample_db)
    as (_ & _ & H & _); [discriminate | exact H].
Defined.

Lemma firstn_plus {A} (a b : nat) (l : list A) :
  firstn (a + b) l = (firstn a l ++ firstn b (skipn a l))%list.
Proof.
  revert l. induction a as [| a IH]; intros l; [reflexivity |].
  destruct l as [| x l]; simpl; [now rewrite firstn_nil | now rewrite IH].
Qed.

Lemma page_items_slice (k : nat) (rows : list Ticket.t) :
  page_items (Z.of_nat (S k)) rows
  = if fits_sqlite (Z.of_nat k * 10) then firstn 10 (skipn (10 * k) rows) else [].
Proof.
  unfold page_items. rewrite paginate_spec.
  replace (Z.of_nat (S k) - 1) with (Z.of_nat k) by lia.
  replace (Z.to_nat (Z.of_nat k * 10)) with (10 * k)%nat by lia.
  replace (Z.of_nat (S k) <? 1) with false by (symmetry; apply Z.ltb_ge; lia).
  destruct (fits_sqlite _); cbn [negb]; [| reflexivity].
  destruct (negb _); cbn [andb]; [| reflexivity].
  now destruct (firstn 10 (skipn (10 * k) rows)).
Qed.

Lemma offset_overflows (n : Z) :
  0 <= n -> fits_sqlite n = false -> sqlite_max < n.
Proof.
  intros Hn Hfit. pose proof sqlite_range as Hr.
  destruct (Z.le_gt_cases n sqlite_max) as [Hle | Hgt]; [| lia].
  assert (Habs : fits_sqlite n = true) by (apply fits_sqlite_iff; lia).
  congruence.
Qed.

(** X12. The pages of a listing, read in order from page 1, are the
    listing cut into tens, nothing lost, nothing repeated, pages that are
    not served (answered with 404 or 500) adding nothing: pages 1 to n
    together are exactly the first 10 m rows, m being n or, if smaller,
    the number of pages whose offset SQLite holds (2^63 - 1 over 10, plus
    one).  For a listing of at most 2^63 - 1 rows that is its first 10 n
    rows, whatever n. *)
Theorem pages_partition_listing :
  forall (rows : list Ticket.t) (n : nat),
    List.concat (map (fun k => page_items (Z.of_nat k) rows) (seq 1 n))
    = firstn (10 * Z.to_nat (Z.min (Z.of_nat n) (sqlite_max / 10 + 1))) rows
    /\ (Z.of_nat (List.length rows) <= sqlite_max ->
        List.concat (map (fun k => page_items (Z.of_nat k) rows) (seq 1 n))
        = firstn (10 * n) rows).
Proof.
  intros rows n.
  assert (Hmax : sqlite_max = 9223372036854775807) by reflexivity.
  change (sqlite_max / 10 + 1) with 922337203685477581.
  assert (Hgen : forall n,
            List.concat (map (fun k => page_items (Z.of_nat k) rows) (seq 1 n))
            = firstn (10 * Z.to_nat (Z.min (Z.of_nat n) 922337203685477581)) rows).
  { clear n. induction n as [| n IH].
    - replace (Z.to_nat (Z.min (Z.of_nat 0) 922337203685477581)) with 0%nat by lia.
      reflexivity.
    - rewrite seq_S, map_app, concat_app, IH. cbn [map List.concat Nat.add].
      rewrite app_nil_r, page_items_slice.
      destruct (fits_sqlite (Z.of_nat n * 10)) eqn:Hfit.
      + apply fits_sqlite_iff in Hfit.
        replace (Z.to_nat (Z.min (Z.of_nat n) 922337203685477581)) with n by lia.
        replace (Z.to_nat (Z.min (Z.of_nat (S n)) 922337203685477581))
          with (S n) by lia.
        replace (10 * S n)%nat with (10 * n + 10)%nat by lia.
        now rewrite firstn_plus.
      + apply offset_overflows in Hfit; [| lia]. rewrite app_nil_r.
        replace (Z.min (Z.of_nat (S n)) 922337203685477581)
          with (Z.min (Z.of_nat n) 922337203685477581) by lia.
        reflexivity. }
  split; [apply Hgen |].
  intros Hlen. rewrite Hgen.
  destruct (Z.le_gt_cases (Z.of_nat n) 922337203685477581) as [Hle | Hgt].
  - replace (Z.to_nat (Z.min (Z.of_nat n) 922337203685477581)) with n by lia.
    reflexivity.
  - rewrite !firstn_all2; [reflexivity | lia | lia].
Qed.

Lemma pages_partition_listing_witness :
  Z.of_nat (List.length (tickets mixed_db)) <= sqlite_max
  /\ List.concat (map (fun k => page_items (Z.of_nat k) (tickets mixed_db)) (seq 1 2))
     = firstn (10 * 2) (tickets mixed_db).
Proof.
  split; [apply Z.leb_le; reflexivity |].
  apply (proj2 (pages_partition_listing (tickets mixed_db) 2)).
  apply Z.leb_le. reflexivity.
Defined.

(** X13. Pagination answers 404 exactly for a page number below 1 and for
    a page other than the first whose offset, 10 rows for each page before
    it, SQLite holds (at most 2^63 - 1) and which starts at or past the
    end of the listing; the first page of an empty listing is served,
    empty.  It raises OverflowError, which the route answers with 500,
    exactly for a page of at least 1 whose offset exceeds 2^63 - 1. *)
Theorem paginate_not_found_iff :
  forall (page : Z) (rows : list Ticket.t),
    (paginate page 10 rows = Returned None
     <-> page < 1
         \/ (page <> 1
             /\ (page - 1) * 10 <= sqlite_max
             /\ Z.of_nat (List.length rows) <= (page - 1) * 10))
    /\ (paginate page 10 rows = Raised OverflowError
        <-> 1 <= page /\ sqlite_max < (page - 1) * 10).
Proof.
  intros page rows. rewrite paginate_spec. pose proof sqlite_range as Hr.
  set (k := Z.to_nat ((page - 1) * 10)).
  assert (Hnil : is_nil (firstn 10 (skipn k rows)) = true
                 <-> (List.length rows <= k)%nat).
  { pose proof (length_skipn k rows) as Hl.
    destruct (skipn k rows) as [| x m] eqn:E; simpl in *.
    - split; [lia | reflexivity].
    - split; [discriminate | lia]. }
  destruct (page <? 1) eqn:E1.
  { apply Z.ltb_lt in E1.
    split; split; [auto | reflexivity | discriminate | intros H; exfalso; lia]. }
  apply Z.ltb_ge in E1.
  destruct (fits_sqlite ((page - 1) * 10)) eqn:Hfit; cbn [negb].
  - apply fits_sqlite_iff in Hfit.
    destruct (page =? 1) eqn:E2; cbn [negb andb].
    + apply Z.eqb_eq in E2.
      split; split; [discriminate | intros H; exfalso; lia
                     | discriminate | intros H; exfalso; lia].
    + apply Z.eqb_neq in E2.
      destruct (is_nil (firstn 10 (skipn k rows))) eqn:E3.
      * split; split; [| reflexivity | discriminate | intros H; exfalso; lia].
        intros _. right. split; [exact E2 |]. split; [lia |].
        pose proof (proj1 Hnil eq_refl) as Hlen. unfold k in Hlen. lia.
      * split; split; [discriminate | | discriminate | intros H; exfalso; lia].
        intros [H | (_ & _ & H)]; [lia |].
        assert (Hlen : (List.length rows <= k)%nat) by (unfold k; lia).
        apply Hnil in Hlen. discriminate.
  - apply offset_overflows in Hfit; [| lia].
    split; split; [discriminate | intros H; exfalso; lia | intros _; lia | reflexivity].
Qed.

Lemma get_ticket_of_row db t :
  NoDup (map Ticket.id (tickets db)) -> In t (tickets db) ->
  get_ticket db (Ticket.id t) = Some t.
Proof.
  unfold get_ticket. induction (tickets db) as [| x rows IH]; simpl; [tauto |].
  intros ND Hin. inversion ND as [| ? ? Hx ND']; subst.
  destruct Hin as [-> | Hin]; [now rewrite Z.eqb_refl |].
  replace (Ticket.id x =? Ticket.id t) with false; [now apply IH |].
  symmetry. apply Z.eqb_neq. intros E. apply Hx. rewrite E. now apply in_map.
Qed.

(** X14. The listing and the detail page agree on who may see a ticket:
    ticket ids being distinct, every ticket a page of the listing shows to
    an actor is served to that actor by the detail route. *)
Theorem listed_ticket_can_be_opened :
  forall (sql_contains : string -> string -> bool)
         (sql_int_eq_text : Z -> string -> bool)
         (order_by_desc : (Ticket.t -> option Z) -> list Ticket.t -> list Ticket.t),
    order_by_contract order_by_desc ->
    forall (u : User.t) (args : DashboardArgs) (db : DB)
           (p : Pagination) (cats : list Category.t) (t : Ticket.t),
      NoDup (map Ticket.id (tickets db)) ->
      fst (dashboard sql_contains sql_int_eq_text order_by_desc (Some u) args db)
      = mkReply (RenderDashboard p cats) [] ->
      In t (items p) ->
      ticket_detail (Some u) (Ticket.id t) db
      = (mkAnswer (RenderTicketDetail t) [], db).
Proof.
  intros contains inteq engine Hc u args db p cats t ND Hrun Ht.
  destruct (dashboard_page _ _ _ _ _ _ _ _ Hrun) as [_ Hitems].
  rewrite Hitems in Ht. apply in_slice in Ht.
  apply (Permutation_in _ (Permutation_sym (dashboard_sorted_perm _ _ _ _ _ _ Hc)))
    in Ht.
  apply dashboard_query_sound in Ht as (Hin & Hown & _).
  unfold ticket_detail, login_required_h. rewrite (get_ticket_of_row _ _ ND Hin).
  destruct (String.eqb (User.role u) "user") eqn:Er; [| reflexivity].
  apply String.eqb_eq in Er. rewrite (Hown Er), Z.eqb_refl. reflexivity.
Qed.

Lemma listed_ticket_can_be_opened_witness :
  ticket_detail (Some carol) 2 sample_db
  = (mkAnswer (RenderTicketDetail ticket2) [], sample_db).
Proof.
  apply (listed_ticket_can_be_opened like_contains int_eq_text scan_order_by_desc
           scan_order_by_contract carol by_priority sample_db
           (mkPagination [ticket2] 1 10 1) (categories sample_db) ticket2).
  - simpl. repeat (constructor; [simpl; intuition discriminate |]). constructor.
  - reflexivity.
  - now left.
Defined.

(** ** Comments *)

Lemma lstrip_blank s : all_space s = true -> lstrip s = "".
Proof.
  induction s as [| c r IH]; simpl; [reflexivity |].
  intros H. apply andb_true_iff in H as [Hc Hr]. rewrite Hc. now apply IH.
Qed.

Lemma lstrip_keeps_ink s : all_space s = false -> all_space (lstrip s) = false.
Proof.
  induction s as [| c r IH]; simpl; [discriminate |].
  destruct (is_space c) eqn:Hc; simpl; [exact IH |].
  intros _. now rewrite Hc.
Qed.

Lemma rstrip_blank_iff s : rstrip s = "" <-> all_space s = true.
Proof.
  induction s as [| c r [IH1 IH2]]; simpl; [tauto |].
  destruct (rstrip r) as [| d r'] eqn:E.
  - rewrite (IH1 eq_refl), andb_true_r.
    destruct (is_space c); split; congruence.
  - split; [discriminate |]. intros H. apply andb_true_iff in H as [_ H].
    specialize (IH2 H). discriminate.
Qed.

Lemma strip_blank_iff s : strip s = "" <-> all_space s = true.
Proof.
  unfold strip. rewrite rstrip_blank_iff. split.
  - intros H. destruct (all_space s) eqn:E; [reflexivity |].
    apply lstrip_keeps_ink in E. congruence.
  - intros H. now rewrite (lstrip_blank s H).
Qed.

Lemma rstrip_twice s : rstrip (rstrip s) = rstrip s.
Proof.
  induction s as [| c r IH]; simpl; [reflexivity |].
  destruct (rstrip r) as [| d r'] eqn:E.
  - destruct (is_space c) eqn:Hc; simpl; [reflexivity | now rewrite Hc].
  - simpl in IH. simpl. destruct (rstrip r') as [| e r''] eqn:E'.
    + destruct (is_space d) eqn:Hd; [discriminate | now injection IH as <-].
    + now rewrite IH.
Qed.

Lemma lstrip_rstrip_lstrip s : lstrip (rstrip (lstrip s)) = rstrip (lstrip s).
Proof.
  induction s as [| c r IH]; simpl; [reflexivity |].
  destruct (is_space c) eqn:Hc; [exact IH |].
  simpl. destruct (rstrip r); rewrite ?Hc; simpl; now rewrite Hc.
Qed.

(** Stripping what is stripped changes nothing. *)
Lemma strip_twice s : strip (strip s) = strip s.
Proof. unfold strip. now rewrite lstrip_rstrip_lstrip, rstrip_twice. Qed.

(** X15. A user who is not the creator of a ticket cannot comment on it:
    the request is answered with the permission error and a redirect to
    the dashboard, and nothing is written, whatever the content. *)
Theorem comment_by_stranger_refused :
  forall (now : Z) (u : User.t) (tid : Z) (form_content : option string)
         (db : DB) (ticket : Ticket.t),
    get_ticket db tid = Some ticket ->
    User.role u = "user" ->
    Ticket.user_id ticket <> User.id u ->
    add_comment now (Some u) tid form_content db
    = (mkReply (Redirect EpDashboard)
         [("You do not have permission to comment on this ticket", "error")], db).
Proof.
  intros now u tid fc db ticket Hget Hrole Hne.
  unfold add_comment, login_required. rewrite Hget, Hrole.
  replace (Ticket.user_id ticket =? User.id u) with false
    by (symmetry; now apply Z.eqb_neq).
  reflexivity.
Qed.

Lemma comment_by_stranger_refused_witness :
  add_comment 70 (Some carol) 1 (Some "Me too") sample_db
  = (mkReply (Redirect EpDashboard)
       [("You do not have permission to comment on this ticket", "error")],
     sample_db).
Proof.
  apply (comment_by_stranger_refused 70 carol 1 (Some "Me too") sample_db ticket1).
  - reflexivity.
  - reflexivity.
  - discriminate.
Defined.

(** X16. A comment with no content, or whose content is white space only,
    is refused even from somebody who may comment: the request flashes
    that the comment cannot be empty, and nothing is written. *)
Theorem blank_comment_refused :
  forall (now : Z) (u : User.t) (tid : Z) (form_content : option string)
         (db : DB) (ticket : Ticket.t),
    get_ticket db tid = Some ticket ->
    may_comment u ticket ->
    (forall content, form_content = Some content -> all_space content = true) ->
    add_comment now (Some u) tid form_content db
    = (mkReply (Redirect (EpTicketDetail tid)) [("Comment cannot be empty", "error")],
       db).
Proof.
  intros now u tid fc db ticket Hget Hmay Hblank.
  unfold add_comment, login_required. rewrite Hget.
  replace (String.eqb (User.role u) "user"
           && negb (Ticket.user_id ticket =? User.id u))%bool with false.
  - destruct fc as [content |]; [| reflexivity].
    specialize (Hblank content eq_refl). apply strip_blank_iff in Hblank.
    rewrite Hblank. now rewrite andb_false_r.
  - symmetry. destruct Hmay as [Hr | Ho].
    + apply String.eqb_neq in Hr. now rewrite Hr.
    + rewrite Ho, Z.eqb_refl. apply andb_false_r.
Qed.

Lemma blank_comment_refused_witness :
  add_comment 70 (Some bob) 1 (Some "   ") sample_db
  = (mkReply (Redirect (EpTicketDetail 1)) [("Comment cannot be empty", "error")],
     sample_db).
Proof.
  apply (blank_comment_refused 70 bob 1 (Some "   ") sample_db ticket1).
  - reflexivity.
  - left. discriminate.
  - intros content E. injection E as <-. reflexivity.
Defined.

Section ReturnsAdding.
Variable uid : Z.
Variable P : Notification.t -> Prop.

Lemma returns_adding_ret : returns_adding uid P (ret tt).
Proof.
  intros db _. exists []. unfold ret. rewrite app_nil_r.
  split; [now destruct db | constructor].
Qed.

Lemma returns_adding_seq (m k : M unit) :
  returns_adding uid P m -> returns_adding uid P k ->
  returns_adding uid P (bind m (fun _ => k)).
Proof.
  intros Hm Hk db Hu. unfold bind.
  destruct (Hm db Hu) as (n1 & -> & F1).
  destruct (Hk (with_notifications db (notifications db ++ n1)%list) Hu)
    as (n2 & -> & F2).
  exists (n1 ++ n2)%list. simpl. rewrite app_assoc.
  split; [reflexivity | apply Forall_app; now split].
Qed.

Lemma returns_adding_read (k : DB -> M unit) :
  (forall db0, returns_adding uid P (k db0)) ->
  returns_adding uid P (bind read_db k).
Proof. intros Hk db Hu. unfold bind, read_db. now apply Hk. Qed.

Lemma returns_adding_when (c : bool) (m : M unit) :
  (c = true -> returns_adding uid P m) -> returns_adding uid P (when c m).
Proof.
  intros H. destruct c; simpl; [now apply H | apply returns_adding_ret].
Qed.

Lemma returns_adding_for_each {A} (xs : list A) (body : A -> M unit) :
  (forall x, returns_adding uid P (body x)) ->
  returns_adding uid P (for_each xs body).
Proof.
  intros H. induction xs as [| x rest IH]; simpl.
  - apply returns_adding_ret.
  - apply returns_adding_seq; [apply H | exact IH].
Qed.

Lemma returns_adding_notify now recipient tid typ (msg : string -> string) cid :
  (forall i a, P (Notification.mk i recipient tid cid typ (msg a) false now)) ->
  returns_adding uid P
    (bind (author_username uid) (fun a =>
       create_notification now recipient tid typ (msg a) cid)).
Proof.
  intros HP db Hu. unfold bind, author_username.
  destruct (get_user db uid) as [a |]; [| congruence].
  unfold create_notification. eexists. split; [reflexivity |].
  constructor; [apply HP | constructor].
Qed.

End ReturnsAdding.

Lemma notify_comment_added_returns now comment ticket db :
  get_ticket db (Comment.ticket_id comment) = Some ticket ->
  get_user db (Comment.user_id comment) <> None ->
  exists new,
    notify_comment_added now comment db
    = (Returned tt, with_notifications db (notifications db ++ new)%list)
    /\ Forall (about_comment now comment) new.
Proof.
  intros Hget Hu. pose proof (get_ticket_id _ _ _ Hget) as Hid.
  unfold notify_comment_added.
  match goal with
  | |- exists new, bind (comment_ticket comment) ?k db = _ /\ _ =>
      assert (Hk : returns_adding (Comment.user_id comment)
                     (about_comment now comment) (k ticket))
  end.
  { cbv beta. apply returns_adding_seq; [| apply returns_adding_seq].
    - apply returns_adding_when. intros Hc.
      apply negb_true_iff, Z.eqb_neq in Hc.
      apply (returns_adding_notify _ _ now (Ticket.user_id ticket) (Ticket.id ticket)
               "comment_added"
               (fun a => "New comment on your ticket " ++ dq ++ Ticket.subject ticket
                         ++ dq ++ " by " ++ a)%string).
      intros i a. unfold about_comment. simpl. repeat split; congruence.
    - destruct (Ticket.assigned_to ticket) as [assigned |];
        [| apply returns_adding_ret].
      apply returns_adding_when. intros Hc.
      apply andb_true_iff in Hc as [Hc _]. apply andb_true_iff in Hc as [_ Hc].
      apply negb_true_iff, Z.eqb_neq in Hc.
      apply (returns_adding_notify _ _ now assigned (Ticket.id ticket)
               "comment_added"
               (fun a => "New comment on assigned ticket " ++ dq
                         ++ Ticket.subject ticket ++ dq ++ " by " ++ a)%string).
      intros i a. unfold about_comment. simpl. repeat split; congruence.
    - apply returns_adding_when. intros _. apply returns_adding_read. intros db0.
      apply returns_adding_for_each. intros admin.
      apply returns_adding_when. intros Hc.
      apply negb_true_iff, Z.eqb_neq in Hc.
      apply (returns_adding_notify _ _ now (User.id admin) (Ticket.id ticket)
               "comment_added"
               (fun a => "New comment on " ++ Ticket.priority ticket
                         ++ " priority ticket " ++ dq ++ Ticket.subject ticket ++ dq
                         ++ " by " ++ a)%string).
      intros i a. unfold about_comment. simpl. repeat split; congruence. }
  unfold bind at 1. unfold comment_ticket at 1. rewrite Hget. exact (Hk db Hu).
Qed.

(** X17. Somebody who may comment, and whose user row exists, posts a
    content that is not blank on an existing ticket: the request succeeds;
    one comment is added, by that user, on that ticket, with a fresh id,
    its content being the content sent without the surrounding white
    space, hence not empty; the ticket's updated timestamp becomes the
    time of the call; and all notifications added are unread
    comment_added notifications of this comment to users other than the
    commenter. *)
Theorem comment_is_stored_and_notified :
  forall (now : Z) (u : User.t) (tid : Z) (content : string) (db : DB)
         (ticket : Ticket.t),
    get_ticket db tid = Some ticket ->
    may_comment u ticket ->
    get_user db (User.id u) <> None ->
    all_space content = false ->
    let comment :=
      Comment.mk (next_id (map Comment.id (comments db))) (strip content) now
        (User.id u) tid in
    exists db',
      add_comment now (Some u) tid (Some content) db
      = (mkReply (Redirect (EpTicketDetail tid))
           [("Comment added successfully!", "success")], db')
      /\ comments db' = (comments db ++ [comment])%list
      /\ ~ In (Comment.id comment) (map Comment.id (comments db))
      /\ Comment.content comment <> ""
      /\ strip (Comment.content comment) = Comment.content comment
      /\ get_ticket db' tid = Some (Ticket.set_updated_at ticket now)
      /\ users db' = users db
      /\ exists new,
           notifications db' = (notifications db ++ new)%list
           /\ Forall (about_comment now comment) new.
Proof.
  intros now u tid content db ticket Hget Hmay Hu Hink comment.
  assert (Hstrip : strip content <> "").
  { intros E. apply strip_blank_iff in E. congruence. }
  unfold add_comment, login_required. rewrite Hget.
  replace (String.eqb (User.role u) "user"
           && negb (Ticket.user_id ticket =? User.id u))%bool with false.
  2:{ symmetry. destruct Hmay as [Hr | Ho].
      - apply String.eqb_neq in Hr. now rewrite Hr.
      - rewrite Ho, Z.eqb_refl. apply andb_false_r. }
  replace (nonempty content && nonempty (strip content))%bool with true.
  2:{ symmetry. apply andb_true_iff. split.
      - destruct content; [discriminate | reflexivity].
      - destruct (strip content); [congruence | reflexivity]. }
  fold comment.
  set (db1 := with_comments db (comments db ++ [comment])%list).
  set (db2 := commit_ticket now ticket (Ticket.set_updated_at ticket now) db1).
  assert (Hget1 : get_ticket db1 tid = Some ticket) by exact Hget.
  pose proof (commit_ticket_frame now ticket (Ticket.set_updated_at ticket now) db1)
    as (Hus & _ & Hcs & Hns). fold db2 in Hus, Hcs, Hns.
  assert (Hget2 : get_ticket db2 tid = Some (Ticket.set_updated_at ticket now)).
  { unfold db2.
    rewrite (commit_ticket_get now ticket (Ticket.set_updated_at ticket now)
               db1 tid Hget1 eq_refl).
    unfold committed_row. now destruct (_ && _)%bool. }
  assert (Hu2 : get_user db2 (Comment.user_id comment) <> None).
  { unfold get_user. rewrite Hus. exact Hu. }
  destruct (notify_comment_added_returns now comment _ db2 Hget2 Hu2)
    as (new & Hrun & Hnew).
  unfold call. rewrite Hrun.
  eexists. split; [reflexivity |]. simpl.
  rewrite Hcs, Hus, Hns. simpl.
  repeat split; try assumption.
  - intros Hin. apply next_id_above in Hin. lia.
  - apply strip_twice.
  - exists new. split; [reflexivity | exact Hnew].
Qed.

Lemma comment_is_stored_and_notified_witness :
  exists db',
    add_comment 70 (Some bob) 2 (Some "  On it.  ") sample_db
    = (mkReply (Redirect (EpTicketDetail 2))
         [("Comment added successfully!", "success")], db')
    /\ map Comment.content (comments db') = ["Looking into it"; "On it."]
    /\ map Notification.user_id (notifications db') = [3; 1].
Proof.
  destruct (comment_is_stored_and_notified 70 bob 2 "  On it.  " sample_db ticket2)
    as (db' & Hrun & _).
  - reflexivity.
  - left. discriminate.
  - discriminate.
  - reflexivity.
  - exists db'. split; [exact Hrun |].
    vm_compute in Hrun. injection Hrun as <-. split; reflexivity.
Defined.

(** ** Uploads and text filters *)

Lemma after_last_dot_none s : after_last_dot s = None <-> has_dot s = false.
Proof.
  induction s as [| c r [IH1 IH2]]; simpl; [tauto |].
  destruct (after_last_dot r) as [e |].
  - split; [discriminate |]. intros H. apply orb_false_iff in H as [_ H].
    specialize (IH2 H). discriminate.
  - rewrite (IH1 eq_refl), orb_false_r.
    destruct (Ascii.eqb c "."); split; congruence.
Qed.

Lemma after_last_dot_split s ext :
  after_last_dot s = Some ext <->
  exists stem, s = (stem ++ "." ++ ext)%string /\ has_dot ext = false.
Proof.
  split.
  - revert ext. induction s as [| c r IH]; simpl; intros ext H; [discriminate |].
    destruct (after_last_dot r) as [e |] eqn:E.
    + injection H as ->. destruct (IH ext eq_refl) as (stem & -> & Hd).
      exists (String c stem). now split.
    + destruct (Ascii.eqb c ".") eqn:Ec; [| discriminate].
      injection H as ->. apply Ascii.eqb_eq in Ec. subst c.
      exists "". split; [reflexivity | now apply after_last_dot_none].
  - intros (stem & -> & Hd). apply after_last_dot_none in Hd.
    induction stem as [| c st IH]; simpl; [now rewrite Hd |].
    simpl in IH. now rewrite IH.
Qed.

(** X18. A file name is accepted for upload exactly when it has a dot and
    what follows its last dot is, letter case aside, one of txt, pdf, png,
    jpg, jpeg, gif, doc, docx: only the last extension counts, and a name
    without a dot is never accepted. *)
Theorem allowed_file_iff :
  forall filename : string,
    allowed_file filename = true <->
    exists stem ext,
      filename = (stem ++ "." ++ ext)%string
      /\ has_dot ext = false
      /\ In (lower ext) ALLOWED_EXTENSIONS.
Proof.
  intros filename. unfold allowed_file. split.
  - intros H. apply andb_true_iff in H as [_ H].
    destruct (after_last_dot filename) as [ext |] eqn:E; [| discriminate].
    apply after_last_dot_split in E as (stem & -> & Hd).
    exists stem, ext. repeat split; [exact Hd | now apply str_in_In].
  - intros (stem & ext & -> & Hd & Hin).
    assert (E : after_last_dot (stem ++ "." ++ ext) = Some ext).
    { apply after_last_dot_split. now exists stem. }
    rewrite E. apply andb_true_iff. split; [| now apply str_in_In].
    destruct (has_dot (stem ++ "." ++ ext)) eqn:Hdot; [reflexivity |].
    apply after_last_dot_none in Hdot. congruence.
Qed.

Lemma count_char_append c s1 s2 :
  count_char c (s1 ++ s2) = (count_char c s1 + count_char c s2)%nat.
Proof.
  induction s1 as [| d r IH]; simpl; [reflexivity | rewrite IH; lia].
Qed.

(** X19. The nl2br filter leaves no newline in a text and keeps every
    other character: the result has three characters more for each
    newline of the text, and as many of any character that occurs neither
    in a newline nor in the tag; a missing text stays missing. *)
Theorem nl2br_leaves_no_newline :
  nl2br_filter None = None
  /\ forall text : string,
       exists out,
         nl2br_filter (Some text) = Some out
         /\ count_char newline out = 0%nat
         /\ String.length out
            = (String.length text + 3 * count_char newline text)%nat
         /\ (forall c, c <> newline -> ~ In c (list_ascii_of_string "<br>") ->
               count_char c out = count_char c text).
Proof.
  split; [reflexivity |].
  intros text. exists (replace_newlines text). split.
  - unfold nl2br_filter. now destruct text.
  - repeat split.
    + induction text as [| c r IH]; simpl; [reflexivity |].
      destruct (Ascii.eqb c newline) eqn:E; simpl; [exact IH | now rewrite E].
    + induction text as [| c r IH]; simpl; [reflexivity |].
      destruct (Ascii.eqb c newline) eqn:E; simpl; rewrite IH; lia.
    + intros c Hc Hbr.
      assert (Htag : count_char c "<br>" = 0%nat).
      { assert (H : forall d, In d (list_ascii_of_string "<br>") ->
                              Ascii.eqb d c = false).
        { intros d Hd. apply Ascii.eqb_neq. intros ->. now apply Hbr. }
        cbn [count_char].
        rewrite !H by (cbn [list_ascii_of_string In]; auto 10). reflexivity. }
      induction text as [| d r IH]; [reflexivity |].
      cbn [replace_newlines].
      destruct (Ascii.eqb d newline) eqn:E.
      * apply Ascii.eqb_eq in E. subst d.
        rewrite count_char_append, Htag, IH. cbn [count_char].
        replace (Ascii.eqb newline c) with false; [reflexivity |].
        symmetry. apply Ascii.eqb_neq. congruence.
      * cbn [count_char]. now rewrite IH.
Qed.

(** ** Categories *)

Lemma get_category_id db cid c : get_category db cid = Some c -> Category.id c = cid.
Proof.
  unfold get_category. intros H. apply find_some in H as [_ H]. now apply Z.eqb_eq.
Qed.

(** X20. Neither category route serves an actor who is not an admin: the
    request is answered with the access-denied message and a redirect to
    the dashboard, and nothing is created or deleted. *)
Theorem categories_are_admin_only :
  forall (now : Z) (u : User.t) (db : DB),
    User.role u <> "admin" ->
    (forall cid,
       delete_category (Some u) cid db
       = (mkAnswer (Core (Redirect EpDashboard)) [("Access denied", "error")], db))
    /\ (forall form,
       admin_categories now (Some u) form db
       = (mkAnswer (Core (Redirect EpDashboard)) [("Access denied", "error")], db)).
Proof.
  intros now u db Hrole. apply String.eqb_neq in Hrole.
  unfold delete_category, admin_categories, login_required_h.
  rewrite Hrole. split; reflexivity.
Qed.

Lemma categories_are_admin_only_witness :
  delete_category (Some bob) 1 sample_db
  = (mkAnswer (Core (Redirect EpDashboard)) [("Access denied", "error")], sample_db).
Proof.
  destruct (categories_are_admin_only 0 bob sample_db) as [H _];
    [discriminate | apply H].
Defined.

(** X21. A category under which a ticket is filed is not deleted, not
    even by an admin: the request flashes that the category has tickets
    and writes nothing. *)
Theorem category_in_use_is_kept :
  forall (u : User.t) (cid : Z) (db : DB) (c : Category.t) (t : Ticket.t),
    User.role u = "admin" ->
    get_category db cid = Some c ->
    In t (tickets db) ->
    Ticket.category_id t = Category.id c ->
    delete_category (Some u) cid db
    = (mkAnswer RedirectAdminCategories
         [("Cannot delete category with existing tickets", "error")], db).
Proof.
  intros u cid db c t Hrole Hget Hin Hcat.
  unfold delete_category, login_required_h. rewrite Hrole, Hget. simpl negb.
  cbv iota. unfold category_tickets.
  destruct (filter _ (tickets db)) as [| x r] eqn:E; [| reflexivity].
  exfalso. assert (Hf : In t []) ; [| exact Hf].
  rewrite <- E. apply filter_In. split; [exact Hin | now apply Z.eqb_eq].
Qed.

Lemma category_in_use_is_kept_witness :
  delete_category (Some alice) 1 sample_db
  = (mkAnswer RedirectAdminCategories
       [("Cannot delete category with existing tickets", "error")], sample_db).
Proof.
  eapply (category_in_use_is_kept alice 1 sample_db _ ticket1).
  - reflexivity.
  - reflexivity.
  - now left.
  - reflexivity.
Defined.

Lemma find_after_delete (cid i : Z) (rows : list Category.t) :
  find (fun c => Category.id c =? i)
       (filter (fun c => negb (Category.id c =? cid)) rows)
  = if i =? cid then None else find (fun c => Category.id c =? i) rows.
Proof.
  induction rows as [| x r IH]; simpl; [now destruct (i =? cid) |].
  destruct (Category.id x =? cid) eqn:E1; simpl.
  - rewrite IH. destruct (i =? cid) eqn:E2; [reflexivity |].
    apply Z.eqb_eq in E1. apply Z.eqb_neq in E2.
    replace (Category.id x =? i) with false
      by (symmetry; apply Z.eqb_neq; congruence).
    reflexivity.
  - rewrite IH. destruct (Category.id x =? i) eqn:E3; [| reflexivity].
    apply Z.eqb_eq in E3. subst i. now rewrite E1.
Qed.

(** X22. An admin deletes a category under which no ticket is filed: the
    request succeeds, the category can no longer be fetched, every other
    category is fetched as before, and no other table is touched. *)
Theorem unused_category_is_deleted :
  forall (u : User.t) (cid : Z) (db : DB) (c : Category.t),
    User.role u = "admin" ->
    get_category db cid = Some c ->
    (forall t, In t (tickets db) -> Ticket.category_id t <> cid) ->
    exists db',
      delete_category (Some u) cid db
      = (mkAnswer RedirectAdminCategories
           [("Category deleted successfully!", "success")], db')
      /\ get_category db' cid = None
      /\ (forall i, i <> cid -> get_category db' i = get_category db i)
      /\ users db' = users db /\ tickets db' = tickets db
      /\ comments db' = comments db /\ notifications db' = notifications db.
Proof.
  intros u cid db c Hrole Hget Hfree.
  pose proof (get_category_id _ _ _ Hget) as Hid.
  unfold delete_category, login_required_h. rewrite Hrole, Hget. simpl negb.
  cbv iota. unfold category_tickets.
  destruct (filter _ (tickets db)) as [| x r] eqn:E.
  - eexists. split; [reflexivity |]. unfold get_category. simpl. rewrite Hid.
    repeat split.
    + rewrite find_after_delete. now rewrite Z.eqb_refl.
    + intros i Hi. rewrite find_after_delete.
      now replace (i =? cid) with false by (symmetry; now apply Z.eqb_neq).
  - exfalso. assert (Hx : In x (x :: r)) by now left.
    rewrite <- E in Hx. apply filter_In in Hx as [Hin Hx].
    apply Z.eqb_eq in Hx. apply (Hfree x Hin). congruence.
Qed.

Lemma unused_category_is_deleted_witness :
  exists db',
    delete_category (Some alice) 1 (with_tickets sample_db [])
    = (mkAnswer RedirectAdminCategories
         [("Category deleted successfully!", "success")], db')
    /\ categories db' = [].
Proof.
  destruct (unused_category_is_deleted alice 1 (with_tickets sample_db [])
              (Category.mk 1 "Technical Support"
                 (Some "Technical issues and problems") 0))
    as (db' & Hrun & _).
  - reflexivity.
  - reflexivity.
  - intros t [].
  - exists db'. split; [exact Hrun |].
    vm_compute in Hrun. injection Hrun as <-. reflexivity.
Defined.

(** X23. Deleting categories never orphans a ticket: if every ticket is
    filed under a category that exists, this is still so after any
    request to the delete route, by anybody and for any category id. *)
Theorem delete_category_keeps_tickets_filed :
  forall (current_user : option User.t) (cid : Z) (db : DB),
    categories_resolve db ->
    categories_resolve (snd (delete_category current_user cid db)).
Proof.
  intros cu cid db Hinv.
  unfold delete_category, login_required_h.
  destruct cu as [u |]; [| exact Hinv].
  destruct (negb (String.eqb (User.role u) "admin")); [exact Hinv |].
  destruct (get_category db cid) as [c |] eqn:Hget; [| exact Hinv].
  pose proof (get_category_id _ _ _ Hget) as Hid.
  unfold category_tickets.
  destruct (filter _ (tickets db)) as [| x r] eqn:E; [| exact Hinv].
  intros t Ht. simpl in Ht. unfold get_category. simpl categories.
  rewrite find_after_delete.
  destruct (Ticket.category_id t =? Category.id c) eqn:Ec.
  - exfalso. assert (Hf : In t []); [| exact Hf].
    rewrite <- E. apply filter_In. now split.
  - now apply Hinv.
Qed.

Lemma delete_category_keeps_tickets_filed_witness :
  categories_resolve (snd (delete_category (Some alice) 1 sample_db)).
Proof.
  apply delete_category_keeps_tickets_filed.
  intros t [<- | [<- | []]]; discriminate.
Defined.

(** X24. An admin posts a new category. With a name that is missing or
    empty nothing is created and the form is shown again with an error.
    With a name, the category is appended with that name, the description
    sent and a key no category had; it can be fetched by that key, and
    every category that was there is fetched as before. *)
Theorem category_is_created :
  forall (now : Z) (u : User.t) (db : DB),
    User.role u = "admin" ->
    (forall name description,
       name = None \/ name = Some "" ->
       admin_categories now (Some u) (Some (name, description)) db
       = (mkAnswer (RenderCategories (categories db))
            [("Category name is required", "error")], db))
    /\ (forall name description,
       name <> "" ->
       let key := next_id (map Category.id (categories db)) in
       let category := Category.mk key name description now in
       let db' := with_categories db (categories db ++ [category])%list in
       admin_categories now (Some u) (Some (Some name, description)) db
       = (mkAnswer RedirectAdminCategories
            [("Category created successfully!", "success")], db')
       /\ ~ In key (map Category.id (categories db))
       /\ get_category db' key = Some category
       /\ (forall i, In i (map Category.id (categories db)) ->
             get_category db' i = get_category db i)).
Proof.
  intros now u db Hrole.
  unfold admin_categories, login_required_h. rewrite Hrole. simpl negb. cbv iota.
  split.
  - intros name description [-> | ->]; reflexivity.
  - intros name description Hname. cbv zeta.
    set (key := next_id (map Category.id (categories db))).
    set (category := Category.mk key name description now).
    set (db' := with_categories db (categories db ++ [category])%list).
    assert (Hfresh : forall c, In c (categories db) -> Category.id c <> key).
    { intros c Hc.
      pose proof (next_id_above (map Category.id (categories db)) (Category.id c)
                    (in_map _ _ _ Hc)) as Hlt. fold key in Hlt. lia. }
    repeat split.
    + destruct name; [congruence | reflexivity].
    + intros Hin. apply in_map_iff in Hin as (c & E & Hc).
      now apply (Hfresh c Hc).
    + unfold get_category, db'. simpl categories. revert Hfresh.
      generalize (categories db) as rows.
      induction rows as [| x r IH]; simpl; intros H.
      * now rewrite (Z.eqb_refl key).
      * replace (Category.id x =? key) with false
          by (symmetry; apply Z.eqb_neq; apply H; now left).
        apply IH. intros c Hc. apply H. now right.
    + intros i Hi. unfold get_category, db'. simpl categories. revert Hi.
      generalize (categories db) as rows.
      induction rows as [| x r IH]; simpl; [tauto |].
      intros [<- | Hi]; [now rewrite Z.eqb_refl |].
      destruct (Category.id x =? i); [reflexivity | now apply IH].
Qed.

Lemma category_is_created_witness :
  admin_categories 80 (Some alice) (Some (Some "Billing", None)) sample_db
  = (mkAnswer RedirectAdminCategories
       [("Category created successfully!", "success")],
     with_categories sample_db
       (categories sample_db ++ [Category.mk 2 "Billing" None 80])%list).
Proof.
  destruct (category_is_created 80 alice sample_db eq_refl) as [_ H].
  destruct (H "Billing" None) as [Hrun _]; [discriminate | exact Hrun].
Defined.

(** ** Accounts *)

Lemma match_not_at_plus_intro (k : Matcher) (p r : string) :
  p <> "" -> no_at p = true -> k r = true ->
  match_not_at_plus k (p ++ r) = true.
Proof.
  induction p as [| d p IH]; [congruence |].
  intros _ Hp Hk. simpl in *. apply andb_true_iff in Hp as [Hd Hp].
  rewrite Hd. simpl. destruct p as [| e p]; [simpl; now rewrite Hk |].
  rewrite IH; [apply orb_true_r | discriminate | exact Hp | exact Hk].
Qed.

Lemma match_not_at_plus_elim (k : Matcher) (s : string) :
  match_not_at_plus k s = true ->
  exists p r, s = (p ++ r)%string /\ p <> "" /\ no_at p = true /\ k r = true.
Proof.
  induction s as [| d s IH]; simpl; [discriminate |].
  intros H. apply andb_true_iff in H as [Hd H].
  destruct (k s) eqn:Hk.
  - exists (String d ""), s. simpl. rewrite Hd. repeat split; congruence.
  - simpl in H. destruct (IH H) as (p & r & -> & _ & Hp & Hr).
    exists (String d p), r. simpl. rewrite Hd, Hp. repeat split; congruence.
Qed.

Lemma match_lit_elim (c : ascii) (k : Matcher) (s : string) :
  match_lit c k s = true -> exists r, s = String c r /\ k r = true.
Proof.
  destruct s as [| d r]; simpl; [discriminate |].
  intros H. apply andb_true_iff in H as [Hd Hk].
  apply Ascii.eqb_eq in Hd. subst d. now exists r.
Qed.

(** X25. The e-mail check accepts exactly the texts that begin with a
    non-empty part without [@], then [@], then a non-empty part without
    [@], then a dot, then at least one character other than [@]; what
    follows is not looked at, so a text with more after a well-formed
    start is accepted too. *)
Theorem email_matches_iff :
  forall email : string,
    email_matches email = true <->
    exists name domain tail rest,
      email = (name ++ "@" ++ domain ++ "." ++ tail ++ rest)%string
      /\ name <> "" /\ domain <> "" /\ tail <> ""
      /\ no_at name = true /\ no_at domain = true /\ no_at tail = true.
Proof.
  intros email. unfold email_matches. split.
  - intros H.
    apply match_not_at_plus_elim in H as (name & r1 & -> & Hn & Hna & H).
    apply match_lit_elim in H as (r2 & -> & H).
    apply match_not_at_plus_elim in H as (domain & r3 & -> & Hd & Hda & H).
    apply match_lit_elim in H as (r4 & -> & H).
    apply match_not_at_plus_elim in H as (tail & rest & -> & Ht & Hta & _).
    exists name, domain, tail, rest. repeat split; assumption.
  - intros (name & domain & tail & rest & -> & Hn & Hd & Ht & Hna & Hda & Hta).
    apply match_not_at_plus_intro; [exact Hn | exact Hna |].
    simpl. apply match_not_at_plus_intro; [exact Hd | exact Hda |].
    simpl. now apply match_not_at_plus_intro.
Qed.

Lemma not_taken {A} (f : User.t -> A) (g : User.t -> bool) (rows : list User.t) (a : A) :
  (forall u, f u = a -> g u = true) ->
  find g rows = None -> ~ In a (map f rows).
Proof.
  intros Hg Hf Hin. apply in_map_iff in Hin as (u & E & Hu).
  pose proof (find_none _ _ Hf u Hu) as H. rewrite (Hg u E) in H. discriminate.
Qed.

Lemma insert_user_fresh hash now username email password role roles db :
  In role roles ->
  username <> "" -> email_matches email = true ->
  user_by_username db username = None ->
  user_by_email db email = None ->
  adds_fresh_user roles db (insert_user hash now username email password role db).
Proof.
  intros Hrole Hname Hmail Hu He. right. eexists. split; [reflexivity |]. simpl.
  repeat split; try assumption.
  - intros Hin. apply next_id_above in Hin. lia.
  - apply (not_taken User.username _ _ _ (fun u E => proj2 (String.eqb_eq _ _) E) Hu).
  - apply (not_taken User.email _ _ _ (fun u E => proj2 (String.eqb_eq _ _) E) He).
Qed.

Lemma adds_fresh_user_unique roles db db' :
  adds_fresh_user roles db db' ->
  (NoDup (map User.id (users db)) -> NoDup (map User.id (users db')))
  /\ (NoDup (map User.username (users db)) -> NoDup (map User.username (users db')))
  /\ (NoDup (map User.email (users db)) -> NoDup (map User.email (users db'))).
Proof.
  intros [-> | (u & -> & _ & Hid & Hname & Hmail & _)]; [tauto |].
  rewrite !map_app. simpl.
  repeat split; intros ND;
    (apply NoDup_app; [exact ND | repeat constructor; simpl; tauto |]);
    intros x Hx [<- | []]; tauto.
Qed.

Lemma given_text x : given x = true -> x = Some (text_of x) /\ text_of x <> "".
Proof.
  destruct x as [[| c r] |]; simpl; try discriminate.
  intros _. split; [reflexivity | discriminate].
Qed.

(** X26. Whatever is sent to the registration route, and whatever the
    form says about a role: the user table is left as it is or gets one
    user more, of role user, with a non-empty name and an e-mail that
    passes the check, whose key, name and e-mail nobody had; so keys,
    names and e-mails that were distinct stay distinct. No user already
    there is changed and no other table is touched. *)
Theorem register_adds_only_fresh_users :
  forall (generate_password_hash : string -> string) (now : Z)
         (form : option AccountForm) (db : DB),
    let db' := snd (register generate_password_hash now form db) in
    adds_fresh_user ["user"] db db'
    /\ (NoDup (map User.id (users db)) -> NoDup (map User.id (users db')))
    /\ (NoDup (map User.username (users db)) -> NoDup (map User.username (users db')))
    /\ (NoDup (map User.email (users db)) -> NoDup (map User.email (users db')))
    /\ categories db' = categories db /\ tickets db' = tickets db
    /\ comments db' = comments db /\ notifications db' = notifications db.
Proof.
  intros hash now form db db'.
  assert (H : adds_fresh_user ["user"] db db'
              /\ categories db' = categories db /\ tickets db' = tickets db
              /\ comments db' = comments db /\ notifications db' = notifications db).
  { unfold db', register. destruct form as [f |]; [| simpl; repeat split; now left].
    destruct (given (form_username f)) eqn:Hu; [| simpl; repeat split; now left].
    destruct (given (form_email f)) eqn:He; [| simpl; repeat split; now left].
    destruct (given (form_password f)) eqn:Hp; [| simpl; repeat split; now left].
    cbn [negb orb].
    destruct (_ <? _)%nat; [simpl; repeat split; now left |].
    destruct (email_matches _) eqn:Hm; [| simpl; repeat split; now left].
    cbn [negb].
    destruct (user_by_username db _) eqn:Hfu; [simpl; repeat split; now left |].
    destruct (user_by_email db _) eqn:Hfe; [simpl; repeat split; now left |].
    cbn [is_some snd]. repeat split.
    apply insert_user_fresh; try assumption; [now left |].
    now apply given_text in Hu. }
  destruct H as (Hadd & Hrest).
  destruct (adds_fresh_user_unique _ _ _ Hadd) as (H1 & H2 & H3).
  repeat split; try assumption; apply Hrest.
Qed.

(** X27. A registration with a name nobody has, an e-mail that passes the
    check and that nobody has, and a password of at least 6 characters
    succeeds: the visitor is sent to the login page, and one user is
    added under the next key, with that name and e-mail, the hash of the
    password, and the role user whatever role the form carries. *)
Theorem register_creates_user :
  forall (generate_password_hash : string -> string) (now : Z)
         (username email password : string) (role : option string) (db : DB),
    username <> "" ->
    email_matches email = true ->
    (6 <= String.length password)%nat ->
    user_by_username db username = None ->
    user_by_email db email = None ->
    register generate_password_hash now
      (Some (mkAccountForm (Some username) (Some email) (Some password) role)) db
    = (mkAnswer (Core (Redirect EpLogin))
         [("Registration successful! Please login.", "success")],
       with_users db
         (users db
          ++ [User.mk (next_id (map User.id (users db))) username email
                (generate_password_hash password) "user" now])%list).
Proof.
  intros hash now username email password role db Hname Hmail Hlen Hu He.
  unfold register. cbn [form_username form_email form_password given text_of].
  assert (Hn : nonempty username = true).
  { destruct username; [now destruct Hname | reflexivity]. }
  assert (Hm : nonempty email = true).
  { destruct email; [discriminate | reflexivity]. }
  assert (Hp : nonempty password = true).
  { destruct password; [simpl in Hlen; lia | reflexivity]. }
  rewrite Hn, Hm, Hp. cbn [negb orb].
  replace (String.length password <? 6)%nat with false
    by (symmetry; apply Nat.ltb_ge; exact Hlen).
  rewrite Hmail, Hu, He. reflexivity.
Qed.

Lemma register_creates_user_witness :
  users (snd (register sample_hash 90
                (Some (mkAccountForm (Some "dave") (Some "dave@example.org")
                         (Some "secret1") (Some "admin"))) sample_db))
  = [alice; bob; carol;
     User.mk 4 "dave" "dave@example.org" "hash:secret1" "user" 90].
Proof.
  rewrite (register_creates_user sample_hash 90 "dave" "dave@example.org" "secret1"
             (Some "admin") sample_db); try reflexivity.
  - discriminate.
  - simpl. lia.
Defined.

(** X28. Whatever is sent to the admin's new-user route: when the actor
    is anonymous or not an admin, nothing is written; otherwise the user
    table is left as it is or gets one user more, whose role is user,
    agent or admin, with a non-empty name and an e-mail that passes the
    check, whose key, name and e-mail nobody had. No user already there is
    changed and no other table is touched. *)
Theorem admin_new_user_adds_only_fresh_users :
  forall (generate_password_hash : string -> string) (now : Z)
         (current_user : option User.t) (form : option AccountForm) (db : DB),
    let db' := snd (admin_new_user generate_password_hash now current_user form db) in
    adds_fresh_user ["user"; "agent"; "admin"] db db'
    /\ ((forall u, current_user = Some u -> User.role u <> "admin") -> db' = db)
    /\ (NoDup (map User.id (users db)) -> NoDup (map User.id (users db')))
    /\ (NoDup (map User.username (users db)) -> NoDup (map User.username (users db')))
    /\ (NoDup (map User.email (users db)) -> NoDup (map User.email (users db')))
    /\ categories db' = categories db /\ tickets db' = tickets db
    /\ comments db' = comments db /\ notifications db' = notifications db.
Proof.
  intros hash now cu form db db'.
  assert (H : adds_fresh_user ["user"; "agent"; "admin"] db db'
              /\ ((forall u, cu = Some u -> User.role u <> "admin") -> db' = db)
              /\ categories db' = categories db /\ tickets db' = tickets db
              /\ comments db' = comments db /\ notifications db' = notifications db).
  { unfold db', admin_new_user, login_required_h.
    destruct cu as [u |]; [| simpl; repeat split; now left].
    destruct (String.eqb (User.role u) "admin") eqn:Hadmin;
      [| simpl; repeat split; now left].
    apply String.eqb_eq in Hadmin. cbn [negb].
    assert (Hnot : forall d : DB,
              (forall v, Some u = Some v -> User.role v <> "admin") -> d = db).
    { intros d Hv. now destruct (Hv u eq_refl). }
    destruct form as [f |]; [| simpl; repeat split; auto; now left].
    destruct (given (form_username f)) eqn:Hu; [| simpl; repeat split; auto; now left].
    destruct (given (form_email f)) eqn:He; [| simpl; repeat split; auto; now left].
    destruct (given (form_password f)) eqn:Hp; [| simpl; repeat split; auto; now left].
    cbn [negb orb].
    destruct (_ <? _)%nat; [simpl; repeat split; auto; now left |].
    destruct (email_matches _) eqn:Hm; [| simpl; repeat split; auto; now left].
    cbn [negb].
    destruct (str_in _ _) eqn:Hrole; [| simpl; repeat split; auto; now left].
    cbn [negb].
    destruct (user_by_username db _) eqn:Hfu; [simpl; repeat split; auto; now left |].
    destruct (user_by_email db _) eqn:Hfe; [simpl; repeat split; auto; now left |].
    cbn [is_some snd]. repeat split; auto.
    apply insert_user_fresh; try assumption; [now apply str_in_In |].
    now apply given_text in Hu. }
  destruct H as (Hadd & Hdenied & Hrest).
  destruct (adds_fresh_user_unique _ _ _ Hadd) as (H1 & H2 & H3).
  repeat split; try assumption; apply Hrest.
Qed.

(** ** Filing a ticket *)






